(** * Graphite Flux: signalling hub and peer-to-peer transfer protocol

    A shallow embedding of the Flux signalling server (the Node.js hub:
    connect codes, connection registry, session table) and of the Blip
    client's [DataChannelManager] (chunked file transfer with a whole-file
    SHA-256 digest), followed by the properties established over them.

    Conventions.
    - JavaScript numbers that hold counters and Swift's [Int], [Int64] and
      [UInt32] are integers in [Z]; wrap-around or traps are written out
      where the source can reach them.
    - A Swift [Data] is a [list byte]; a Swift or JavaScript string is a
      [string] holding its UTF-8 bytes.
    - A JavaScript [Map] is an insertion-ordered association list
      ([JsMap]); the Swift dictionary [receivingChunks] is a [gmap].
    - Handlers are functions from a state (and the part of the environment
      they read) to a new state and the list of effects they issue. *)

From Stdlib Require Import ZArith List String Ascii QArith Qround Lia Bool DecimalString.
From coqutil Require Import Byte Word.LittleEndianList.
From stdpp Require Import gmap strings list.

#[local] Set Warnings "-register-all".

Local Open Scope string_scope.
Local Open Scope list_scope.
Local Open Scope Z_scope.

(* ===================================================================== *)
(** * Part I. The embedding                                               *)
(* ===================================================================== *)

(** ** Connect codes (server: [generateConnectCode], [getOrCreateConnectCode]) *)

Module ConnectCode.

(** [const chars = "ABCDEFGHJKLMNPQRSTUVWXYZ23456789"]. *)
Definition chars : string := "ABCDEFGHJKLMNPQRSTUVWXYZ23456789".

(** JavaScript's [String.prototype.charAt]: the one-character string at
    position [i], the empty string when [i] is out of range. *)
Definition charAt (s : string) (i : Z) : string :=
  if i <? 0 then ""
  else match String.get (Z.to_nat i) s with
       | Some c => String c ""
       | None => ""
       end.

(** The successive results of [Math.random()], each a double in [0, 1).
    A double is a rational; the product with [chars.length = 32] is exact
    (a scaling by a power of two) and so is [Math.floor]. *)
Definition Rng := nat -> Q.

(** [Math.floor(Math.random() * chars.length)] for the draw [r]. *)
Definition randomIndex (r : Q) : Z :=
  Qfloor (r * inject_Z (Z.of_nat (String.length chars))).

(** The body of [for (let i = 0; i < 6; i++) code += chars.charAt(...)],
    [n] iterations left; [pos] counts the draws consumed so far. *)
Fixpoint generateLoop (n : nat) (rnd : Rng) (pos : nat) (code : string)
  : string * nat :=
  match n with
  | O => (code, pos)
  | S n' =>
      generateLoop n' rnd (S pos) (code ++ charAt chars (randomIndex (rnd pos)))%string
  end.

Definition generateConnectCode (rnd : Rng) (pos : nat) : string * nat :=
  generateLoop 6 rnd pos "".

(** A row of the table [blip_connect_codes]. *)
Record CodeRow := { user_id : string; code : string }.

Definition CodeTable := list CodeRow.

(** [.select("code").eq("user_id", userId).single()]: the row when exactly
    one matches, no data otherwise. *)
Definition selectCodeByUser (tbl : CodeTable) (userId : string) : option string :=
  match List.filter (fun r => String.eqb (user_id r) userId) tbl with
  | [r] => Some (code r)
  | _ => None
  end.

(** Modelled from the spec: the constraints of the connect-code table,
    [connect_codes(user_id PRIMARY KEY, code UNIQUE)]; the schema is not
    part of the sources. An insert that violates one of them returns an
    error ([None]) and leaves the table as it was. *)
Definition insertCode (tbl : CodeTable) (userId c : string) : option CodeTable :=
  if existsb (fun r => String.eqb (user_id r) userId || String.eqb (code r) c) tbl
  then None
  else Some (tbl ++ [{| user_id := userId; code := c |}]).

(** The loop [while (attempts < 10) { code = generateConnectCode(); ...
    if (!error) break; attempts++; }] with [remaining = 10 - attempts];
    [code] is [None] while the variable is still [undefined]. *)
Fixpoint insertLoop (remaining : nat) (userId : string) (tbl : CodeTable)
    (rnd : Rng) (pos : nat) (code : option string)
  : option string * CodeTable * nat :=
  match remaining with
  | O => (code, tbl, pos)
  | S k =>
      let '(c, pos') := generateConnectCode rnd pos in
      match insertCode tbl userId c with
      | Some tbl' => (Some c, tbl', pos')
      | None => insertLoop k userId tbl rnd pos' (Some c)
      end
  end.

(** [getOrCreateConnectCode(userId)]: the value returned, the table and the
    number of draws consumed afterwards. [existing.data?.code] is truthy
    for a non-empty string. *)
Definition getOrCreateConnectCode (userId : string) (tbl : CodeTable)
    (rnd : Rng) (pos : nat) : option string * CodeTable * nat :=
  match selectCodeByUser tbl userId with
  | Some c =>
      if String.eqb c "" then insertLoop 10 userId tbl rnd pos None
      else (Some c, tbl, pos)
  | None => insertLoop 10 userId tbl rnd pos None
  end.

(** The character class [A-HJ-KM-NP-Z2-9] of the specification's pattern. *)
Definition specClass (c : ascii) : bool :=
  let n := Z.of_nat (nat_of_ascii c) in
  ((65 <=? n) && (n <=? 72)) || ((74 <=? n) && (n <=? 75))
  || ((77 <=? n) && (n <=? 78)) || ((80 <=? n) && (n <=? 90))
  || ((50 <=? n) && (n <=? 57)).

(** The specification's pattern [^[A-HJ-KM-NP-Z2-9]{6}$]. *)
Definition matchesSpecPattern (s : string) : bool :=
  (String.length s =? 6)%nat && forallb specClass (list_ascii_of_string s).

(** The class the generator draws from: [A-HJ-NP-Z2-9], that is A-Z and
    2-9 without I and O (and without the digits 0 and 1). *)
Definition codeClass (c : ascii) : bool :=
  let n := Z.of_nat (nat_of_ascii c) in
  ((65 <=? n) && (n <=? 72)) || ((74 <=? n) && (n <=? 78))
  || ((80 <=? n) && (n <=? 90)) || ((50 <=? n) && (n <=? 57)).

Definition matchesCodePattern (s : string) : bool :=
  (String.length s =? 6)%nat && forallb codeClass (list_ascii_of_string s).

End ConnectCode.

(** ** JavaScript [Map]: an association list in insertion order *)

Module JsMap.
Section Defs.
Context {V : Type}.

Definition t := list (string * V).

(** [Map.prototype.get]. *)
Fixpoint get (k : string) (m : t) : option V :=
  match m with
  | [] => None
  | (k', v) :: m' => if String.eqb k' k then Some v else get k m'
  end.

(** [Map.prototype.set]: an existing key keeps its place in the order, a
    new one goes last. *)
Fixpoint set (k : string) (v : V) (m : t) : t :=
  match m with
  | [] => [(k, v)]
  | (k', v') :: m' =>
      if String.eqb k' k then (k, v) :: m' else (k', v') :: set k v m'
  end.

(** [Map.prototype.delete]. *)
Definition delete (k : string) (m : t) : t :=
  List.filter (fun e => negb (String.eqb (fst e) k)) m.

Definition keys (m : t) : list string := List.map fst m.

(** A [Map] holds each key once. *)
Definition wf (m : t) : Prop := NoDup (keys m).

End Defs.
Arguments t : clear implicits.
End JsMap.

(** ** The signalling hub (server: [fluxClients], [rtcSessions],
       [handleFluxMessage], the [connection] and [close] handlers) *)

Module Hub.

(** The identity of a WebSocket object. *)
Definition WsId := nat.

(** The fields of the authenticated user the hub reads. *)
Record User := { id : string; email : option string }.

(** [const client = { ws, user, connectedAt: Date.now() }]. *)
Record Client := { ws : WsId; user : User; connectedAt : Z }.

(** The values the hub writes to a session's [state] field:
    ["pending"], ["accepted"], ["connected"]. *)
Inductive SessionState := pending | accepted | connected.

(** An entry of [rtcSessions]. *)
Record Session := {
  initiatorId : string;
  responderId : string;
  state : SessionState;
  createdAt : Z
}.

Record Hub := {
  fluxClients : JsMap.t Client;
  rtcSessions : JsMap.t Session
}.

(** JSON values, as the hub's object literals build them. *)
Inductive Json :=
| JBool (b : bool)
| JNum (n : Z)
| JStr (s : string)
| JObj (fields : list (string * Json)).

(** An object literal as [JSON.stringify] renders it: a property whose
    value is [undefined] is left out. *)
Fixpoint obj (fields : list (string * option Json)) : list (string * Json) :=
  match fields with
  | [] => []
  | (k, Some v) :: fs => (k, v) :: obj fs
  | (_, None) :: fs => obj fs
  end.

(** The property [k] of an object, when it has one. *)
Fixpoint field (k : string) (o : list (string * Json)) : option Json :=
  match o with
  | [] => None
  | (k', v) :: o' => if String.eqb k' k then Some v else field k o'
  end.

(** What a handler does to the outside: a text frame written to a socket
    ([ws.send(JSON.stringify(message))]) or a socket closed by the hub
    ([ws.close(code, reason)]). *)
Inductive Effect :=
| Sent (to : WsId) (message : list (string * Json))
| Closed (sock : WsId) (code : Z) (reason : string).

(** [send(ws, message)]: written only when [ws.readyState === OPEN];
    [isOpen] is the ready state of every socket while the handler runs. *)
Definition send (isOpen : WsId -> bool) (w : WsId) (message : list (string * Json))
  : list Effect :=
  if isOpen w then [Sent w message] else [].

(** The messages a client sends (the client's [BlipOutgoingMessage]) that
    the hub handles without awaiting the database: their fields are the
    ones the client encodes. [get_connect_code], [get_friends] and
    [add_friend] await the database and touch neither the registry nor the
    session table; they are not part of this embedding. *)
Inductive FluxMessage :=
| Ping
| RtcSessionRequest (peerId sessionId : string) (fileName : option string)
    (fileSize : option Z) (fileType : option string)
| RtcSessionAccept (peerId sessionId : string)
| RtcSessionReject (peerId sessionId : string) (reason : option string)
| RtcOffer (peerId sessionId sdp : string)
| RtcAnswer (peerId sessionId sdp : string)
| RtcIceCandidate (peerId sessionId candidate : string)
    (sdpMid : option string) (sdpMLineIndex : option Z)
| RtcSessionReady (sessionId : string)
| RtcSessionClose (sessionId : string)
| Unknown (type : string).

(** [s.split("@")[0]]. *)
Fixpoint beforeAt (s : string) : string :=
  match s with
  | EmptyString => EmptyString
  | String c s' => if Ascii.eqb c "@" then EmptyString else String c (beforeAt s')
  end.

(** [client.user.email?.split("@")[0] || "User"]. *)
Definition displayName (u : User) : string :=
  match email u with
  | None => "User"
  | Some e => if String.eqb (beforeAt e) "" then "User" else beforeAt e
  end.

Definition errorMessage (text : string) : list (string * Json) :=
  obj [("type", Some (JStr "error")); ("message", Some (JStr text))].

(** [notifyFriendsOfStatus(userId, isOnline)]: one message to every
    client of the registry, in the registry's order. *)
Definition notifyFriendsOfStatus (isOpen : WsId -> bool)
    (clients : JsMap.t Client) (userId : string) (isOnline : bool) : list Effect :=
  flat_map
    (fun e : string * Client =>
       send isOpen (ws (snd e))
         (obj [("type", Some (JStr (if isOnline then "friend_online"
                                    else "friend_offline")));
               ("friendId", Some (JStr userId))]))
    clients.

Definition setSessions (h : Hub) (s : JsMap.t Session) : Hub :=
  {| fluxClients := fluxClients h; rtcSessions := s |}.

Definition setState (s : Session) (st : SessionState) : Session :=
  {| initiatorId := initiatorId s; responderId := responderId s;
     state := st; createdAt := createdAt s |}.

(** [readySession.initiatorId === client.user.id ? responderId : initiatorId]. *)
Definition otherPeer (s : Session) (client : Client) : string :=
  if String.eqb (initiatorId s) (id (user client)) then responderId s
  else initiatorId s.

(** [handleFluxMessage(ws, client, message)] after [JSON.parse];
    [now] is [Date.now()]. *)
Definition handleFluxMessage (isOpen : WsId -> bool) (now : Z)
    (w : WsId) (client : Client) (data : FluxMessage) (h : Hub)
  : Hub * list Effect :=
  match data with
  | Ping => (h, send isOpen w (obj [("type", Some (JStr "pong"))]))
  | RtcSessionRequest peerId sessionId _ _ _ =>
      match JsMap.get peerId (fluxClients h) with
      | None => (h, send isOpen w (errorMessage "Peer not connected"))
      | Some targetPeer =>
          (setSessions h
             (JsMap.set sessionId
                {| initiatorId := id (user client); responderId := peerId;
                   state := pending; createdAt := now |}
                (rtcSessions h)),
           send isOpen (ws targetPeer)
             (obj [("type", Some (JStr "rtc_session_request"));
                   ("senderId", Some (JStr (id (user client))));
                   ("senderName", Some (JStr (displayName (user client))));
                   ("sessionId", Some (JStr sessionId))]))
      end
  | RtcSessionAccept _ sessionId =>
      match JsMap.get sessionId (rtcSessions h) with
      | None => (h, send isOpen w (errorMessage "Session not found"))
      | Some acceptSession =>
          (setSessions h
             (JsMap.set sessionId (setState acceptSession accepted) (rtcSessions h)),
           match JsMap.get (initiatorId acceptSession) (fluxClients h) with
           | Some initiator =>
               send isOpen (ws initiator)
                 (obj [("type", Some (JStr "rtc_session_accept"));
                       ("sessionId", Some (JStr sessionId));
                       ("senderId", Some (JStr (id (user client))))])
           | None => []
           end)
      end
  | RtcSessionReject _ sessionId reason =>
      match JsMap.get sessionId (rtcSessions h) with
      | Some rejectSession =>
          (setSessions h (JsMap.delete sessionId (rtcSessions h)),
           match JsMap.get (initiatorId rejectSession) (fluxClients h) with
           | Some rejectInitiator =>
               send isOpen (ws rejectInitiator)
                 (obj [("type", Some (JStr "rtc_session_reject"));
                       ("sessionId", Some (JStr sessionId));
                       ("reason",
                        Some (JStr match reason with
                                   | Some r => if String.eqb r "" then "Rejected by peer" else r
                                   | None => "Rejected by peer"
                                   end))])
           | None => []
           end)
      | None => (h, [])
      end
  | RtcOffer peerId sessionId sdp =>
      (h, match JsMap.get peerId (fluxClients h) with
          | Some offerPeer =>
              send isOpen (ws offerPeer)
                (obj [("type", Some (JStr "rtc_offer"));
                      ("senderId", Some (JStr (id (user client))));
                      ("senderName", Some (JStr (displayName (user client))));
                      ("sessionId", Some (JStr sessionId));
                      ("sdp", Some (JStr sdp))])
          | None => []
          end)
  | RtcAnswer peerId sessionId sdp =>
      (h, match JsMap.get peerId (fluxClients h) with
          | Some answerPeer =>
              send isOpen (ws answerPeer)
                (obj [("type", Some (JStr "rtc_answer"));
                      ("senderId", Some (JStr (id (user client))));
                      ("sessionId", Some (JStr sessionId));
                      ("sdp", Some (JStr sdp))])
          | None => []
          end)
  | RtcIceCandidate peerId sessionId candidate sdpMid sdpMLineIndex =>
      (h, match JsMap.get peerId (fluxClients h) with
          | Some icePeer =>
              send isOpen (ws icePeer)
                (obj [("type", Some (JStr "rtc_ice_candidate"));
                      ("senderId", Some (JStr (id (user client))));
                      ("sessionId", Some (JStr sessionId));
                      ("candidate", Some (JStr candidate));
                      ("sdpMid", option_map JStr sdpMid);
                      ("sdpMLineIndex", option_map JNum sdpMLineIndex)])
          | None => []
          end)
  | RtcSessionReady sessionId =>
      match JsMap.get sessionId (rtcSessions h) with
      | Some readySession =>
          (setSessions h
             (JsMap.set sessionId (setState readySession connected) (rtcSessions h)),
           match JsMap.get (otherPeer readySession client) (fluxClients h) with
           | Some other =>
               send isOpen (ws other)
                 (obj [("type", Some (JStr "rtc_session_ready"));
                       ("sessionId", Some (JStr sessionId));
                       ("senderId", Some (JStr (id (user client))))])
           | None => []
           end)
      | None => (h, [])
      end
  | RtcSessionClose sessionId =>
      match JsMap.get sessionId (rtcSessions h) with
      | Some closeSession =>
          (setSessions h (JsMap.delete sessionId (rtcSessions h)),
           match JsMap.get (otherPeer closeSession client) (fluxClients h) with
           | Some closePeer =>
               send isOpen (ws closePeer)
                 (obj [("type", Some (JStr "rtc_session_close"));
                       ("sessionId", Some (JStr sessionId))])
           | None => []
           end)
      | None => (h, [])
      end
  | Unknown _ => (h, [])
  end.

(** The outcome of [await verifyToken(token)]. *)
Inductive Verified := VUser (u : User) | VNone | VThrow.

(** The [connection] handler of the WebSocket server: [token] is
    [url.searchParams.get("token")], [verified] the outcome of
    [verifyToken] (read only when the token is present). *)
Definition onConnection (isOpen : WsId -> bool) (now : Z) (w : WsId)
    (token : option string) (verified : Verified) (h : Hub)
  : Hub * list Effect :=
  match token with
  | None => (h, [Closed w 4001 "Missing token"])
  | Some tok =>
      if String.eqb tok "" then (h, [Closed w 4001 "Missing token"])
      else match verified with
           | VThrow => (h, [Closed w 4000 "Connection failed"])
           | VNone => (h, [Closed w 4001 "Invalid token"])
           | VUser u =>
               let client := {| ws := w; user := u; connectedAt := now |} in
               let clients := JsMap.set (id u) client (fluxClients h) in
               ({| fluxClients := clients; rtcSessions := rtcSessions h |},
                send isOpen w
                  (obj [("type", Some (JStr "connected"));
                        ("userId", Some (JStr (id u)));
                        ("email", option_map JStr (email u))])
                ++ notifyFriendsOfStatus isOpen clients (id u) true)
           end
  end.

(** [session.initiatorId === user.id || session.responderId === user.id]. *)
Definition involves (userId : string) (s : Session) : bool :=
  String.eqb (initiatorId s) userId || String.eqb (responderId s) userId.

(** [rtcSessions.forEach((session, sessionId) => { if (...)
    rtcSessions.delete(sessionId); })]: the entries are visited in order;
    deleting the entry being visited does not disturb the visit of the
    others. *)
Definition purgeSessions (userId : string) (sessions : JsMap.t Session)
  : JsMap.t Session :=
  fold_left
    (fun m (e : string * Session) =>
       if involves userId (snd e) then JsMap.delete (fst e) m else m)
    sessions sessions.

(** The [close] handler installed for the connection of [u]. *)
Definition onClose (isOpen : WsId -> bool) (u : User) (h : Hub)
  : Hub * list Effect :=
  let clients := JsMap.delete (id u) (fluxClients h) in
  ({| fluxClients := clients;
      rtcSessions := purgeSessions (id u) (rtcSessions h) |},
   notifyFriendsOfStatus isOpen clients (id u) false).

(** Both tables are JavaScript maps: no key occurs twice. *)
Definition wf (h : Hub) : Prop :=
  JsMap.wf (fluxClients h) /\ JsMap.wf (rtcSessions h).

(** The [type] of a message written to a socket. *)
Definition sentType (e : Effect) : option Json :=
  match e with
  | Sent _ m => field "type" m
  | Closed _ _ _ => None
  end.

Definition isClosed (e : Effect) : bool :=
  match e with Closed _ _ _ => true | Sent _ _ => false end.

End Hub.

(** ** SHA-256 (CryptoKit's [SHA256], an external library; written here
       from the standard, FIPS 180-4, and checked in Part II against the
       standard's test vectors) *)

Module Sha256.

(** 32-bit words are integers in [0, 2^32). *)
Definition w32 (x : Z) : Z := x mod 2 ^ 32.

Definition add32 (x y : Z) : Z := w32 (x + y).

Definition rotr (n x : Z) : Z :=
  Z.lor (Z.shiftr x n) (w32 (Z.shiftl x (32 - n))).

Definition Ch (x y z : Z) : Z :=
  Z.lxor (Z.land x y) (Z.land (Z.lxor x 0xffffffff) z).

Definition Maj (x y z : Z) : Z :=
  Z.lxor (Z.lxor (Z.land x y) (Z.land x z)) (Z.land y z).

Definition Sigma0 (x : Z) : Z := Z.lxor (Z.lxor (rotr 2 x) (rotr 13 x)) (rotr 22 x).
Definition Sigma1 (x : Z) : Z := Z.lxor (Z.lxor (rotr 6 x) (rotr 11 x)) (rotr 25 x).
Definition sigma0 (x : Z) : Z := Z.lxor (Z.lxor (rotr 7 x) (rotr 18 x)) (Z.shiftr x 3).
Definition sigma1 (x : Z) : Z := Z.lxor (Z.lxor (rotr 17 x) (rotr 19 x)) (Z.shiftr x 10).

(** Trial division. *)
Definition isPrime (p : Z) : bool :=
  (1 <? p) && forallb (fun d => negb (p mod d =? 0)) (seqZ 2 (p - 2)).

(** The first sixty-four primes, 2 to 311. *)
Definition primes : list Z := List.filter isPrime (seqZ 2 310).

(** The integer cube root of [n], the largest [r] below [2 ^ b] with
    [r ^ 3 <= n], found bit by bit from the highest. *)
Fixpoint cubeRoot (b : nat) (n r : Z) : Z :=
  match b with
  | O => r
  | S b' =>
      let r' := r + 2 ^ Z.of_nat b' in
      cubeRoot b' n (if r' ^ 3 <=? n then r' else r)
  end.

(** The round constants: the first 32 bits of the fractional parts of the
    cube roots of the first sixty-four primes. *)
Definition K : list Z :=
  Eval vm_compute in List.map (fun p => w32 (cubeRoot 36 (p * 2 ^ 96) 0)) primes.

(** The initial hash value: the first 32 bits of the fractional parts of
    the square roots of the first eight primes. *)
Definition H0 : list Z :=
  Eval vm_compute in List.map (fun p => w32 (Z.sqrt (p * 2 ^ 64))) (take 8 primes).

(** Padding: a 1 bit, zero bits up to 56 bytes modulo 64, then the length
    of the message in bits as a 64-bit big-endian integer. *)
Definition pad (msg : list byte) : list byte :=
  let len := Z.of_nat (length msg) in
  msg ++ [byte.of_Z 0x80]
      ++ repeat (byte.of_Z 0) (Z.to_nat ((55 - len) mod 64))
      ++ rev (le_split 8 (8 * len)).

(** The first [n] big-endian 32-bit words of [bs] and what is left. *)
Fixpoint words (n : nat) (bs : list byte) : list Z * list byte :=
  match n with
  | O => ([], bs)
  | S n' =>
      let '(ws, rest) := words n' (drop 4 bs) in
      (le_combine (rev (take 4 bs)) :: ws, rest)
  end.

(** The message schedule, most recent word first: [n] more words from the
    sixteen (or more) at hand. *)
Fixpoint extend (n : nat) (ws : list Z) : list Z :=
  match n with
  | O => ws
  | S n' =>
      extend n'
        (add32 (add32 (sigma1 (nth 1 ws 0)) (nth 6 ws 0))
               (add32 (sigma0 (nth 14 ws 0)) (nth 15 ws 0)) :: ws)
  end.

Definition round (s : list Z) (kw : Z * Z) : list Z :=
  match s with
  | [a; b; c; d; e; f; g; h] =>
      let t1 := add32 (add32 (add32 h (Sigma1 e)) (add32 (Ch e f g) (fst kw))) (snd kw) in
      let t2 := add32 (Sigma0 a) (Maj a b c) in
      [add32 t1 t2; a; b; c; add32 d t1; e; f; g]
  | _ => s
  end.

Definition compress (h : list Z) (block : list Z) : list Z :=
  let w := rev (extend 48 (rev block)) in
  let s := fold_left round (combine K w) h in
  List.map (fun p => add32 (fst p) (snd p)) (combine h s).

Fixpoint blocks (n : nat) (h : list Z) (bs : list byte) : list Z :=
  match n with
  | O => h
  | S n' => let '(ws, rest) := words 16 bs in blocks n' (compress h ws) rest
  end.

(** The 32-byte digest. *)
Definition digest (msg : list byte) : list byte :=
  let p := pad msg in
  flat_map (fun w => rev (le_split 4 w))
    (blocks (Nat.div (length p) 64) H0 p).

End Sha256.

(** A lowercase hexadecimal digit. *)
Definition hexDigit (d : Z) : ascii :=
  ascii_of_nat (Z.to_nat (if d <? 10 then 48 + d else 87 + d)).

(** [String(format: "%02x", b)]. *)
Definition hex2 (b : byte) : string :=
  String (hexDigit (byte.unsigned b / 16)) (String (hexDigit (byte.unsigned b mod 16)) "").

(** [SHA256.hash(data: d).compactMap { String(format: "%02x", $0) }.joined()]. *)
Definition sha256hex (d : list byte) : string :=
  fold_right (fun b acc => (hex2 b ++ acc)%string) "" (Sha256.digest d).


(** ** The transfer protocol (client: [DataChannelManager]) *)

Module Transfer.

(** Swift's [Data]. *)
Abbreviation Data := (list byte).

(** [WebRTCConfig.chunkSize] and [WebRTCConfig.parallelChannels]. *)
Definition chunkSize : Z := 64 * 1024.
Definition parallelChannels : Z := 4.

Definition count (d : Data) : Z := Z.of_nat (length d).

Definition inRange (lo hi : Z) (b : byte) : bool :=
  (lo <=? byte.unsigned b) && (byte.unsigned b <=? hi).

(** Well-formed UTF-8 (the Unicode standard's table of byte sequences). *)
Fixpoint utf8Valid (bs : list byte) : bool :=
  match bs with
  | [] => true
  | b0 :: r0 =>
      if inRange 0x00 0x7F b0 then utf8Valid r0
      else
        match r0 with
        | [] => false
        | b1 :: r1 =>
            if inRange 0xC2 0xDF b0 then inRange 0x80 0xBF b1 && utf8Valid r1
            else
              match r1 with
              | [] => false
              | b2 :: r2 =>
                  if ((inRange 0xE0 0xE0 b0 && inRange 0xA0 0xBF b1)
                      || (inRange 0xE1 0xEC b0 && inRange 0x80 0xBF b1)
                      || (inRange 0xED 0xED b0 && inRange 0x80 0x9F b1)
                      || (inRange 0xEE 0xEF b0 && inRange 0x80 0xBF b1))
                     && inRange 0x80 0xBF b2
                  then utf8Valid r2
                  else
                    match r2 with
                    | [] => false
                    | b3 :: r3 =>
                        ((inRange 0xF0 0xF0 b0 && inRange 0x90 0xBF b1)
                         || (inRange 0xF1 0xF3 b0 && inRange 0x80 0xBF b1)
                         || (inRange 0xF4 0xF4 b0 && inRange 0x80 0x8F b1))
                        && inRange 0x80 0xBF b2 && inRange 0x80 0xBF b3
                        && utf8Valid r3
                    end
              end
        end
  end.

(** [String(data: d, encoding: .utf8)]: [nil] unless [d] is well-formed. *)
Definition stringOfData (d : Data) : option string :=
  if utf8Valid d then Some (string_of_list_byte d) else None.

(** [s.data(using: .utf8)]. *)
Definition dataOfString (s : string) : Data := list_byte_of_string s.

(** ["\(i)"] for an integer. *)
Definition describe (i : Z) : string := NilZero.string_of_int (Z.to_int i).

(** [d.subdata(in: s..<e)]; [None] is the run-time trap of a range that is
    not within the data. *)
Definition subdata (d : Data) (s e : Z) : option Data :=
  if (0 <=? s) && (s <=? e) && (e <=? count d)
  then Some (take (Z.to_nat (e - s)) (drop (Z.to_nat s) d))
  else None.

Inductive TransferMessageType :=
| fileMetadata | fileChunk | fileComplete | transferAck
| transferSuccess | transferFailed | transferCancel.

Definition rawValue (t : TransferMessageType) : byte :=
  byte.of_Z match t with
            | fileMetadata => 1 | fileChunk => 2 | fileComplete => 3
            | transferAck => 4 | transferSuccess => 5 | transferFailed => 6
            | transferCancel => 7
            end.

(** [TransferMessageType(rawValue: b)]. *)
Definition ofRawValue (b : byte) : option TransferMessageType :=
  match byte.unsigned b with
  | 1 => Some fileMetadata | 2 => Some fileChunk | 3 => Some fileComplete
  | 4 => Some transferAck | 5 => Some transferSuccess
  | 6 => Some transferFailed | 7 => Some transferCancel
  | _ => None
  end.

Record FileMetadata := {
  transferId : string;
  fileName : string;
  fileSize : Z;
  fileType : string;
  totalChunks : Z;
  checksum : string
}.

(** The case of [TransferState] a progress report carries (its [Double]
    payload is left out, like the report's [speed]). *)
Inductive ProgressState := sending | receiving | completed.

Record TransferProgress := {
  progressTransferId : string;
  bytesTransferred : Z;
  totalBytes : Z;
  progressState : ProgressState
}.

(** [directory.appendingPathComponent(name)]. *)
Record URL := appendingPathComponent { directory : string; lastPathComponent : string }.

(** What the manager does to the outside: calls on the transport
    ([webRTCService?.sendData], [sendDataRoundRobin]), on the delegate, on
    the file system and on the main queue. *)
Inductive Effect :=
| SendData (message : Data) (channelId : Z)
| SendDataRoundRobin (message : Data) (index : Z)
| WriteFile (fileURL : URL) (contents : Data)
| ScheduleSendNextChunks
| DidStartReceiving (metadata : FileMetadata)
| DidUpdateProgress (progress : TransferProgress)
| DidCompleteTransfer (id : string) (fileURL : URL)
| DidFailTransfer (id : string) (error : string)
| DidCancelTransfer (id : string).

(** The manager's stored properties. *)
Record Manager := {
  sendingTransferId : option string;
  sendingFileData : option Data;
  sendingMetadata : option FileMetadata;
  sendingChunkIndex : Z;
  sendingStartTime : option Z;
  sendingPaused : bool;
  receivingTransferId : option string;
  receivingMetadata : option FileMetadata;
  receivingChunks : gmap Z Data;
  receivingBytesReceived : Z;
  receivingStartTime : option Z;
  tempDirectory : string
}.

(** What a handler reads from its environment. *)
Record Env := {
  shouldPauseSending : bool;   (* webRTCService?.shouldPauseSending() == true *)
  writeError : option string;  (* the error thrown by fileData.write(to:), if any *)
  now : Z                      (* Date() *)
}.

Definition initial (tempDir : string) : Manager :=
  {| sendingTransferId := None; sendingFileData := None; sendingMetadata := None;
     sendingChunkIndex := 0; sendingStartTime := None; sendingPaused := false;
     receivingTransferId := None; receivingMetadata := None;
     receivingChunks := ∅; receivingBytesReceived := 0;
     receivingStartTime := None; tempDirectory := tempDir |}.

(** [cleanup()]. *)
Definition cleanup (m : Manager) : Manager := initial (tempDirectory m).

(** [Int(ceil(Double(count) / Double(chunkSize)))]: the division by 2^16
    and the rounding are exact for every count below 2^53. *)
Definition totalChunksFor (n : Z) : Z := (n + chunkSize - 1) / chunkSize.

(** A frame: the type byte and the payload. *)
Definition frame (t : TransferMessageType) (payload : Data) : Data :=
  rawValue t :: payload.

(** [UInt32(index).bigEndian] as four bytes. *)
Definition bigEndian32 (index : Z) : Data := rev (le_split 4 index).

(** [sendChunk(index:data:)]; [UInt32(index)] traps ([None]) outside
    [0, 2^32). *)
Definition sendChunk (index : Z) (data : Data) : option Effect :=
  if (0 <=? index) && (index <? 2 ^ 32)
  then Some (SendDataRoundRobin (frame fileChunk (bigEndian32 index ++ data)) index)
  else None.

(** [updateSendProgress()]. *)
Definition updateSendProgress (m : Manager) : list Effect :=
  match sendingMetadata m, sendingStartTime m with
  | Some metadata, Some _ =>
      [DidUpdateProgress
         {| progressTransferId := transferId metadata;
            bytesTransferred :=
              Z.min (sendingChunkIndex m * chunkSize) (fileSize metadata);
            totalBytes := fileSize metadata;
            progressState := sending |}]
  | _, _ => []
  end.

Definition sendCompleteMessage (m : Manager) : list Effect :=
  match sendingMetadata m with
  | Some metadata =>
      [SendData (frame fileComplete (dataOfString (checksum metadata))) 0]
  | None => []
  end.

(** The loop [for _ in 0..<chunksToSend] of [sendNextChunks], [n]
    iterations left: the chunk index afterwards and the chunks sent. *)
Fixpoint sendLoop (n : nat) (fileData : Data) (total : Z) (index : Z)
  : option (Z * list Effect) :=
  match n with
  | O => Some (index, [])
  | S n' =>
      if index <? total then
        let start := index * chunkSize in
        let end_ := Z.min (start + chunkSize) (count fileData) in
        match subdata fileData start end_ with
        | None => None
        | Some chunkData =>
            match sendChunk index chunkData with
            | None => None
            | Some e =>
                match sendLoop n' fileData total (index + 1) with
                | None => None
                | Some (index', es) => Some (index', e :: es)
                end
            end
        end
      else Some (index, [])
  end.

Definition setSending (m : Manager) (index : Z) (paused : bool) : Manager :=
  {| sendingTransferId := sendingTransferId m;
     sendingFileData := sendingFileData m;
     sendingMetadata := sendingMetadata m;
     sendingChunkIndex := index;
     sendingStartTime := sendingStartTime m;
     sendingPaused := paused;
     receivingTransferId := receivingTransferId m;
     receivingMetadata := receivingMetadata m;
     receivingChunks := receivingChunks m;
     receivingBytesReceived := receivingBytesReceived m;
     receivingStartTime := receivingStartTime m;
     tempDirectory := tempDirectory m |}.

(** [sendNextChunks()]; [None] is a run-time trap. *)
Definition sendNextChunks (env : Env) (m : Manager) : option (Manager * list Effect) :=
  match sendingFileData m, sendingMetadata m, sendingPaused m with
  | Some fileData, Some metadata, false =>
      if shouldPauseSending env then Some (setSending m (sendingChunkIndex m) true, [])
      else
        let chunksToSend :=
          Z.min parallelChannels (totalChunks metadata - sendingChunkIndex m) in
        if chunksToSend <? 0 then None
        else
          match sendLoop (Z.to_nat chunksToSend) fileData (totalChunks metadata)
                  (sendingChunkIndex m) with
          | None => None
          | Some (index, sent) =>
              let m' := setSending m index false in
              Some (m',
                    sent ++ updateSendProgress m'
                    ++ (if totalChunks metadata <=? index
                        then sendCompleteMessage m'
                        else [ScheduleSendNextChunks]))
          end
  | _, _, _ => Some (m, [])
  end.

(** [resumeSending()]. *)
Definition resumeSending (env : Env) (m : Manager) : option (Manager * list Effect) :=
  if sendingPaused m then sendNextChunks env (setSending m (sendingChunkIndex m) false)
  else Some (m, []).

Definition setReceiving (m : Manager) (chunks : gmap Z Data) (received : Z) : Manager :=
  {| sendingTransferId := sendingTransferId m;
     sendingFileData := sendingFileData m;
     sendingMetadata := sendingMetadata m;
     sendingChunkIndex := sendingChunkIndex m;
     sendingStartTime := sendingStartTime m;
     sendingPaused := sendingPaused m;
     receivingTransferId := receivingTransferId m;
     receivingMetadata := receivingMetadata m;
     receivingChunks := chunks;
     receivingBytesReceived := received;
     receivingStartTime := receivingStartTime m;
     tempDirectory := tempDirectory m |}.

(** [updateReceiveProgress()]. *)
Definition updateReceiveProgress (m : Manager) : list Effect :=
  match receivingMetadata m, receivingStartTime m with
  | Some metadata, Some _ =>
      [DidUpdateProgress
         {| progressTransferId := transferId metadata;
            bytesTransferred := receivingBytesReceived m;
            totalBytes := fileSize metadata;
            progressState := receiving |}]
  | _, _ => []
  end.

(** [handleFileChunk(data, channelId:)]: bytes 1 to 4 are the index,
    big-endian; the rest is the chunk. Frames of five bytes or fewer are
    dropped by the [guard]. *)
Definition handleFileChunk (data : Data) (m : Manager) : Manager * list Effect :=
  if 5 <? count data then
    let index := le_combine (rev (take 4 (drop 1 data))) in
    let chunkData := drop 5 data in
    let m' := setReceiving m (<[index := chunkData]> (receivingChunks m))
                (receivingBytesReceived m + count chunkData) in
    (m', updateReceiveProgress m')
  else (m, []).

(** The loop [for i in 0..<metadata.totalChunks] of [handleFileComplete],
    [n] iterations left from index [i]: the file data, or the first
    missing index. *)
Fixpoint reassemble (n : nat) (i : Z) (chunks : gmap Z Data) (fileData : Data)
  : Data + Z :=
  match n with
  | O => inl fileData
  | S n' =>
      match chunks !! i with
      | Some chunkData => reassemble n' (i + 1) chunks (fileData ++ chunkData)
      | None => inr i
      end
  end.

Definition sendFailedMessage (reason : string) : Effect :=
  SendData (frame transferFailed (dataOfString reason)) 0.

Definition sendSuccessMessage (id : string) : Effect :=
  SendData (frame transferSuccess (dataOfString id)) 0.

(** [handleFileComplete(data)]; [None] is the trap of the range
    [0..<totalChunks] for a negative [totalChunks]. The comparison of the
    two checksum strings is Swift's [!=]: the actual checksum is lowercase
    hexadecimal ASCII, to which only the same bytes are equal. *)
Definition handleFileComplete (env : Env) (data : Data) (m : Manager)
  : option (Manager * list Effect) :=
  match receivingMetadata m with
  | None => Some (m, [])
  | Some metadata =>
      let expectedChecksum :=
        if 1 <? count data
        then match stringOfData (drop 1 data) with Some s => s | None => "" end
        else "" in
      if totalChunks metadata <? 0 then None
      else
        match reassemble (Z.to_nat (totalChunks metadata)) 0 (receivingChunks m) [] with
        | inr i =>
            let reason := ("Missing chunk " ++ describe i)%string in
            Some (cleanup m,
                  [sendFailedMessage reason;
                   DidFailTransfer (transferId metadata) reason])
        | inl fileData =>
            let actualChecksum := sha256hex fileData in
            if negb (String.eqb expectedChecksum "")
               && negb (String.eqb actualChecksum expectedChecksum)
            then Some (cleanup m,
                       [sendFailedMessage "Checksum mismatch";
                        DidFailTransfer (transferId metadata) "Checksum mismatch"])
            else
              let fileURL := appendingPathComponent (tempDirectory m) (fileName metadata) in
              match writeError env with
              | None =>
                  Some (cleanup m,
                        [WriteFile fileURL fileData;
                         sendSuccessMessage (transferId metadata);
                         DidCompleteTransfer (transferId metadata) fileURL])
              | Some description =>
                  Some (cleanup m,
                        [WriteFile fileURL fileData;
                         sendFailedMessage description;
                         DidFailTransfer (transferId metadata) description])
              end
        end
  end.

Definition handleTransferSuccess (m : Manager) : Manager * list Effect :=
  match sendingTransferId m with
  | None => (m, [])
  | Some id =>
      let size := match sendingMetadata m with
                  | Some metadata => fileSize metadata | None => 0 end in
      (cleanup m,
       [DidUpdateProgress
          {| progressTransferId := id; bytesTransferred := size;
             totalBytes := size; progressState := completed |}])
  end.

Definition handleTransferFailed (data : Data) (m : Manager) : Manager * list Effect :=
  match sendingTransferId m with
  | None => (m, [])
  | Some id =>
      let reason :=
        if 1 <? count data
        then match stringOfData (drop 1 data) with
             | Some s => s | None => "Transfer failed" end
        else "Transfer failed" in
      (cleanup m, [DidFailTransfer id reason])
  end.

Definition handleTransferCancel (m : Manager) : Manager * list Effect :=
  let id := match sendingTransferId m with
            | Some id => id
            | None => match receivingTransferId m with Some id => id | None => "" end
            end in
  (cleanup m, [DidCancelTransfer id]).

(** [cancelTransfer()]. *)
Definition cancelTransfer (m : Manager) : Manager * list Effect :=
  match (match sendingTransferId m with
         | Some id => Some id | None => receivingTransferId m end) with
  | Some id =>
      (cleanup m,
       [SendData (frame transferCancel (dataOfString id)) 0; DidCancelTransfer id])
  | None => (m, [])
  end.

Section Json.

(** [JSONEncoder().encode] and [JSONDecoder().decode] for [FileMetadata]
    (Foundation); [None] is a thrown error. *)
Variable encodeJSON : FileMetadata -> option Data.
Variable decodeJSON : Data -> option FileMetadata.

(** [sendMetadata(metadata)]. *)
Definition sendMetadata (metadata : FileMetadata) (m : Manager) : list Effect :=
  match encodeJSON metadata with
  | None => []
  | Some jsonData => SendData (frame fileMetadata jsonData) 0 :: updateSendProgress m
  end.

(** The metadata [sendFile] builds for a file. *)
Definition metadataFor (id name type : string) (data : Data) : FileMetadata :=
  {| transferId := id; fileName := name; fileSize := count data;
     fileType := type; totalChunks := totalChunksFor (count data);
     checksum := sha256hex data |}.

(** [sendFile(transferId:fileURL:)]: [name] and [type] are the URL's last
    path component and extension, [contents] what [Data(contentsOf:)]
    reads ([None] when reading fails, and [sendFile] throws). *)
Definition sendFile (env : Env) (id name type : string) (contents : option Data)
    (m : Manager) : option (Manager * list Effect) :=
  match contents with
  | None => None
  | Some data =>
      let metadata := metadataFor id name type data in
      let m' :=
        {| sendingTransferId := Some id;
           sendingFileData := Some data;
           sendingMetadata := Some metadata;
           sendingChunkIndex := 0;
           sendingStartTime := Some (now env);
           sendingPaused := false;
           receivingTransferId := receivingTransferId m;
           receivingMetadata := receivingMetadata m;
           receivingChunks := receivingChunks m;
           receivingBytesReceived := receivingBytesReceived m;
           receivingStartTime := receivingStartTime m;
           tempDirectory := tempDirectory m |} in
      Some (m', sendMetadata metadata m')
  end.

(** [handleFileMetadata(data)]. *)
Definition handleFileMetadata (env : Env) (data : Data) (m : Manager)
  : Manager * list Effect :=
  if 1 <? count data then
    match decodeJSON (drop 1 data) with
    | None => (m, [])
    | Some metadata =>
        ({| sendingTransferId := sendingTransferId m;
            sendingFileData := sendingFileData m;
            sendingMetadata := sendingMetadata m;
            sendingChunkIndex := sendingChunkIndex m;
            sendingStartTime := sendingStartTime m;
            sendingPaused := sendingPaused m;
            receivingTransferId := Some (transferId metadata);
            receivingMetadata := Some metadata;
            receivingChunks := ∅;
            receivingBytesReceived := 0;
            receivingStartTime := Some (now env);
            tempDirectory := tempDirectory m |},
         [DidStartReceiving metadata;
          SendData (frame transferAck (dataOfString (transferId metadata))) 0])
    end
  else (m, []).

(** [handleIncomingData(data, onChannel:)]; [None] is a run-time trap. *)
Definition handleIncomingData (env : Env) (data : Data) (m : Manager)
  : option (Manager * list Effect) :=
  match data with
  | [] => Some (m, [])
  | b :: _ =>
      match ofRawValue b with
      | Some fileMetadata => Some (handleFileMetadata env data m)
      | Some fileChunk => Some (handleFileChunk data m)
      | Some fileComplete => handleFileComplete env data m
      | Some transferAck => sendNextChunks env m
      | Some transferSuccess => Some (handleTransferSuccess m)
      | Some transferFailed => Some (handleTransferFailed data m)
      | Some transferCancel => Some (handleTransferCancel m)
      | None => Some (m, [])
      end
  end.

(** The receiver's state after a sequence of inbound frames, each handled
    in the same environment; the effects are appended in order. *)
Fixpoint deliver (env : Env) (frames : list Data) (m : Manager)
  : option (Manager * list Effect) :=
  match frames with
  | [] => Some (m, [])
  | f :: fs =>
      match handleIncomingData env f m with
      | None => None
      | Some (m', es) =>
          match deliver env fs m' with
          | None => None
          | Some (m'', es') => Some (m'', es ++ es')
          end
      end
  end.

End Json.

(** The chunk with index [i] of a file, as [sendNextChunks] cuts it. *)
Definition chunkOf (fileData : Data) (i : Z) : Data :=
  take (Z.to_nat (Z.min (i * chunkSize + chunkSize) (count fileData) - i * chunkSize))
       (drop (Z.to_nat (i * chunkSize)) fileData).

(** The message [sendChunk] builds for index [i] and payload [d]. *)
Definition chunkMessage (i : Z) (d : Data) : Data :=
  frame fileChunk (bigEndian32 i ++ d).

(** The frame that carries chunk [i] of a file. *)
Definition chunkFrame (fileData : Data) (i : Z) : Data :=
  chunkMessage i (chunkOf fileData i).

Definition isSchedule (e : Effect) : bool :=
  match e with ScheduleSendNextChunks => true | _ => false end.

(** The sender's pump: [sendNextChunks] runs on [TRANSFER_ACK] and again
    each time the main queue runs the call it scheduled; [fuel] bounds the
    number of runs. *)
Fixpoint pump (fuel : nat) (env : Env) (m : Manager) : option (Manager * list Effect) :=
  match fuel with
  | O => Some (m, [])
  | S fuel' =>
      match sendNextChunks env m with
      | None => None
      | Some (m', es) =>
          if existsb isSchedule es then
            match pump fuel' env m' with
            | None => None
            | Some (m'', es') => Some (m'', es ++ es')
            end
          else Some (m', es)
      end
  end.

(** The frames handed to [sendDataRoundRobin], in order. *)
Definition roundRobinFrames (es : list Effect) : list Data :=
  flat_map (fun e => match e with SendDataRoundRobin msg _ => [msg] | _ => [] end) es.

(** The frames handed to [sendData] (channel 0), in order. *)
Definition controlFrames (es : list Effect) : list Data :=
  flat_map (fun e => match e with SendData msg _ => [msg] | _ => [] end) es.

(** The chunks of a map in index order from [i], [n] of them (an absent
    one counts as empty). *)
Definition chunksInOrder (chunks : gmap Z Data) (n : Z) : Data :=
  concat (List.map (fun i => default [] (chunks !! i)) (seqZ 0 n)).

(** The chunk store after a sequence of (index, payload) pairs, each one
    written over what its index held. *)
Definition stored (msgs : list (Z * Data)) (chunks : gmap Z Data) : gmap Z Data :=
  fold_left (fun c p => <[fst p := snd p]> c) msgs chunks.

(** The FILE_CHUNK frames for a sequence of (index, payload) pairs. *)
Definition chunkMessages (msgs : list (Z * Data)) : list Data :=
  List.map (fun p => chunkMessage (fst p) (snd p)) msgs.

(** A pair a sender can put in a frame that the receiver keeps: the index
    fits [UInt32] and the payload is not empty. *)
Definition wellFormed (p : Z * Data) : Prop := 0 <= fst p < 2 ^ 32 /\ snd p <> [].


End Transfer.

(** ** A scenario: two peers and one session *)

Module Scenario.
Import Hub.

Definition userA : User := {| id := "A"; email := Some "a@example.org" |}.
Definition userB : User := {| id := "B"; email := Some "b@example.org" |}.

(** A is connected on socket 1 and B on socket 2. *)
Definition clientA : Client := {| ws := 1%nat; user := userA; connectedAt := 0 |}.
Definition clientB : Client := {| ws := 2%nat; user := userB; connectedAt := 0 |}.

(** Both peers registered, no session. *)
Definition hubAB : Hub :=
  {| fluxClients := [("A", clientA); ("B", clientB)]; rtcSessions := [] |}.

(** Both peers registered, the session S1 from A to B pending. *)
Definition hubS1 : Hub :=
  {| fluxClients := [("A", clientA); ("B", clientB)];
     rtcSessions := [("S1", {| initiatorId := "A"; responderId := "B";
                               state := pending; createdAt := 0 |})] |}.

Definition allOpen : WsId -> bool := fun _ => true.

(** Every socket but socket 1 is open. *)
Definition socket1Closed : WsId -> bool := fun w => negb (Nat.eqb w 1).

(** A receiver that holds the metadata of a one-chunk transfer of the
    three bytes "abc" and has stored chunk 0. *)
Definition metadataAbc : Transfer.FileMetadata :=
  Transfer.metadataFor "T1" "f.txt" "txt" (list_byte_of_string "abc").

Definition receiverAbc : Transfer.Manager :=
  {| Transfer.sendingTransferId := None; Transfer.sendingFileData := None;
     Transfer.sendingMetadata := None; Transfer.sendingChunkIndex := 0;
     Transfer.sendingStartTime := None; Transfer.sendingPaused := false;
     Transfer.receivingTransferId := Some "T1";
     Transfer.receivingMetadata := Some metadataAbc;
     Transfer.receivingChunks := <[0 := list_byte_of_string "abc"]> ∅;
     Transfer.receivingBytesReceived := 3;
     Transfer.receivingStartTime := Some 0;
     Transfer.tempDirectory := "/tmp/GraphiteFlux" |}.

(** The same receiver before any chunk has arrived. *)
Definition receiverEmpty : Transfer.Manager :=
  Transfer.setReceiving receiverAbc ∅ 0.

(** The transport does not ask for a pause and the file system accepts
    the write. *)
Definition calm : Transfer.Env :=
  {| Transfer.shouldPauseSending := false; Transfer.writeError := None;
     Transfer.now := 0 |}.

(** A JSON decoder that is never consulted in the scenarios. *)
Definition noJSON : list byte -> option Transfer.FileMetadata := fun _ => None.

End Scenario.

(** ** Friendships (server: the [add_friend] case of [handleFluxMessage]) *)

Module Friends.
Import Hub.

(** A row of the table [blip_friends]. *)
Record FriendRow := { user_id : string; friend_id : string }.

Definition rowEqb (a b : FriendRow) : bool :=
  String.eqb (user_id a) (user_id b) && String.eqb (friend_id a) (friend_id b).

(** The two tables the hub reads and writes. *)
Record Db := { codes : ConnectCode.CodeTable; friends : list FriendRow }.

(** [.from("blip_connect_codes").select("user_id").eq("code", c).single()]:
    the row when exactly one matches, no data otherwise. *)
Definition selectUserByCode (tbl : ConnectCode.CodeTable) (c : string) : option string :=
  match List.filter (fun r => String.eqb (ConnectCode.code r) c) tbl with
  | [r] => Some (ConnectCode.user_id r)
  | _ => None
  end.

(** [.from("blip_friends").select("id").eq("user_id", u).eq("friend_id", f)
    .single()]: data when exactly one row matches. *)
Definition friendshipExists (rows : list FriendRow) (u f : string) : bool :=
  match List.filter (fun r => String.eqb (user_id r) u && String.eqb (friend_id r) f) rows with
  | [_] => true
  | _ => false
  end.

(** Modelled from the spec: the friendship table has a unique composite
    key [(user_id, friend_id)]; the schema is not part of the sources.
    [.insert([...])] is one statement: it is refused as a whole, leaving
    the table as it was, when one of its rows is already there. The
    handler does not read the outcome. *)
Definition insertFriendships (rows new : list FriendRow) : list FriendRow :=
  if existsb (fun n => existsb (rowEqb n) rows) new then rows else rows ++ new.

(** The object literal [{ id, email, displayName, isOnline }]. *)
Definition friendJson (friendId : string) (mail : option string) (name : string)
    (online : bool) : Json :=
  JObj (obj [("id", Some (JStr friendId)); ("email", option_map JStr mail);
             ("displayName", Some (JStr name)); ("isOnline", Some (JBool online))]).

Definition friendAdded (friend : Json) : list (string * Json) :=
  obj [("type", Some (JStr "friend_added")); ("friend", Some friend)].

Section AddFriend.

(** JavaScript's [String.prototype.toUpperCase] and the user directory
    ([supabase.auth.admin.getUserById], [None] when it yields no user). *)
Variable toUpperCase : string -> string.
Variable getUserById : string -> option User.

(** The [add_friend] case of [handleFluxMessage] for the message
    [{type: "add_friend", code}], run with no other handler interleaved at
    its awaits: the tables afterwards and the messages written. The
    registry and the session table are only read. *)
Definition handleAddFriend (isOpen : WsId -> bool) (w : WsId) (client : Client)
    (code : string) (h : Hub) (db : Db) : Db * list Effect :=
  match selectUserByCode (codes db) (toUpperCase code) with
  | None => (db, send isOpen w (errorMessage "Invalid connect code"))
  | Some friendId =>
      if String.eqb friendId (id (user client))
      then (db, send isOpen w (errorMessage "Cannot add yourself"))
      else if friendshipExists (friends db) (id (user client)) friendId
      then (db, send isOpen w (errorMessage "Already friends"))
      else
        let db' :=
          {| codes := codes db;
             friends :=
               insertFriendships (friends db)
                 [{| user_id := id (user client); friend_id := friendId |};
                  {| user_id := friendId; friend_id := id (user client) |}] |} in
        let friendUser := getUserById friendId in
        let friendClient := JsMap.get friendId (fluxClients h) in
        (db',
         send isOpen w
           (friendAdded
              (friendJson friendId
                 (match friendUser with Some u => email u | None => None end)
                 (match friendUser with Some u => displayName u | None => "User" end)
                 (match friendClient with Some _ => true | None => false end)))
         ++ match friendClient with
            | Some fc =>
                send isOpen (ws fc)
                  (friendAdded
                     (friendJson (id (user client)) (email (user client))
                        (displayName (user client)) true))
            | None => []
            end)
  end.

End AddFriend.

(** The friendship relation a table stands for, and what the hub is meant
    to keep of it. *)
Definition isFriend (rows : list FriendRow) (a b : string) : Prop :=
  In {| user_id := a; friend_id := b |} rows.

Record Consistent (rows : list FriendRow) : Prop := {
  symmetric : forall a b, isFriend rows a b -> isFriend rows b a;
  irreflexive : forall a, ~ isFriend rows a a;
  distinct : List.NoDup rows
}.

(** Every message goes to a socket that is open. *)
Definition onlyToOpen (isOpen : WsId -> bool) (es : list Effect) : Prop :=
  Forall (fun e => match e with
                   | Sent w _ => isOpen w = true
                   | Closed _ _ _ => True
                   end) es.

(** The sockets written to, in order. *)
Definition recipients (es : list Effect) : list WsId :=
  flat_map (fun e => match e with Sent w _ => [w] | Closed _ _ _ => [] end) es.

End Friends.

(** ** Listing files (server: [GET /api/files]) *)

Module Rest.

Definition isTrue (v : option string) : bool :=
  match v with Some s => String.eqb s "true" | None => false end.

(** The query text and the parameters [GET /api/files] hands to the
    database for the scalar query parameters [starred], [deleted] and
    [parent_id] ([None] when absent). *)
Definition listFilesQuery (userId : string) (starred deleted parent_id : option string)
  : string * list string :=
  let query := "SELECT * FROM files WHERE user_id = $1" in
  let query :=
    (query ++ (if isTrue deleted then " AND is_deleted = true"
               else " AND is_deleted = false"))%string in
  let query :=
    (query ++ (if isTrue starred then " AND starred = true" else ""))%string in
  match parent_id with
  | None =>
      ((query ++ " AND parent_id IS NULL" ++ " ORDER BY type DESC, created_at DESC")%string,
       [userId])
  | Some p =>
      if String.eqb p "null" || String.eqb p ""
      then ((query ++ " AND parent_id IS NULL"
                   ++ " ORDER BY type DESC, created_at DESC")%string,
            [userId])
      else ((query ++ (" AND parent_id = $" ++ Transfer.describe 2)
                   ++ " ORDER BY type DESC, created_at DESC")%string,
            [userId; p])
  end.

(** [authHeader?.startsWith("Bearer ")] and [authHeader.substring(7)] of
    [authMiddleware] and [onUploadCreate]: the token, or [None] for the
    401 answer. *)
Definition bearerToken (authHeader : option string) : option string :=
  match authHeader with
  | Some h =>
      if String.prefix "Bearer " h
      then Some (String.substring 7 (String.length h - 7) h)
      else None
  | None => None
  end.

(** The number of parameter markers [$] in a query text. *)
Fixpoint placeholders (query : string) : nat :=
  match query with
  | EmptyString => O
  | String c rest => ((if Ascii.eqb c "$" then 1 else 0) + placeholders rest)%nat
  end.

(** Whether [parent_id] names a folder: present, and neither ["null"] nor
    empty. *)
Definition namesFolder (parent_id : option string) : bool :=
  match parent_id with
  | Some p => negb (String.eqb p "null" || String.eqb p "")
  | None => false
  end.

End Rest.

(** ** Remote ICE candidates (client: [WebRTCService]) *)

Module Ice.

(** [RTCIceCandidate(sdp:sdpMLineIndex:sdpMid:)]. *)
Record Candidate := { sdp : string; sdpMLineIndex : Z; sdpMid : option string }.

(** The properties of [WebRTCService] that decide what happens to a
    remote candidate. *)
Record Service := {
  hasPeerConnection : bool;
  hasRemoteDescription : bool;
  pendingIceCandidates : list Candidate
}.

Inductive Effect :=
| AddCandidate (c : Candidate)            (* peerConnection?.add(candidate) *)
| SetRemoteDescription (isOffer : bool) (sdp : string)
| CreateAnswer
| DidFail (error : string).               (* state = .failed(error) *)

(** [addIceCandidate(_:sdpMid:sdpMLineIndex:)]. *)
Definition addIceCandidate (candidateString : string) (mid : option string)
    (lineIndex : option Z) (s : Service) : Service * list Effect :=
  let candidate :=
    {| sdp := candidateString;
       sdpMLineIndex := match lineIndex with Some i => i | None => 0 end;
       sdpMid := mid |} in
  if hasRemoteDescription s
  then (s, if hasPeerConnection s then [AddCandidate candidate] else [])
  else ({| hasPeerConnection := hasPeerConnection s;
           hasRemoteDescription := false;
           pendingIceCandidates := pendingIceCandidates s ++ [candidate] |}, []).

(** [setRemoteOffer] and [setRemoteAnswer] up to the call of
    [setRemoteDescription]. *)
Definition setRemote (isOffer : bool) (sdpText : string) (s : Service)
  : Service * list Effect :=
  if hasPeerConnection s then (s, [SetRemoteDescription isOffer sdpText]) else (s, []).

(** The completion handler of [setRemoteDescription]: with an error the
    state becomes failed and nothing else changes; otherwise the queued
    candidates are added ([addPendingIceCandidates]) and, for an offer,
    the answer is created. *)
Definition remoteDescriptionSet (isOffer : bool) (error : option string) (s : Service)
  : Service * list Effect :=
  match error with
  | Some description => (s, [DidFail description])
  | None =>
      ({| hasPeerConnection := hasPeerConnection s;
          hasRemoteDescription := true;
          pendingIceCandidates := [] |},
       (if hasPeerConnection s then List.map AddCandidate (pendingIceCandidates s) else [])
       ++ (if isOffer && hasPeerConnection s then [CreateAnswer] else []))
  end.

(** What reaches the service from the signalling side. *)
Inductive Event :=
| RemoteCandidate (candidateString : string) (mid : option string) (lineIndex : option Z)
| RemoteDescription (isOffer : bool) (sdpText : string)
| DescriptionSet (isOffer : bool) (error : option string).

Definition step (e : Event) (s : Service) : Service * list Effect :=
  match e with
  | RemoteCandidate c mid idx => addIceCandidate c mid idx s
  | RemoteDescription isOffer sdpText => setRemote isOffer sdpText s
  | DescriptionSet isOffer error => remoteDescriptionSet isOffer error s
  end.

Fixpoint run (es : list Event) (s : Service) : Service * list Effect :=
  match es with
  | [] => (s, [])
  | e :: es' =>
      let '(s1, out1) := step e s in
      let '(s2, out2) := run es' s1 in
      (s2, out1 ++ out2)
  end.

(** The candidates an event sequence brings, in order. *)
Definition received (es : list Event) : list Candidate :=
  flat_map (fun e => match e with
                     | RemoteCandidate c mid idx =>
                         [{| sdp := c;
                             sdpMLineIndex := match idx with Some i => i | None => 0 end;
                             sdpMid := mid |}]
                     | _ => []
                     end) es.

(** The candidates handed to the peer connection, in order. *)
Definition added (out : list Effect) : list Candidate :=
  flat_map (fun e => match e with AddCandidate c => [c] | _ => [] end) out.

End Ice.

(** ** Channels and traces (client: [WebRTCService.sendDataRoundRobin],
       the effects of [DataChannelManager]) *)

Module Trace.
Import Transfer.

(** [index % WebRTCConfig.parallelChannels] of [sendDataRoundRobin]
    (Swift's remainder truncates toward zero). *)
Definition channelFor (index : Z) : Z := Z.rem index parallelChannels.

(** The calls of [sendDataRoundRobin]: frame and index, in order. *)
Definition roundRobinSends (es : list Effect) : list (Data * Z) :=
  flat_map (fun e => match e with SendDataRoundRobin msg i => [(msg, i)] | _ => [] end) es.

(** The channels named in the calls of [sendData], in order. *)
Definition controlChannels (es : list Effect) : list Z :=
  flat_map (fun e => match e with SendData _ c => [c] | _ => [] end) es.

(** [bytesTransferred] of the progress reports, in order. *)
Definition progressBytes (es : list Effect) : list Z :=
  flat_map (fun e => match e with
                     | DidUpdateProgress p => [bytesTransferred p]
                     | _ => []
                     end) es.

(** The payload bytes of a sequence of (index, payload) pairs. *)
Definition payloadBytes (msgs : list (Z * Data)) : Z :=
  fold_right (fun p acc => count (snd p) + acc) 0 msgs.

(** The byte counter after each pair of a sequence, from [start]. *)
Fixpoint runningTotals (start : Z) (msgs : list (Z * Data)) : list Z :=
  match msgs with
  | [] => []
  | p :: rest => (start + count (snd p)) :: runningTotals (start + count (snd p)) rest
  end.

(** A list of byte counts that never decreases. *)
Fixpoint nondecreasing (l : list Z) : Prop :=
  match l with
  | [] => True
  | a :: rest => Forall (fun b => a <= b) rest /\ nondecreasing rest
  end.

(** The smallest index in [0, n) that a chunk store lacks, if any. *)
Definition isMissing (chunks : gmap Z Data) (n k : Z) : Prop :=
  0 <= k < n /\ chunks !! k = None /\ forall j, 0 <= j < k -> is_Some (chunks !! j).

End Trace.

(** ** The hub over time (server: the handlers of [wss.on("connection")]) *)

Module HubRun.
Import Hub.

(** What happens to the hub: a socket connects, a registered socket
    delivers a message to the handler installed for its client, a socket
    closes and the handler installed for its user runs. *)
Inductive Event :=
| Connect (now : Z) (w : WsId) (token : option string) (verified : Verified)
| Message (now : Z) (client : Client) (data : FluxMessage)
| Close (u : User).

Definition step (isOpen : WsId -> bool) (e : Event) (h : Hub) : Hub * list Effect :=
  match e with
  | Connect now w token verified => onConnection isOpen now w token verified h
  | Message now client data => handleFluxMessage isOpen now (ws client) client data h
  | Close u => onClose isOpen u h
  end.

(** The hub after a sequence of events, from the state at start-up
    ([new Map()] twice). *)
Definition run (isOpen : WsId -> bool) (es : list Event) : Hub :=
  fold_left (fun h e => fst (step isOpen e h)) es
    {| fluxClients := []; rtcSessions := [] |}.

(** A registry whose every entry is filed under the id of its client's
    user and was made by a connection of [es] that carried a token which
    verified as that user. *)
Definition authenticated (es : list Event) (h : Hub) : Prop :=
  forall k c,
    JsMap.get k (fluxClients h) = Some c ->
    id (user c) = k
    /\ exists tok, tok <> ""
                   /\ In (Connect (connectedAt c) (ws c) (Some tok) (VUser (user c))) es.

End HubRun.

(** ** More scenarios *)

Module Scenario2.
Import Hub Friends.

(** B's connect code is X8K9MP; nobody is friends yet. *)
Definition dbCodes : Db :=
  {| codes := [{| ConnectCode.user_id := "B"; ConnectCode.code := "X8K9MP" |}];
     friends := [] |}.

(** An upper-casing of the ASCII letters, standing for [toUpperCase] in
    the scenarios. *)
Fixpoint asciiUpper (s : string) : string :=
  match s with
  | EmptyString => EmptyString
  | String c s' =>
      let n := nat_of_ascii c in
      String (if ((97 <=? n) && (n <=? 122))%nat then ascii_of_nat (n - 32) else c)
             (asciiUpper s')
  end.

Definition directory (userId : string) : option User :=
  if String.eqb userId "A" then Some Scenario.userA
  else if String.eqb userId "B" then Some Scenario.userB
  else None.

(** A service with a peer connection, before any remote description. *)
Definition freshService : Ice.Service :=
  {| Ice.hasPeerConnection := true; Ice.hasRemoteDescription := false;
     Ice.pendingIceCandidates := [] |}.

(** A sender holding the file "abc", right after [sendFile]. *)
Definition senderAbc : Transfer.Manager :=
  {| Transfer.sendingTransferId := Some "T1";
     Transfer.sendingFileData := Some (list_byte_of_string "abc");
     Transfer.sendingMetadata := Some Scenario.metadataAbc;
     Transfer.sendingChunkIndex := 0;
     Transfer.sendingStartTime := Some 0;
     Transfer.sendingPaused := false;
     Transfer.receivingTransferId := None; Transfer.receivingMetadata := None;
     Transfer.receivingChunks := ∅; Transfer.receivingBytesReceived := 0;
     Transfer.receivingStartTime := None;
     Transfer.tempDirectory := "/tmp/GraphiteFlux" |}.

(** The transport asks for a pause. *)
Definition congested : Transfer.Env :=
  {| Transfer.shouldPauseSending := true; Transfer.writeError := None;
     Transfer.now := 0 |}.

End Scenario2.

(* ===================================================================== *)
(** * Part II. Properties                                                 *)
(* ===================================================================== *)

Section ConnectCodeFacts.
Import ConnectCode.

Lemma randomIndex_range (r : Q) :
  (0 <= r)%Q -> (r < 1)%Q -> 0 <= randomIndex r < 32.
Proof.
  intros H0 H1. unfold randomIndex.
  change (Z.of_nat (String.length chars)) with 32.
  split.
  - change 0 with (Qfloor 0). apply Qfloor_resp_le.
    apply Qmult_le_0_compat; [exact H0 | discriminate].
  - assert (Hlt : (r * inject_Z 32 < 1 * inject_Z 32)%Q)
      by (apply Qmult_lt_compat_r; [reflexivity | exact H1]).
    rewrite Qmult_1_l in Hlt.
    pose proof (Qfloor_le (r * inject_Z 32)) as Hf.
    rewrite Zlt_Qlt. eapply Qle_lt_trans; eassumption.
Qed.

Lemma charAt_chars (i : Z) :
  0 <= i < 32 ->
  exists c, charAt chars i = String c "" /\ codeClass c = true
            /\ In c (list_ascii_of_string chars).
Proof.
  intros Hi. unfold charAt.
  destruct (Z.ltb_spec i 0) as [|_]; [lia|].
  assert (Hn : (Z.to_nat i < 32)%nat) by lia.
  revert Hn. generalize (Z.to_nat i) as n. intros n Hn.
  do 32 (destruct n as [|n];
         [eexists; split; [reflexivity | split; [reflexivity | simpl; tauto]] |]).
  lia.
Qed.

Lemma length_append_one (s : string) (c : ascii) :
  String.length (s ++ String c "")%string = S (String.length s).
Proof. induction s as [|a s IH]; simpl; [reflexivity | now rewrite IH]. Qed.

Lemma list_ascii_append (s t : string) :
  list_ascii_of_string (s ++ t)%string = list_ascii_of_string s ++ list_ascii_of_string t.
Proof. induction s as [|a s IH]; simpl; [reflexivity | now rewrite IH]. Qed.

(** The loop invariant of [generateConnectCode]: every iteration appends one
    character of the alphabet and consumes one draw. *)
Lemma generateLoop_spec (rnd : Rng) :
  (forall k, (0 <= rnd k)%Q /\ (rnd k < 1)%Q) ->
  forall n pos acc,
    Forall (fun c => codeClass c = true /\ In c (list_ascii_of_string chars))
           (list_ascii_of_string acc) ->
    let r := generateLoop n rnd pos acc in
    String.length (fst r) = (String.length acc + n)%nat
    /\ Forall (fun c => codeClass c = true /\ In c (list_ascii_of_string chars))
              (list_ascii_of_string (fst r)).
Proof.
  intros Hrnd n. induction n as [|n IH]; intros pos acc Hacc; simpl.
  - split; [lia | exact Hacc].
  - destruct (Hrnd pos) as [H0 H1].
    destruct (charAt_chars _ (randomIndex_range _ H0 H1)) as (c & Hc & Hcl & Hin).
    rewrite Hc.
    specialize (IH (S pos) (acc ++ String c "")%string).
    simpl in IH. destruct IH as (Hl & Hf).
    + rewrite list_ascii_append. apply Forall_app. split; [exact Hacc|].
      simpl. constructor; [split; assumption | constructor].
    + rewrite length_append_one in Hl. split; [lia | exact Hf].
Qed.

(** Every iteration consumes one draw, whatever the draws are. *)
Lemma generateLoop_pos (rnd : Rng) (n pos : nat) (acc : string) :
  snd (generateLoop n rnd pos acc) = (pos + n)%nat.
Proof.
  revert pos acc. induction n as [|n IH]; intros pos acc; simpl.
  - lia.
  - rewrite IH. lia.
Qed.

Lemma generateConnectCode_pos (rnd : Rng) (pos : nat) :
  snd (generateConnectCode rnd pos) = (pos + 6)%nat.
Proof. apply generateLoop_pos. Qed.

(** C1 (as stated, refuted): with every draw equal to 10/32 the generator
    returns "LLLLLL", which the pattern [^[A-HJ-KM-NP-Z2-9]{6}$] rejects
    (L is in the generator's alphabet). *)
Lemma generateConnectCode_emits_L :
  (0 <= 10 # 32)%Q /\ (10 # 32 < 1)%Q
  /\ generateConnectCode (fun _ => 10 # 32) 0 = ("LLLLLL", 6%nat)
  /\ matchesSpecPattern (fst (generateConnectCode (fun _ => 10 # 32) 0)) = false.
Proof. repeat split; try reflexivity; discriminate. Qed.

(** C1 (amended): whenever [Math.random] yields values in [0, 1), the code
    returned by [generateConnectCode] has exactly six characters, each one
    of the 32 characters of [chars], i.e. it matches [^[A-HJ-NP-Z2-9]{6}$]
    (A-Z and 2-9 without I and O; L is allowed). *)
Theorem generateConnectCode_alphabet (rnd : Rng) (pos : nat) :
  (forall k, (0 <= rnd k)%Q /\ (rnd k < 1)%Q) ->
  let code := fst (generateConnectCode rnd pos) in
  String.length code = 6%nat
  /\ (forall c, In c (list_ascii_of_string code) ->
                In c (list_ascii_of_string chars))
  /\ matchesCodePattern code = true.
Proof.
  intros Hrnd code.
  destruct (generateLoop_spec rnd Hrnd 6 pos "" ltac:(constructor)) as [Hl Hf].
  fold (generateConnectCode rnd pos) in Hl, Hf. fold code in Hl, Hf.
  simpl in Hl. rewrite Forall_forall in Hf.
  split; [exact Hl|]. split.
  - intros c Hc. apply Hf. apply list_elem_of_In. exact Hc.
  - unfold matchesCodePattern. rewrite Hl. simpl.
    apply forallb_forall. intros c Hc. apply Hf. apply list_elem_of_In. exact Hc.
Qed.

Lemma generateConnectCode_alphabet_witness :
  (forall k, (0 <= Z.of_nat (k mod 7) # 7)%Q /\ (Z.of_nat (k mod 7) # 7 < 1)%Q)
  /\ String.length (fst (generateConnectCode (fun k => Z.of_nat (k mod 7) # 7) 0)) = 6%nat
  /\ (forall c,
        In c (list_ascii_of_string
                (fst (generateConnectCode (fun k => Z.of_nat (k mod 7) # 7) 0))) ->
        In c (list_ascii_of_string chars))
  /\ matchesCodePattern
       (fst (generateConnectCode (fun k => Z.of_nat (k mod 7) # 7) 0)) = true.
Proof.
  assert (H : forall k, (0 <= Z.of_nat (k mod 7) # 7)%Q /\ (Z.of_nat (k mod 7) # 7 < 1)%Q).
  { intros k. pose proof (Nat.mod_upper_bound k 7 ltac:(discriminate)).
    unfold Qle, Qlt. simpl. lia. }
  split; [exact H|].
  exact (generateConnectCode_alphabet (fun k => Z.of_nat (k mod 7) # 7) 0%nat H).
Defined.

(** If every one of the ten candidates is refused by the table, the loop
    ends with the last candidate and the table as it was. *)
Lemma insertLoop_all_refused (userId : string) (tbl : CodeTable) (rnd : Rng) :
  forall n pos code,
    (0 < n)%nat ->
    (forall k, (k < n)%nat ->
       insertCode tbl userId (fst (generateConnectCode rnd (pos + 6 * k))) = None) ->
    insertLoop n userId tbl rnd pos code
    = (Some (fst (generateConnectCode rnd (pos + 6 * (n - 1)))), tbl,
       (pos + 6 * n)%nat).
Proof.
  induction n as [|n IH]; intros pos code Hn Hall; [lia|].
  cbn [insertLoop].
  destruct (generateConnectCode rnd pos) as [c pos'] eqn:Hg.
  assert (Hp : pos' = (pos + 6)%nat)
    by (rewrite <- (generateConnectCode_pos rnd pos), Hg; reflexivity).
  pose proof (Hall 0%nat ltac:(lia)) as H0.
  replace (pos + 6 * 0)%nat with pos in H0 by lia.
  rewrite Hg in H0. cbn [fst] in H0. rewrite H0. subst pos'.
  destruct n as [|n].
  - cbn [insertLoop]. replace (pos + 6 * (1 - 1))%nat with pos by lia.
    rewrite Hg. cbn [fst]. do 2 f_equal.
  - rewrite IH; [| lia |].
    + replace (pos + 6 + 6 * (S n - 1))%nat with (pos + 6 * (S (S n) - 1))%nat by lia.
      f_equal. lia.
    + intros k Hk.
      replace (pos + 6 + 6 * k)%nat with (pos + 6 * S k)%nat by lia.
      apply Hall. lia.
Qed.

(** C7 (the code at the failing input): for a user without a code, when all
    ten candidates are refused by the table, [getOrCreateConnectCode]
    returns the tenth candidate as the user's code although nothing was
    stored: the table is unchanged and still holds no code for the user.
    No error is raised. *)
Theorem getOrCreateConnectCode_exhausted (userId : string) (tbl : CodeTable)
    (rnd : Rng) (pos : nat) :
  selectCodeByUser tbl userId = None ->
  (forall k, (k < 10)%nat ->
     insertCode tbl userId (fst (generateConnectCode rnd (pos + 6 * k))) = None) ->
  getOrCreateConnectCode userId tbl rnd pos
  = (Some (fst (generateConnectCode rnd (pos + 54))), tbl, (pos + 60)%nat)
  /\ selectCodeByUser (snd (fst (getOrCreateConnectCode userId tbl rnd pos))) userId
     = None.
Proof.
  intros Hsel Hall.
  assert (E : getOrCreateConnectCode userId tbl rnd pos
              = (Some (fst (generateConnectCode rnd (pos + 54))), tbl, (pos + 60)%nat)).
  { unfold getOrCreateConnectCode. rewrite Hsel.
    rewrite (insertLoop_all_refused userId tbl rnd 10 pos None); [reflexivity | lia | exact Hall]. }
  split; [exact E | rewrite E; exact Hsel].
Qed.

(** The failing input of C7: the only row gives "AAAAAA" to user "u0";
    every draw is 0, so each candidate is "AAAAAA"; user "u1" asks. *)
Lemma getOrCreateConnectCode_exhausted_witness :
  getOrCreateConnectCode "u1" [{| user_id := "u0"; code := "AAAAAA" |}] (fun _ => 0%Q) 0
  = (Some "AAAAAA", [{| user_id := "u0"; code := "AAAAAA" |}], 60%nat)
  /\ selectCodeByUser
       (snd (fst (getOrCreateConnectCode "u1"
                    [{| user_id := "u0"; code := "AAAAAA" |}] (fun _ => 0%Q) 0))) "u1"
     = None.
Proof.
  apply (getOrCreateConnectCode_exhausted "u1"
           [{| user_id := "u0"; code := "AAAAAA" |}] (fun _ => 0%Q) 0).
  - reflexivity.
  - intros k _. reflexivity.
Defined.

End ConnectCodeFacts.

(** ** The JavaScript map *)

Section JsMapFacts.
Context {V : Type}.
Implicit Types (m : JsMap.t V) (k : string) (v : V).

Lemma jsmap_get_set_eq m k v : JsMap.get k (JsMap.set k v m) = Some v.
Proof.
  induction m as [|[k' v'] m IH]; cbn [JsMap.set JsMap.get].
  - now rewrite String.eqb_refl.
  - destruct (String.eqb_spec k' k) as [->|Hne]; cbn [JsMap.get].
    + now rewrite String.eqb_refl.
    + destruct (String.eqb_spec k' k); [contradiction | exact IH].
Qed.

Lemma jsmap_get_set_ne m k k' v :
  k <> k' -> JsMap.get k' (JsMap.set k v m) = JsMap.get k' m.
Proof.
  intros Hne. induction m as [|[k0 v0] m IH]; cbn [JsMap.set JsMap.get].
  - destruct (String.eqb_spec k k'); [contradiction | reflexivity].
  - destruct (String.eqb_spec k0 k) as [->|Hk]; cbn [JsMap.get].
    + destruct (String.eqb_spec k k'); [contradiction | reflexivity].
    + destruct (String.eqb_spec k0 k'); [reflexivity | exact IH].
Qed.

(** Setting a key that is present replaces its value where it stands. *)
Lemma jsmap_keys_set_present m k v v0 :
  JsMap.get k m = Some v0 -> JsMap.keys (JsMap.set k v m) = JsMap.keys m.
Proof.
  induction m as [|[k' v'] m IH]; cbn [JsMap.set JsMap.get]; [discriminate|].
  destruct (String.eqb_spec k' k) as [->|Hne]; intros H.
  - reflexivity.
  - unfold JsMap.keys in *. cbn [List.map fst]. f_equal. exact (IH H).
Qed.

Lemma jsmap_keys_set_absent m k v :
  JsMap.get k m = None -> JsMap.keys (JsMap.set k v m) = JsMap.keys m ++ [k].
Proof.
  induction m as [|[k' v'] m IH]; cbn [JsMap.set JsMap.get]; [reflexivity|].
  destruct (String.eqb_spec k' k) as [->|Hne]; intros H; [discriminate|].
  unfold JsMap.keys in *. cbn [List.map fst app]. f_equal. exact (IH H).
Qed.

Lemma jsmap_get_None_keys m k : JsMap.get k m = None -> ~ In k (JsMap.keys m).
Proof.
  induction m as [|[k' v'] m IH]; cbn [JsMap.get]; [intros _ []|].
  destruct (String.eqb_spec k' k) as [->|Hne]; [discriminate|].
  intros H [E|Hin]; [exact (Hne E) | exact (IH H Hin)].
Qed.

Lemma jsmap_wf_set m k v : JsMap.wf m -> JsMap.wf (JsMap.set k v m).
Proof.
  unfold JsMap.wf. intros Hwf.
  destruct (JsMap.get k m) as [v0|] eqn:Hg.
  - now rewrite (jsmap_keys_set_present m k v v0 Hg).
  - rewrite (jsmap_keys_set_absent m k v Hg).
    apply NoDup_app. split; [exact Hwf|].
    split; [| apply NoDup_singleton].
    intros x Hx Hx'. apply list_elem_of_singleton in Hx'. subst x.
    apply (jsmap_get_None_keys m k Hg). now apply list_elem_of_In.
Qed.

Lemma jsmap_get_delete_eq m k : JsMap.get k (JsMap.delete k m) = None.
Proof.
  unfold JsMap.delete.
  induction m as [|[k' v'] m IH]; cbn [List.filter JsMap.get fst]; [reflexivity|].
  destruct (String.eqb_spec k' k) as [->|Hne]; cbn [negb JsMap.get]; [exact IH|].
  destruct (String.eqb_spec k' k); [contradiction | exact IH].
Qed.

Lemma jsmap_get_delete_ne m k k' :
  k <> k' -> JsMap.get k' (JsMap.delete k m) = JsMap.get k' m.
Proof.
  intros Hne. unfold JsMap.delete.
  induction m as [|[k0 v0] m IH]; cbn [List.filter JsMap.get fst]; [reflexivity|].
  destruct (String.eqb_spec k0 k) as [->|Hk]; cbn [negb JsMap.get].
  - destruct (String.eqb_spec k k'); [contradiction | exact IH].
  - destruct (String.eqb_spec k0 k'); [reflexivity | exact IH].
Qed.

Lemma jsmap_get_In m k v : JsMap.get k m = Some v -> In (k, v) m.
Proof.
  induction m as [|[k' v'] m IH]; cbn [JsMap.get]; [discriminate|].
  destruct (String.eqb_spec k' k) as [->|Hne]; intros H.
  - injection H as ->. now left.
  - right. exact (IH H).
Qed.

(** In a well-formed map an entry is found under its key. *)
Lemma jsmap_In_get m k v : JsMap.wf m -> In (k, v) m -> JsMap.get k m = Some v.
Proof.
  unfold JsMap.wf, JsMap.keys.
  induction m as [|[k' v'] m IH]; cbn [List.map fst JsMap.get]; [intros _ []|].
  intros Hnd [E|Hin].
  - injection E as -> ->. now rewrite String.eqb_refl.
  - apply NoDup_cons in Hnd as [Hk Hnd].
    destruct (String.eqb_spec k' k) as [->|Hne].
    + exfalso. apply Hk. apply list_elem_of_In.
      change k with (fst (k, v)). now apply in_map.
    + exact (IH Hnd Hin).
Qed.

Lemma jsmap_get_filter m k (p : V -> bool) :
  JsMap.wf m ->
  JsMap.get k (List.filter (fun e => p (snd e)) m)
  = match JsMap.get k m with
    | Some v => if p v then Some v else None
    | None => None
    end.
Proof.
  unfold JsMap.wf, JsMap.keys.
  induction m as [|[k' v'] m IH]; cbn [List.filter List.map fst snd JsMap.get];
    [reflexivity|].
  intros Hnd. apply NoDup_cons in Hnd as [Hk Hnd].
  destruct (p v') eqn:Hp; cbn [JsMap.get];
    destruct (String.eqb_spec k' k) as [->|Hne]; try (exact (IH Hnd)).
  - now rewrite Hp.
  - rewrite Hp, (IH Hnd).
    destruct (JsMap.get k m) as [v|] eqn:Hg; [|reflexivity].
    exfalso. apply Hk. apply list_elem_of_In.
    change k with (fst (k, v)). apply in_map. now apply jsmap_get_In.
Qed.

Lemma jsmap_wf_filter m (p : string * V -> bool) :
  JsMap.wf m -> JsMap.wf (List.filter p m).
Proof.
  unfold JsMap.wf, JsMap.keys.
  induction m as [|[k v] m IH]; cbn [List.filter List.map fst]; [trivial|].
  intros Hnd. apply NoDup_cons in Hnd as [Hk Hnd].
  destruct (p (k, v)); [|exact (IH Hnd)].
  cbn [List.map fst]. apply NoDup_cons. split; [|exact (IH Hnd)].
  intros Hin. apply Hk. apply list_elem_of_In in Hin. apply list_elem_of_In.
  apply in_map_iff in Hin as (e & He & Hin). apply filter_In in Hin as [Hin _].
  apply in_map_iff. eauto.
Qed.

Lemma jsmap_wf_delete m k : JsMap.wf m -> JsMap.wf (JsMap.delete k m).
Proof. apply jsmap_wf_filter. Qed.

End JsMapFacts.

(** ** The signalling hub *)

Section HubFacts.
Import Hub.

Variable isOpen : WsId -> bool.

Lemma send_no_close w msg : existsb isClosed (send isOpen w msg) = false.
Proof. unfold send. now destruct (isOpen w). Qed.

Lemma existsb_isClosed_app (a b : list Effect) :
  existsb isClosed (a ++ b) = existsb isClosed a || existsb isClosed b.
Proof. apply existsb_app. Qed.

(** The presence broadcast writes one kind of message and closes nothing. *)
Lemma notifyFriendsOfStatus_types clients userId (isOnline : bool) :
  Forall (fun e => sentType e
                   = Some (JStr (if isOnline then "friend_online" else "friend_offline")))
         (notifyFriendsOfStatus isOpen clients userId isOnline)
  /\ existsb isClosed (notifyFriendsOfStatus isOpen clients userId isOnline) = false.
Proof.
  unfold notifyFriendsOfStatus.
  induction clients as [|[k c] cs [IH1 IH2]]; cbn [flat_map].
  - split; [constructor | reflexivity].
  - split.
    + apply Forall_app. split; [|exact IH1].
      unfold send. destruct (isOpen (ws (snd (k, c)))); repeat constructor.
    + rewrite existsb_isClosed_app, IH2, send_no_close. reflexivity.
Qed.

(** The loop of the [close] handler removes from the accumulator every
    entry whose key is the key of a session of the user met on the way. *)
Lemma purge_fold userId (l acc : JsMap.t Session) :
  fold_left
    (fun m (e : string * Session) =>
       if involves userId (snd e) then JsMap.delete (fst e) m else m) l acc
  = List.filter
      (fun e => negb (existsb (fun d => involves userId (snd d)
                                        && String.eqb (fst d) (fst e)) l)) acc.
Proof.
  revert acc. induction l as [|a l IH]; intros acc; cbn [fold_left existsb].
  - induction acc as [|e acc IHa]; cbn [List.filter negb]; [reflexivity | now f_equal].
  - rewrite IH. destruct (involves userId (snd a)) eqn:Ha; cbn [andb orb].
    + unfold JsMap.delete.
      induction acc as [|e acc IHa]; cbn [List.filter]; [reflexivity|].
      rewrite (String.eqb_sym (fst a) (fst e)).
      destruct (String.eqb (fst e) (fst a)); cbn [negb orb List.filter].
      * exact IHa.
      * destruct (negb _); [f_equal|]; exact IHa.
    + reflexivity.
Qed.

(** On a well-formed table the purge keeps exactly the sessions the user
    takes no part in, in their order. *)
Lemma purgeSessions_filter userId (sessions : JsMap.t Session) :
  JsMap.wf sessions ->
  purgeSessions userId sessions
  = List.filter (fun e => negb (involves userId (snd e))) sessions.
Proof.
  intros Hwf. unfold purgeSessions. rewrite purge_fold.
  apply filter_ext_in. intros [k s] Hin. f_equal. cbn [fst snd].
  destruct (involves userId s) eqn:Hs.
  - apply existsb_exists. exists (k, s). split; [exact Hin|].
    cbn [fst snd]. now rewrite Hs, String.eqb_refl.
  - apply not_true_is_false. intros Hex.
    apply existsb_exists in Hex as ([k' s'] & Hin' & Hd). cbn [fst snd] in Hd.
    apply andb_true_iff in Hd as [Hs' Hk]. apply String.eqb_eq in Hk. subst k'.
    pose proof (jsmap_In_get _ _ _ Hwf Hin) as G1.
    pose proof (jsmap_In_get _ _ _ Hwf Hin') as G2.
    congruence.
Qed.

(** The tables stay maps: the empty hub is well formed and every handler
    keeps it so. *)
Lemma wf_empty : wf {| fluxClients := []; rtcSessions := [] |}.
Proof. split; apply NoDup_nil_2. Qed.

Lemma wf_purgeSessions userId (sessions : JsMap.t Session) :
  JsMap.wf sessions -> JsMap.wf (purgeSessions userId sessions).
Proof.
  intros Hwf. unfold purgeSessions. rewrite purge_fold. now apply jsmap_wf_filter.
Qed.

Lemma wf_handleFluxMessage now w client data h :
  wf h -> wf (fst (handleFluxMessage isOpen now w client data h)).
Proof.
  intros [Hc Hs]. unfold wf.
  destruct data; cbn [handleFluxMessage];
    repeat match goal with
           | |- context [match ?x with _ => _ end] => destruct x
           end;
    cbn [fst fluxClients rtcSessions setSessions];
    (split; [exact Hc|]);
    first [exact Hs | apply jsmap_wf_set, Hs | apply jsmap_wf_delete, Hs].
Qed.

Lemma wf_onConnection now w token verified h :
  wf h -> wf (fst (onConnection isOpen now w token verified h)).
Proof.
  intros [Hc Hs]. unfold onConnection.
  destruct token as [tok|]; [|now split].
  destruct (String.eqb tok ""); [now split|].
  destruct verified; [|now split..].
  split; [apply jsmap_wf_set, Hc | exact Hs].
Qed.

Lemma wf_onClose u h : wf h -> wf (fst (onClose isOpen u h)).
Proof.
  intros [Hc Hs]. split; [apply jsmap_wf_delete, Hc | apply wf_purgeSessions, Hs].
Qed.

End HubFacts.

(** *** Disconnect *)

Section Disconnect.
Import Hub Scenario.

(** C5 (as stated, refuted): A's socket closes while the session S1 with B
    is pending and B is connected with an open socket. The session is
    deleted and A leaves the registry, but the only message B receives is
    the presence broadcast: no [rtc_session_close] is written. *)
Lemma onClose_sends_no_session_close :
  onClose socket1Closed userA hubS1
  = ({| fluxClients := [("B", clientB)]; rtcSessions := [] |},
     [Sent 2%nat [("type", JStr "friend_offline"); ("friendId", JStr "A")]])
  /\ JsMap.get "B" (fluxClients (fst (onClose socket1Closed userA hubS1))) = Some clientB
  /\ socket1Closed (ws clientB) = true.
Proof. repeat split. Qed.

(** C5 (amended): when a peer's socket closes, the hub removes the peer's
    id from the connection registry and deletes every session of the
    session table whose initiator or responder is that peer, keeping the
    others as they are; the only messages it writes are the
    [friend_offline] broadcast to the clients still registered (no
    [rtc_session_close] goes to the surviving peer). *)
Theorem onClose_purges (isOpen : WsId -> bool) (u : User) (h : Hub) :
  JsMap.wf (rtcSessions h) ->
  JsMap.get (id u) (fluxClients (fst (onClose isOpen u h))) = None
  /\ rtcSessions (fst (onClose isOpen u h))
     = List.filter (fun e => negb (involves (id u) (snd e))) (rtcSessions h)
  /\ (forall sid s,
        JsMap.get sid (rtcSessions h) = Some s ->
        JsMap.get sid (rtcSessions (fst (onClose isOpen u h)))
        = if involves (id u) s then None else Some s)
  /\ snd (onClose isOpen u h)
     = notifyFriendsOfStatus isOpen (JsMap.delete (id u) (fluxClients h)) (id u) false
  /\ Forall (fun e => sentType e = Some (JStr "friend_offline"))
            (snd (onClose isOpen u h)).
Proof.
  intros Hwf. unfold onClose. cbn [fst snd fluxClients rtcSessions].
  split; [apply jsmap_get_delete_eq|].
  split; [now apply purgeSessions_filter|].
  split.
  - intros sid s Hs. rewrite (purgeSessions_filter _ _ Hwf).
    rewrite (jsmap_get_filter (rtcSessions h) sid
               (fun s => negb (involves (id u) s)) Hwf), Hs.
    now destruct (involves (id u) s).
  - split; [reflexivity|].
    apply (notifyFriendsOfStatus_types isOpen _ (id u) false).
Qed.

Lemma onClose_purges_witness :
  JsMap.wf (rtcSessions hubS1)
  /\ JsMap.get "A" (fluxClients (fst (onClose socket1Closed userA hubS1))) = None
  /\ rtcSessions (fst (onClose socket1Closed userA hubS1))
     = List.filter (fun e => negb (involves "A" (snd e))) (rtcSessions hubS1).
Proof.
  assert (Hwf : JsMap.wf (rtcSessions hubS1)).
  { unfold JsMap.wf. cbn. apply NoDup_singleton. }
  split; [exact Hwf|].
  destruct (onClose_purges socket1Closed userA hubS1 Hwf) as (H1 & H2 & _).
  exact (conj H1 H2).
Defined.

End Disconnect.

(** *** Session transitions *)

Section Transitions.
Import Hub Scenario.

(** C6 (as stated, refuted): A sends [rtc_session_ready] for the session
    S1, which is still pending. The session becomes connected and the
    message is forwarded to B; the sender gets no [error]. *)
Lemma ready_on_pending_is_accepted :
  JsMap.get "S1" (rtcSessions hubS1)
  = Some {| initiatorId := "A"; responderId := "B"; state := pending; createdAt := 0 |}
  /\ handleFluxMessage allOpen 7 1%nat clientA (RtcSessionReady "S1") hubS1
     = ({| fluxClients := fluxClients hubS1;
           rtcSessions := [("S1", {| initiatorId := "A"; responderId := "B";
                                     state := connected; createdAt := 0 |})] |},
        [Sent 2%nat [("type", JStr "rtc_session_ready"); ("sessionId", JStr "S1");
                     ("senderId", JStr "A")]]).
Proof. split; reflexivity. Qed.

(** C6 (amended): the hub does not compare a requested transition with the
    session's current state. For a session that is in the table, whatever
    its state, [rtc_session_ready] sets the state to connected and is
    forwarded to the other peer, and [rtc_session_accept] sets it to
    accepted and is forwarded to the initiator; neither produces an
    [error]. The only [error] reply is to an [rtc_session_accept] that
    names a session absent from the table ("Session not found"), which
    changes nothing; an [rtc_session_ready], [rtc_session_reject] or
    [rtc_session_close] for an absent session is ignored without a
    reply. *)
Theorem transitions_ignore_current_state (isOpen : WsId -> bool) (now : Z)
    (w : WsId) (client : Client) (h : Hub) (sid peerId : string)
    (reason : option string) :
  (forall s, JsMap.get sid (rtcSessions h) = Some s ->
     let ready := handleFluxMessage isOpen now w client (RtcSessionReady sid) h in
     let accept := handleFluxMessage isOpen now w client (RtcSessionAccept peerId sid) h in
     JsMap.get sid (rtcSessions (fst ready)) = Some (setState s connected)
     /\ fluxClients (fst ready) = fluxClients h
     /\ snd ready
        = match JsMap.get (otherPeer s client) (fluxClients h) with
          | Some other =>
              send isOpen (ws other)
                [("type", JStr "rtc_session_ready"); ("sessionId", JStr sid);
                 ("senderId", JStr (id (user client)))]
          | None => []
          end
     /\ Forall (fun e => sentType e = Some (JStr "rtc_session_ready")) (snd ready)
     /\ JsMap.get sid (rtcSessions (fst accept)) = Some (setState s accepted)
     /\ fluxClients (fst accept) = fluxClients h
     /\ snd accept
        = match JsMap.get (initiatorId s) (fluxClients h) with
          | Some initiator =>
              send isOpen (ws initiator)
                [("type", JStr "rtc_session_accept"); ("sessionId", JStr sid);
                 ("senderId", JStr (id (user client)))]
          | None => []
          end
     /\ Forall (fun e => sentType e = Some (JStr "rtc_session_accept")) (snd accept))
  /\ (JsMap.get sid (rtcSessions h) = None ->
      handleFluxMessage isOpen now w client (RtcSessionAccept peerId sid) h
      = (h, send isOpen w [("type", JStr "error"); ("message", JStr "Session not found")])
      /\ handleFluxMessage isOpen now w client (RtcSessionReady sid) h = (h, [])
      /\ handleFluxMessage isOpen now w client (RtcSessionReject peerId sid reason) h
         = (h, [])
      /\ handleFluxMessage isOpen now w client (RtcSessionClose sid) h = (h, [])).
Proof.
  split.
  - intros s Hs ready accept. subst ready accept.
    cbn [handleFluxMessage]. rewrite Hs. cbn [fst snd setSessions rtcSessions fluxClients].
    rewrite !jsmap_get_set_eq.
    repeat split.
    + destruct (JsMap.get (otherPeer s client) (fluxClients h)) as [o|]; [|constructor].
      unfold send. destruct (isOpen (ws o)); repeat constructor.
    + destruct (JsMap.get (initiatorId s) (fluxClients h)) as [o|]; [|constructor].
      unfold send. destruct (isOpen (ws o)); repeat constructor.
  - intros Hs. cbn [handleFluxMessage]. rewrite Hs. repeat split.
Qed.

Lemma transitions_ignore_current_state_witness :
  JsMap.get "S1" (rtcSessions hubS1)
  = Some {| initiatorId := "A"; responderId := "B"; state := pending; createdAt := 0 |}
  /\ JsMap.get "S1"
       (rtcSessions (fst (handleFluxMessage allOpen 7 1%nat clientA
                            (RtcSessionReady "S1") hubS1)))
     = Some {| initiatorId := "A"; responderId := "B"; state := connected; createdAt := 0 |}
  /\ JsMap.get "S2" (rtcSessions hubS1) = None
  /\ handleFluxMessage allOpen 7 2%nat clientB (RtcSessionAccept "A" "S2") hubS1
     = (hubS1, [Sent 2%nat [("type", JStr "error");
                            ("message", JStr "Session not found")]]).
Proof.
  split; [reflexivity|]. split.
  - exact (proj1 (proj1 (transitions_ignore_current_state allOpen 7 1%nat clientA
                           hubS1 "S1" "B" None) _ eq_refl)).
  - split; [reflexivity|].
    exact (proj1 (proj2 (transitions_ignore_current_state allOpen 7 2%nat clientB
                           hubS1 "S2" "A" None) eq_refl)).
Defined.

End Transitions.

(** *** Registration of a second socket *)

Section Supersession.
Import Hub Scenario.

(** C8 (as stated, refuted): A is registered on socket 1 and a second
    authenticated socket, 3, arrives for A. The registry entry is replaced,
    but the hub closes nothing: its only effects are the [connected]
    message and the presence broadcast, so socket 1 stays open. *)
Lemma second_socket_closes_nothing :
  JsMap.get "A" (fluxClients hubAB) = Some clientA
  /\ onConnection allOpen 9 3%nat (Some "token") (VUser userA) hubAB
     = ({| fluxClients := [("A", {| ws := 3%nat; user := userA; connectedAt := 9 |});
                           ("B", clientB)];
           rtcSessions := [] |},
        [Sent 3%nat [("type", JStr "connected"); ("userId", JStr "A");
                     ("email", JStr "a@example.org")];
         Sent 3%nat [("type", JStr "friend_online"); ("friendId", JStr "A")];
         Sent 2%nat [("type", JStr "friend_online"); ("friendId", JStr "A")]])
  /\ existsb isClosed
       (snd (onConnection allOpen 9 3%nat (Some "token") (VUser userA) hubAB)) = false.
Proof. repeat split. Qed.

(** C8 (amended): when a second authenticated socket is accepted for a
    UserId that already has a registry entry, the hub replaces the entry
    by the new connection, in place, without closing the prior socket (it
    closes no socket at all): the registry keeps one entry per UserId, the
    one of the latest socket, and the session table is untouched. *)
Theorem onConnection_replaces_entry (isOpen : WsId -> bool) (now : Z) (w : WsId)
    (tok : string) (u : User) (h : Hub) (prior : Client) :
  tok <> "" ->
  JsMap.get (id u) (fluxClients h) = Some prior ->
  let r := onConnection isOpen now w (Some tok) (VUser u) h in
  JsMap.get (id u) (fluxClients (fst r))
  = Some {| ws := w; user := u; connectedAt := now |}
  /\ JsMap.keys (fluxClients (fst r)) = JsMap.keys (fluxClients h)
  /\ (JsMap.wf (fluxClients h) -> JsMap.wf (fluxClients (fst r)))
  /\ (forall other, other <> id u ->
        JsMap.get other (fluxClients (fst r)) = JsMap.get other (fluxClients h))
  /\ rtcSessions (fst r) = rtcSessions h
  /\ existsb isClosed (snd r) = false.
Proof.
  intros Htok Hprior r. subst r. unfold onConnection.
  destruct (String.eqb_spec tok "") as [E|_]; [contradiction|].
  cbn [fst snd fluxClients rtcSessions].
  split; [apply jsmap_get_set_eq|].
  split; [exact (jsmap_keys_set_present _ _ _ _ Hprior)|].
  split; [apply jsmap_wf_set|].
  split; [intros other Hne; apply jsmap_get_set_ne; congruence|].
  split; [reflexivity|].
  rewrite existsb_isClosed_app, send_no_close.
  apply (notifyFriendsOfStatus_types isOpen _ (id u) true).
Qed.

Lemma onConnection_replaces_entry_witness :
  "token" <> ""
  /\ JsMap.get "A" (fluxClients hubAB) = Some clientA
  /\ JsMap.get "A"
       (fluxClients (fst (onConnection allOpen 9 3%nat (Some "token") (VUser userA) hubAB)))
     = Some {| ws := 3%nat; user := userA; connectedAt := 9 |}
  /\ existsb isClosed
       (snd (onConnection allOpen 9 3%nat (Some "token") (VUser userA) hubAB)) = false.
Proof.
  assert (Htok : "token" <> "") by discriminate.
  split; [exact Htok|]. split; [reflexivity|].
  destruct (onConnection_replaces_entry allOpen 9 3%nat "token" userA hubAB clientA
              Htok eq_refl) as (H1 & _ & _ & _ & _ & H6).
  exact (conj H1 H6).
Defined.

End Supersession.

(** *** Session requests *)

Section SessionRequest.
Import Hub Scenario.

(** C9 (the code on a session request): when the target is not in the
    registry the initiator gets the error "Peer not connected" and the
    session table is unchanged; otherwise a session in state pending is
    stored under the session id and the responder is sent a message with
    exactly the properties [type], [senderId], [senderName] and
    [sessionId]: the file hint of the request ([fileName], [fileSize],
    [fileType]) is not forwarded, whatever it is. *)
Theorem session_request_forward (isOpen : WsId -> bool) (now : Z) (w : WsId)
    (client : Client) (h : Hub) (peerId sid : string)
    (fileName : option string) (fileSize : option Z) (fileType : option string) :
  let r := handleFluxMessage isOpen now w client
             (RtcSessionRequest peerId sid fileName fileSize fileType) h in
  (JsMap.get peerId (fluxClients h) = None ->
     r = (h, send isOpen w [("type", JStr "error");
                            ("message", JStr "Peer not connected")]))
  /\ (forall target, JsMap.get peerId (fluxClients h) = Some target ->
        JsMap.get sid (rtcSessions (fst r))
        = Some {| initiatorId := id (user client); responderId := peerId;
                  state := pending; createdAt := now |}
        /\ fluxClients (fst r) = fluxClients h
        /\ snd r = send isOpen (ws target)
                     [("type", JStr "rtc_session_request");
                      ("senderId", JStr (id (user client)));
                      ("senderName", JStr (displayName (user client)));
                      ("sessionId", JStr sid)]
        /\ Forall (fun e => match e with
                            | Sent _ m => field "fileName" m = None
                                          /\ field "fileSize" m = None
                                          /\ field "fileType" m = None
                            | Closed _ _ _ => False
                            end) (snd r)).
Proof.
  intros r. subst r. cbn [handleFluxMessage]. split.
  - intros Hnone. now rewrite Hnone.
  - intros target Ht. rewrite Ht. cbn [fst snd setSessions rtcSessions fluxClients].
    split; [apply jsmap_get_set_eq|]. split; [reflexivity|]. split; [reflexivity|].
    unfold send. destruct (isOpen (ws target)); repeat constructor.
Qed.

(** The failing input of C9: A asks for a session with B, who is
    connected, announcing the file r.bin of 131072 bytes; what B receives
    names no file. *)
Lemma session_request_forward_witness :
  JsMap.get "B" (fluxClients hubAB) = Some clientB
  /\ handleFluxMessage allOpen 7 1%nat clientA
       (RtcSessionRequest "B" "S1" (Some "r.bin") (Some 131072) (Some "bin")) hubAB
     = ({| fluxClients := fluxClients hubAB;
           rtcSessions := [("S1", {| initiatorId := "A"; responderId := "B";
                                     state := pending; createdAt := 7 |})] |},
        [Sent 2%nat [("type", JStr "rtc_session_request"); ("senderId", JStr "A");
                     ("senderName", JStr "a"); ("sessionId", JStr "S1")]])
  /\ snd (handleFluxMessage allOpen 7 1%nat clientA
            (RtcSessionRequest "B" "S1" (Some "r.bin") (Some 131072) (Some "bin")) hubAB)
     = send allOpen (ws clientB)
         [("type", JStr "rtc_session_request"); ("senderId", JStr "A");
          ("senderName", JStr "a"); ("sessionId", JStr "S1")].
Proof.
  split; [reflexivity|]. split; [reflexivity|].
  exact (proj1 (proj2 (proj2 (proj2 (session_request_forward allOpen 7 1%nat clientA hubAB
           "B" "S1" (Some "r.bin") (Some 131072) (Some "bin")) clientB eq_refl)))).
Defined.

End SessionRequest.

(** ** The transfer protocol *)

Section Framing.
Import Transfer.

Lemma count_nonneg (d : Data) : 0 <= count d.
Proof. unfold count. lia. Qed.

Lemma count_app (a b : Data) : count (a ++ b) = count a + count b.
Proof. unfold count. rewrite length_app. lia. Qed.

Lemma length_bigEndian32 (i : Z) : length (bigEndian32 i) = 4%nat.
Proof. unfold bigEndian32. now rewrite length_rev, length_le_split. Qed.

(** The index is read back from the four bytes written for it. *)
Lemma bigEndian32_decode (i : Z) (d : Data) :
  0 <= i < 2 ^ 32 ->
  le_combine (rev (take 4 (drop 1 (chunkMessage i d)))) = i.
Proof.
  intros Hi. unfold chunkMessage, frame. cbn [skipn]. rewrite drop_0.
  rewrite take_app_length' by now rewrite length_bigEndian32.
  unfold bigEndian32. rewrite rev_involutive, le_combine_split.
  apply Z.mod_small. exact Hi.
Qed.

Lemma chunkMessage_payload (i : Z) (d : Data) : drop 5 (chunkMessage i d) = d.
Proof.
  unfold chunkMessage, frame.
  change (drop 5 (rawValue fileChunk :: bigEndian32 i ++ d))
    with (drop 4 (bigEndian32 i ++ d)).
  now rewrite drop_app_length' by now rewrite length_bigEndian32.
Qed.

Lemma count_chunkMessage (i : Z) (d : Data) : count (chunkMessage i d) = 5 + count d.
Proof.
  unfold chunkMessage, frame, count. cbn [length].
  rewrite length_app, length_bigEndian32. lia.
Qed.

(** A chunk frame with a payload is stored under its index, replacing
    whatever was stored there; the byte counter grows by the payload. *)
Lemma handleFileChunk_stores (i : Z) (d : Data) (m : Manager) :
  0 <= i < 2 ^ 32 -> d <> [] ->
  fst (handleFileChunk (chunkMessage i d) m)
  = setReceiving m (<[i := d]> (receivingChunks m)) (receivingBytesReceived m + count d).
Proof.
  intros Hi Hd. unfold handleFileChunk.
  rewrite count_chunkMessage.
  assert (0 < count d) by (unfold count; destruct d; [contradiction | cbn; lia]).
  destruct (Z.ltb_spec 5 (5 + count d)) as [_|]; [|lia].
  cbn [fst]. now rewrite bigEndian32_decode, chunkMessage_payload.
Qed.

(** A chunk frame is dispatched to [handleFileChunk]. *)
Lemma handleIncomingData_chunk decodeJSON env (i : Z) (d : Data) (m : Manager) :
  handleIncomingData decodeJSON env (chunkMessage i d) m
  = Some (handleFileChunk (chunkMessage i d) m).
Proof. reflexivity. Qed.

End Framing.

Section Chunking.
Import Transfer.

(** [i] is a chunk index of a file of [n] bytes exactly when the chunk
    starts inside the file. *)
Lemma totalChunksFor_lt (n i : Z) :
  0 <= n -> 0 <= i -> (i < totalChunksFor n <-> i * chunkSize < n).
Proof.
  intros Hn Hi. unfold totalChunksFor, chunkSize.
  change (64 * 1024) with 65536.
  pose proof (Z.div_mod (n + 65536 - 1) 65536 ltac:(lia)) as Hdm.
  pose proof (Z.mod_pos_bound (n + 65536 - 1) 65536 ltac:(lia)) as Hb.
  split; intros H; nia.
Qed.

Lemma totalChunksFor_nonneg (n : Z) : 0 <= n -> 0 <= totalChunksFor n.
Proof.
  intros Hn. unfold totalChunksFor, chunkSize. apply Z.div_pos; lia.
Qed.

(** The chunks are not empty and hold at most [chunkSize] bytes. *)
Lemma chunkOf_count (file : Data) (i : Z) :
  0 <= i < totalChunksFor (count file) ->
  count (chunkOf file i) = Z.min chunkSize (count file - i * chunkSize)
  /\ 1 <= count (chunkOf file i) <= chunkSize.
Proof.
  intros [Hi Hlt]. apply totalChunksFor_lt in Hlt; [| apply count_nonneg | exact Hi].
  assert (Hc : count (chunkOf file i) = Z.min chunkSize (count file - i * chunkSize)).
  { unfold chunkOf, count in *. rewrite length_take, length_drop.
    unfold chunkSize in *. lia. }
  split; [exact Hc|]. rewrite Hc. unfold chunkSize in *. lia.
Qed.

(** The first [k] chunks, one after the other, are the first bytes of the
    file. *)
Lemma chunks_prefix (file : Data) (k : nat) :
  Z.of_nat k <= totalChunksFor (count file) ->
  concat (List.map (chunkOf file) (seqZ 0 (Z.of_nat k)))
  = take (Z.to_nat (Z.min (Z.of_nat k * chunkSize) (count file))) file.
Proof.
  induction k as [|k IH]; intros Hk.
  - replace (Z.to_nat (Z.min (Z.of_nat 0 * chunkSize) (count file))) with 0%nat
      by (unfold count; lia).
    reflexivity.
  - rewrite Nat2Z.inj_succ, <- Z.add_1_r, seqZ_app by lia.
    rewrite List.map_app, concat_app, IH by lia.
    cbn [seqZ]. rewrite Z.add_0_l.
    change (seqZ (Z.of_nat k) 1) with [Z.of_nat k].
    cbn [List.map concat]. rewrite app_nil_r.
    assert (Hlt : Z.of_nat k * chunkSize < count file)
      by (apply totalChunksFor_lt; [apply count_nonneg | lia | lia]).
    unfold chunkOf.
    rewrite (Z.min_l (Z.of_nat k * chunkSize)) by lia.
    rewrite take_take_drop. f_equal. unfold chunkSize in *. lia.
Qed.

(** Cutting a file into its chunks and joining them gives the file. *)
Lemma chunks_concat (file : Data) :
  concat (List.map (chunkOf file) (seqZ 0 (totalChunksFor (count file)))) = file.
Proof.
  pose proof (totalChunksFor_nonneg (count file) (count_nonneg file)) as HN.
  rewrite <- (Z2Nat.id (totalChunksFor (count file))) at 1 by exact HN.
  rewrite chunks_prefix by lia. rewrite Z2Nat.id by exact HN.
  apply take_ge.
  destruct (Z.le_gt_cases (count file) (totalChunksFor (count file) * chunkSize))
    as [Hle|Hgt]; [unfold count in *; lia|].
  apply totalChunksFor_lt in Hgt; [lia | apply count_nonneg | exact HN].
Qed.

(** The receiver's loop joins the chunks in index order, or stops at the
    first index that is missing. *)
Lemma reassemble_present (chunks : gmap Z Data) (n : nat) (i : Z) (acc : Data) :
  (forall j, i <= j < i + Z.of_nat n -> is_Some (chunks !! j)) ->
  reassemble n i chunks acc
  = inl (acc ++ concat (List.map (fun j => default [] (chunks !! j)) (seqZ i (Z.of_nat n)))).
Proof.
  revert i acc. induction n as [|n IH]; intros i acc Hall.
  - cbn. now rewrite app_nil_r.
  - cbn [reassemble].
    destruct (Hall i ltac:(lia)) as [c Hc]. rewrite Hc.
    rewrite IH by (intros j Hj; apply Hall; lia).
    rewrite Nat2Z.inj_succ, <- Z.add_1_l, (seqZ_cons i) by lia.
    cbn [List.map concat]. rewrite Hc. cbn [default].
    rewrite <- app_assoc. unfold id.
    replace (Z.succ i) with (i + 1) by lia.
    replace (Z.pred (1 + Z.of_nat n)) with (Z.of_nat n) by lia.
    reflexivity.
Qed.

Lemma reassemble_all_present (chunks : gmap Z Data) (n : Z) :
  0 <= n ->
  (forall j, 0 <= j < n -> is_Some (chunks !! j)) ->
  reassemble (Z.to_nat n) 0 chunks [] = inl (chunksInOrder chunks n).
Proof.
  intros Hn Hall. rewrite reassemble_present by (intros j Hj; apply Hall; lia).
  unfold chunksInOrder. now rewrite Z2Nat.id by exact Hn.
Qed.

(** When the map holds the chunks of a file, the chunks in order are the
    file. *)
Lemma chunksInOrder_file (chunks : gmap Z Data) (file : Data) :
  (forall j, 0 <= j < totalChunksFor (count file) -> chunks !! j = Some (chunkOf file j)) ->
  chunksInOrder chunks (totalChunksFor (count file)) = file.
Proof.
  intros Hall. unfold chunksInOrder.
  rewrite <- (chunks_concat file) at 2. f_equal.
  apply map_ext_in. intros j Hj. apply list_elem_of_In, elem_of_seqZ in Hj.
  now rewrite Hall by lia.
Qed.

End Chunking.

Section Checksum.
Import Transfer.

Lemma list_byte_append (s t : string) :
  list_byte_of_string (s ++ t)%string = list_byte_of_string s ++ list_byte_of_string t.
Proof.
  unfold list_byte_of_string. now rewrite list_ascii_append, List.map_app.
Qed.

(** The two digits written for a byte are ASCII. *)
Lemma utf8Valid_hex2 (b : byte) (rest : Data) :
  utf8Valid (list_byte_of_string (hex2 b) ++ rest) = utf8Valid rest.
Proof. destruct b; reflexivity. Qed.

(** A checksum written by [sha256hex] is read back as it is from its
    UTF-8 bytes. *)
Lemma stringOfData_sha256hex (d : Data) :
  stringOfData (dataOfString (sha256hex d)) = Some (sha256hex d).
Proof.
  unfold stringOfData, dataOfString.
  rewrite string_of_list_byte_of_string.
  assert (Hv : utf8Valid (list_byte_of_string (sha256hex d)) = true).
  { unfold sha256hex. generalize (Sha256.digest d) as l.
    induction l as [|b l IH]; cbn [fold_right]; [reflexivity|].
    now rewrite list_byte_append, utf8Valid_hex2. }
  now rewrite Hv.
Qed.

(** The expected checksum [handleFileComplete] reads from a frame. *)
Lemma expected_of_frame (payload : Data) (expected : string) :
  stringOfData payload = Some expected ->
  (if 1 <? count (frame fileComplete payload)
   then match stringOfData (drop 1 (frame fileComplete payload)) with
        | Some s => s | None => "" end
   else "") = expected.
Proof.
  intros Hp. unfold frame. cbn [skipn]. rewrite drop_0, Hp.
  destruct (Z.ltb_spec 1 (count (rawValue fileComplete :: payload))) as [|Hle];
    [reflexivity|].
  destruct payload as [|b p]; [cbn in Hp; congruence|].
  unfold count in Hle. cbn [length] in Hle. lia.
Qed.

(** Without a readable digest the expected checksum is empty. *)
Lemma expected_of_frame_empty (payload : Data) :
  payload = [] \/ stringOfData payload = None ->
  (if 1 <? count (frame fileComplete payload)
   then match stringOfData (drop 1 (frame fileComplete payload)) with
        | Some s => s | None => "" end
   else "") = "".
Proof.
  intros [->|Hn]; [reflexivity|].
  unfold frame. cbn [skipn]. rewrite drop_0, Hn. now destruct (1 <? _).
Qed.

(** [handleFileComplete] when every chunk is there. *)
Lemma handleFileComplete_present env (data : Data) (m : Manager) (md : FileMetadata) :
  receivingMetadata m = Some md ->
  0 <= totalChunks md ->
  (forall j, 0 <= j < totalChunks md -> is_Some (receivingChunks m !! j)) ->
  handleFileComplete env data m
  = let expectedChecksum :=
      if 1 <? count data
      then match stringOfData (drop 1 data) with Some s => s | None => "" end
      else "" in
    let fileData := chunksInOrder (receivingChunks m) (totalChunks md) in
    let fileURL := appendingPathComponent (tempDirectory m) (fileName md) in
    if negb (String.eqb expectedChecksum "")
       && negb (String.eqb (sha256hex fileData) expectedChecksum)
    then Some (cleanup m,
               [sendFailedMessage "Checksum mismatch";
                DidFailTransfer (transferId md) "Checksum mismatch"])
    else match writeError env with
         | None =>
             Some (cleanup m,
                   [WriteFile fileURL fileData;
                    sendSuccessMessage (transferId md);
                    DidCompleteTransfer (transferId md) fileURL])
         | Some description =>
             Some (cleanup m,
                   [WriteFile fileURL fileData;
                    sendFailedMessage description;
                    DidFailTransfer (transferId md) description])
         end.
Proof.
  intros Hmd HN Hall. unfold handleFileComplete. rewrite Hmd.
  destruct (Z.ltb_spec (totalChunks md) 0) as [|_]; [lia|].
  now rewrite (reassemble_all_present _ _ HN Hall).
Qed.

Lemma handleIncomingData_complete decodeJSON env (payload : Data) (m : Manager) :
  handleIncomingData decodeJSON env (frame fileComplete payload) m
  = handleFileComplete env (frame fileComplete payload) m.
Proof. reflexivity. Qed.

End Checksum.

(** *** Verification on FILE_COMPLETE *)

Section Verification.
Import Transfer Scenario.

(** The implementation against the standard's test vectors. *)
Example sha256hex_empty :
  sha256hex [] = "e3b0c44298fc1c149afbf4c8996fb92427ae41e4649b934ca495991b7852b855".
Proof. vm_compute. reflexivity. Qed.

Example sha256hex_abc :
  sha256hex (list_byte_of_string "abc")
  = "ba7816bf8f01cfea414140de5dae2223b00361a396177a9cb410ff61f20015ad".
Proof. vm_compute. reflexivity. Qed.

Example sha256hex_two_blocks :
  sha256hex (list_byte_of_string
               "abcdbcdecdefdefgefghfghighijhijkijkljklmklmnlmnomnopnopq")
  = "248d6a61d20638b8e5c026930c3e6039a33ce45964ff2167f6ecedd419db06c1".
Proof. vm_compute. reflexivity. Qed.




(** C10 (as stated, refuted): the receiver holds the only chunk, "abc",
    and a bare FILE_COMPLETE byte arrives, but the write of the file
    fails. Every chunk is present and no digest is carried, yet the
    receiver emits TRANSFER_FAILED with the error's description, not
    TRANSFER_SUCCESS, and nothing is persisted. *)
Lemma failed_write_is_not_a_success :
  receivingChunks receiverAbc !! 0 = Some (list_byte_of_string "abc")
  /\ totalChunks metadataAbc = 1
  /\ handleIncomingData noJSON
       {| shouldPauseSending := false;
          writeError := Some "No space left on device";
          now := 0 |}
       (frame fileComplete []) receiverAbc
     = Some (cleanup receiverAbc,
             [WriteFile (appendingPathComponent "/tmp/GraphiteFlux" "f.txt")
                (list_byte_of_string "abc");
              SendData (frame transferFailed (dataOfString "No space left on device")) 0;
              DidFailTransfer "T1" "No space left on device"]).
Proof. repeat split; vm_compute; reflexivity. Qed.

(** C10 (amended): when the FILE_COMPLETE frame carries nothing after the
    type byte (or bytes that are no text), the expected checksum is the
    empty string and no comparison takes place: provided the announced
    chunk count N is not negative and all chunk indices 0 .. N-1 are
    present, the receiver writes the joined chunks, whatever they are;
    the write succeeding, it emits TRANSFER_SUCCESS and reports the
    completed transfer; the write failing, it emits TRANSFER_FAILED with
    the error's description and reports the failure. In both cases the
    transfer state is cleared. *)
Theorem fileComplete_without_digest decodeJSON (env : Env) (m : Manager)
    (md : FileMetadata) (payload : Data) :
  receivingMetadata m = Some md ->
  0 <= totalChunks md ->
  (forall j, 0 <= j < totalChunks md -> is_Some (receivingChunks m !! j)) ->
  payload = [] \/ stringOfData payload = None ->
  let fileData := chunksInOrder (receivingChunks m) (totalChunks md) in
  let fileURL := appendingPathComponent (tempDirectory m) (fileName md) in
  let r := handleIncomingData decodeJSON env (frame fileComplete payload) m in
  (writeError env = None ->
     r = Some (cleanup m,
               [WriteFile fileURL fileData;
                SendData (frame transferSuccess (dataOfString (transferId md))) 0;
                DidCompleteTransfer (transferId md) fileURL]))
  /\ (forall description, writeError env = Some description ->
        r = Some (cleanup m,
                  [WriteFile fileURL fileData;
                   SendData (frame transferFailed (dataOfString description)) 0;
                   DidFailTransfer (transferId md) description])).
Proof.
  intros Hmd HN Hall Hp fileData fileURL r. subst r.
  rewrite handleIncomingData_complete,
    (handleFileComplete_present env _ m md Hmd HN Hall).
  cbv zeta. rewrite (expected_of_frame_empty payload Hp).
  fold fileData. fold fileURL.
  split; [intros Hw | intros description Hw]; rewrite Hw; reflexivity.
Qed.

(** The receiver holds "abc" while its metadata could announce any
    checksum: a bare FILE_COMPLETE byte is answered with success when the
    write succeeds. *)
Lemma fileComplete_without_digest_witness :
  handleIncomingData noJSON calm (frame fileComplete []) receiverAbc
  = Some (cleanup receiverAbc,
          [WriteFile (appendingPathComponent "/tmp/GraphiteFlux" "f.txt")
             (chunksInOrder (receivingChunks receiverAbc) (totalChunks metadataAbc));
           SendData (frame transferSuccess (dataOfString "T1")) 0;
           DidCompleteTransfer "T1" (appendingPathComponent "/tmp/GraphiteFlux" "f.txt")]).
Proof.
  refine (proj1 (fileComplete_without_digest noJSON calm receiverAbc metadataAbc []
                   eq_refl _ _ (or_introl eq_refl)) eq_refl).
  - vm_compute. discriminate.
  - intros j Hj. change (totalChunks metadataAbc) with 1 in Hj.
    assert (j = 0) as -> by lia. eexists. reflexivity.
Defined.

End Verification.

(** *** Chunk frames at the receiver *)

Section Receiving.
Import Transfer Scenario.

(** Chunk frames with a payload never trap and only touch the chunk store
    and the byte counter. *)
Lemma deliver_chunkMessages decodeJSON env (msgs : list (Z * Data)) :
  Forall wellFormed msgs ->
  forall m, exists received es,
    deliver decodeJSON env (chunkMessages msgs) m
    = Some (setReceiving m (stored msgs (receivingChunks m)) received, es).
Proof.
  induction 1 as [|[i d] msgs [Hi Hd] _ IH]; intros m.
  - exists (receivingBytesReceived m), []. now destruct m.
  - cbn [chunkMessages List.map deliver fst snd] in *.
    rewrite handleIncomingData_chunk.
    pose proof (handleFileChunk_stores i d m Hi Hd) as Hs.
    destruct (handleFileChunk (chunkMessage i d) m) as [m1 es1]. cbn [fst] in Hs.
    subst m1.
    destruct (IH (setReceiving m (<[i:=d]> (receivingChunks m))
                    (receivingBytesReceived m + count d))) as (rcv & es & E).
    fold (chunkMessages msgs). rewrite E. exists rcv, (es1 ++ es). reflexivity.
Qed.

Lemma stored_untouched (msgs : list (Z * Data)) (chunks : gmap Z Data) (i : Z) :
  Forall (fun p => fst p <> i) msgs -> stored msgs chunks !! i = chunks !! i.
Proof.
  unfold stored. revert chunks.
  induction msgs as [|[j d] msgs IH]; intros chunks Hne; [reflexivity|].
  apply Forall_cons in Hne as [Hj Hne]. cbn [fold_left fst snd] in *.
  rewrite IH by exact Hne. now apply lookup_insert_ne.
Qed.

(** The last frame that carries an index decides what is stored for it. *)
Lemma stored_last (pre post : list (Z * Data)) (chunks : gmap Z Data) (i : Z) (d : Data) :
  Forall (fun p => fst p <> i) post ->
  stored (pre ++ (i, d) :: post) chunks !! i = Some d.
Proof.
  intros Hpost. unfold stored. rewrite fold_left_app. cbn [fold_left fst snd].
  fold (stored post (<[i:=d]> (fold_left (fun c p => <[fst p:=snd p]> c) pre chunks))).
  rewrite stored_untouched by exact Hpost. apply lookup_insert_eq.
Qed.

(** C4 (as stated, refuted): two FILE_CHUNK frames arrive for index 0,
    first with payload "abc", then with "xyz". The payload stored for
    index 0, and joined at reassembly, is "xyz", the later one. *)
Lemma later_duplicate_replaces_chunk :
  option_map (fun r => receivingChunks (fst r) !! 0)
    (deliver noJSON calm
       [chunkMessage 0 (list_byte_of_string "abc");
        chunkMessage 0 (list_byte_of_string "xyz")] receiverEmpty)
  = Some (Some (list_byte_of_string "xyz"))
  /\ option_map (fun r => chunksInOrder (receivingChunks (fst r)) 1)
       (deliver noJSON calm
          [chunkMessage 0 (list_byte_of_string "abc");
           chunkMessage 0 (list_byte_of_string "xyz")] receiverEmpty)
     = Some (list_byte_of_string "xyz").
Proof. split; vm_compute; reflexivity. Qed.

(** The byte counter after a sequence of chunk frames with a payload: every
    frame adds the size of its payload, whatever its index. *)
Lemma deliver_chunkMessages_count decodeJSON env (msgs : list (Z * Data)) :
  Forall wellFormed msgs ->
  forall m, exists es,
    deliver decodeJSON env (chunkMessages msgs) m
    = Some (setReceiving m (stored msgs (receivingChunks m))
              (receivingBytesReceived m + Trace.payloadBytes msgs), es).
Proof.
  induction 1 as [|[i d] msgs [Hi Hd] _ IH]; intros m.
  - exists []. cbn. rewrite Z.add_0_r. now destruct m.
  - cbn [chunkMessages List.map deliver fst snd] in *.
    rewrite handleIncomingData_chunk.
    pose proof (handleFileChunk_stores i d m Hi Hd) as Hs.
    destruct (handleFileChunk (chunkMessage i d) m) as [m1 es1]. cbn [fst] in Hs.
    subst m1.
    destruct (IH (setReceiving m (<[i:=d]> (receivingChunks m))
                    (receivingBytesReceived m + count d))) as (es & E).
    fold (chunkMessages msgs). rewrite E. exists (es1 ++ es).
    do 2 f_equal. unfold setReceiving, stored, Trace.payloadBytes.
    cbn [sendingTransferId sendingFileData sendingMetadata sendingChunkIndex
         sendingStartTime sendingPaused receivingTransferId receivingMetadata
         receivingChunks receivingBytesReceived receivingStartTime tempDirectory
         fold_left fold_right fst snd].
    f_equal. lia.
Qed.

Lemma payloadBytes_app (a b : list (Z * Data)) :
  Trace.payloadBytes (a ++ b) = Trace.payloadBytes a + Trace.payloadBytes b.
Proof.
  unfold Trace.payloadBytes. induction a as [|p a IH]; cbn [app fold_right]; lia.
Qed.

(** C4 (amended): when the receiver gets two or more FILE_CHUNK frames
    (with a non-empty payload) carrying the same index during one
    transfer, the payload stored for that index, and therefore used at
    reassembly, is the one from the last such frame: every later
    duplicate replaces what was stored. Each frame, a duplicate like any
    other, is counted again in the bytes received: the counter grows by
    the payload sizes of all the frames before, of the last frame for the
    index and of all the frames after. *)
Theorem duplicate_chunk_last_wins decodeJSON (env : Env) (m : Manager)
    (pre post : list (Z * Data)) (i : Z) (d : Data) :
  Forall wellFormed (pre ++ (i, d) :: post) ->
  Forall (fun p => fst p <> i) post ->
  exists m' es,
    deliver decodeJSON env (chunkMessages (pre ++ (i, d) :: post)) m = Some (m', es)
    /\ receivingChunks m' !! i = Some d
    /\ receivingMetadata m' = receivingMetadata m
    /\ receivingBytesReceived m'
       = receivingBytesReceived m
         + Trace.payloadBytes pre + count d + Trace.payloadBytes post
    /\ forall n, i < n ->
         (forall j, 0 <= j < n -> is_Some (receivingChunks m' !! j)) ->
         exists before after,
           chunksInOrder (receivingChunks m') n = before ++ d ++ after.
Proof.
  intros Hwf Hpost.
  destruct (deliver_chunkMessages_count decodeJSON env _ Hwf m) as (es & E).
  eexists _, es. split; [exact E|].
  cbn [receivingChunks receivingMetadata receivingBytesReceived setReceiving].
  pose proof (stored_last pre post (receivingChunks m) i d Hpost) as Hi.
  split; [exact Hi|]. split; [reflexivity|].
  split.
  { rewrite payloadBytes_app. unfold Trace.payloadBytes at 2.
    cbn [fold_right snd]. fold (Trace.payloadBytes post). lia. }
  intros n Hn Hall.
  assert (H0 : 0 <= i).
  { apply Forall_app in Hwf as [_ Hwf]. apply Forall_cons in Hwf as [[[H _] _] _].
    exact H. }
  unfold chunksInOrder.
  replace n with (i + (1 + (n - i - 1))) by lia.
  rewrite (seqZ_app 0 i), (seqZ_app (0 + i) 1) by lia.
  rewrite !List.map_app, !concat_app.
  change (seqZ (0 + i) 1) with [0 + i]. cbn [List.map concat].
  rewrite Z.add_0_l, Hi. cbn [default]. rewrite app_nil_r.
  eexists _, _. reflexivity.
Qed.

Lemma duplicate_chunk_last_wins_witness :
  exists m' es,
    deliver noJSON calm
      (chunkMessages ([(0, list_byte_of_string "abc")]
                      ++ (0, list_byte_of_string "xyz") :: [])) receiverEmpty
    = Some (m', es)
    /\ receivingChunks m' !! 0 = Some (list_byte_of_string "xyz")
    /\ receivingBytesReceived m' = 6.
Proof.
  destruct (duplicate_chunk_last_wins noJSON calm receiverEmpty
              [(0, list_byte_of_string "abc")] [] 0 (list_byte_of_string "xyz"))
    as (m' & es & E & Hl & _ & Hb & _).
  - repeat constructor; cbn; try lia; discriminate.
  - constructor.
  - exists m', es. exact (conj E (conj Hl Hb)).
Defined.

End Receiving.

(** *** The sender's chunks *)

Section Sending.
Import Transfer.

Lemma totalChunksFor_bound (n : Z) :
  0 <= n <= 2 ^ 48 -> totalChunksFor n <= 2 ^ 32.
Proof.
  intros Hn. destruct (Z.le_gt_cases (totalChunksFor n) (2 ^ 32)) as [H|H]; [exact H|].
  apply totalChunksFor_lt in H; [| lia | lia]. unfold chunkSize in H. lia.
Qed.

(** The slice [sendNextChunks] takes for index [i] is within the file. *)
Lemma subdata_chunk (file : Data) (i : Z) :
  0 <= i < totalChunksFor (count file) ->
  subdata file (i * chunkSize) (Z.min (i * chunkSize + chunkSize) (count file))
  = Some (chunkOf file i).
Proof.
  intros [Hi Hlt]. apply totalChunksFor_lt in Hlt; [| apply count_nonneg | exact Hi].
  unfold subdata.
  destruct (Z.leb_spec 0 (i * chunkSize)); [| unfold chunkSize in *; lia].
  destruct (Z.leb_spec (i * chunkSize) (Z.min (i * chunkSize + chunkSize) (count file)));
    [| unfold chunkSize in *; lia].
  destruct (Z.leb_spec (Z.min (i * chunkSize + chunkSize) (count file)) (count file));
    [reflexivity | lia].
Qed.

(** One pass of the loop sends the next [n] chunks in ascending order. *)
Lemma sendLoop_chunks (file : Data) (n : nat) (index : Z) :
  0 <= index ->
  index + Z.of_nat n <= totalChunksFor (count file) ->
  totalChunksFor (count file) <= 2 ^ 32 ->
  sendLoop n file (totalChunksFor (count file)) index
  = Some (index + Z.of_nat n,
          List.map (fun i => SendDataRoundRobin (chunkFrame file i) i)
            (seqZ index (Z.of_nat n))).
Proof.
  revert index. induction n as [|n IH]; intros index H0 Hle Hmax.
  - cbn. now rewrite Z.add_0_r.
  - cbn [sendLoop].
    destruct (Z.ltb_spec index (totalChunksFor (count file))) as [Hlt|]; [|lia].
    rewrite subdata_chunk by lia. unfold sendChunk.
    destruct (Z.leb_spec 0 index); [|lia].
    destruct (Z.ltb_spec index (2 ^ 32)); [|lia]. cbn [andb].
    rewrite IH by lia.
    rewrite Nat2Z.inj_succ, <- Z.add_1_l, (seqZ_cons index) by lia.
    cbn [List.map].
    replace (Z.succ index) with (index + 1) by lia.
    replace (Z.pred (1 + Z.of_nat n)) with (Z.of_nat n) by lia.
    do 2 f_equal. lia.
Qed.

Lemma roundRobinFrames_app (a b : list Effect) :
  roundRobinFrames (a ++ b) = roundRobinFrames a ++ roundRobinFrames b.
Proof. apply flat_map_app. Qed.

Lemma controlFrames_app (a b : list Effect) :
  controlFrames (a ++ b) = controlFrames a ++ controlFrames b.
Proof. apply flat_map_app. Qed.

Lemma chunk_effects (file : Data) (l : list Z) :
  let es := List.map (fun i => SendDataRoundRobin (chunkFrame file i) i) l in
  roundRobinFrames es = List.map (chunkFrame file) l
  /\ controlFrames es = []
  /\ existsb isSchedule es = false.
Proof.
  induction l as [|i l (IH1 & IH2 & IH3)]; [now cbn|].
  cbn [List.map]. repeat split.
  - unfold roundRobinFrames in *. cbn [flat_map app]. now f_equal.
  - exact IH2.
  - exact IH3.
Qed.

Lemma progress_effects (m : Manager) :
  roundRobinFrames (updateSendProgress m) = []
  /\ controlFrames (updateSendProgress m) = []
  /\ existsb isSchedule (updateSendProgress m) = false.
Proof.
  unfold updateSendProgress.
  destruct (sendingMetadata m), (sendingStartTime m); now cbn.
Qed.

(** What one run of [sendNextChunks] does from chunk index [k]. *)
Lemma sendNextChunks_step (env : Env) (s : Manager) (file : Data) (md : FileMetadata) :
  shouldPauseSending env = false ->
  sendingFileData s = Some file ->
  sendingMetadata s = Some md ->
  sendingPaused s = false ->
  totalChunks md = totalChunksFor (count file) ->
  totalChunks md <= 2 ^ 32 ->
  0 <= sendingChunkIndex s <= totalChunks md ->
  let k := sendingChunkIndex s in
  let c := Z.min parallelChannels (totalChunks md - k) in
  let s' := setSending s (k + c) false in
  sendNextChunks env s
  = Some (s',
          List.map (fun i => SendDataRoundRobin (chunkFrame file i) i) (seqZ k c)
          ++ updateSendProgress s'
          ++ (if totalChunks md <=? k + c
              then [SendData (frame fileComplete (dataOfString (checksum md))) 0]
              else [ScheduleSendNextChunks])).
Proof.
  intros Hpause Hfile Hmd Hp HN Hmax Hk k c s'.
  unfold sendNextChunks. rewrite Hfile, Hmd, Hp, Hpause.
  fold k. fold c.
  assert (Hc : 0 <= c) by (subst c; unfold parallelChannels; lia).
  destruct (Z.ltb_spec c 0) as [|_]; [lia|].
  rewrite HN in *.
  rewrite sendLoop_chunks by (subst c; lia).
  rewrite Z2Nat.id by exact Hc. fold s'.
  unfold sendCompleteMessage. cbn [sendingMetadata s' setSending]. rewrite Hmd.
  reflexivity.
Qed.

(** Pumped without a pause, the sender hands every chunk frame to the
    transport, in ascending index order, then FILE_COMPLETE with the
    checksum on channel 0; [fuel] runs are enough as soon as they
    outnumber the chunks left. *)
Lemma pump_sends_all (env : Env) (file : Data) (md : FileMetadata) :
  shouldPauseSending env = false ->
  totalChunks md = totalChunksFor (count file) ->
  totalChunks md <= 2 ^ 32 ->
  forall (fuel : nat) (s : Manager),
    sendingFileData s = Some file ->
    sendingMetadata s = Some md ->
    sendingPaused s = false ->
    0 <= sendingChunkIndex s <= totalChunks md ->
    totalChunks md - sendingChunkIndex s < Z.of_nat fuel ->
    exists s' es,
      pump fuel env s = Some (s', es)
      /\ roundRobinFrames es
         = List.map (chunkFrame file)
             (seqZ (sendingChunkIndex s) (totalChunks md - sendingChunkIndex s))
      /\ controlFrames es = [frame fileComplete (dataOfString (checksum md))]
      /\ sendingChunkIndex s' = totalChunks md.
Proof.
  intros Hpause HN Hmax fuel.
  induction fuel as [|fuel IH]; intros s Hfile Hmd Hp Hk Hfuel; [lia|].
  cbn [pump]. rewrite (sendNextChunks_step env s file md) by assumption.
  cbv zeta.
  set (k := sendingChunkIndex s) in *.
  set (c := Z.min parallelChannels (totalChunks md - k)).
  set (s1 := setSending s (k + c) false).
  destruct (chunk_effects file (seqZ k c)) as (R1 & C1 & S1).
  destruct (progress_effects s1) as (R2 & C2 & S2).
  cbv zeta in R1, C1, S1.
  destruct (Z.leb_spec (totalChunks md) (k + c)) as [Hdone|Hmore].
  - rewrite !existsb_app, S1, S2. cbn [existsb isSchedule orb].
    eexists _, _. split; [reflexivity|].
    rewrite !roundRobinFrames_app, !controlFrames_app, R1, R2, C1, C2.
    cbn. rewrite app_nil_r.
    assert (c = totalChunks md - k) as -> by (subst c; unfold parallelChannels in *; lia).
    repeat split. lia.
  - rewrite !existsb_app, S1, S2. cbn [existsb isSchedule orb].
    assert (Hc : c = 4) by (subst c; unfold parallelChannels in *; lia).
    assert (H1 : 0 <= sendingChunkIndex s1 <= totalChunks md)
      by (change (sendingChunkIndex s1) with (k + c); lia).
    assert (H2 : totalChunks md - sendingChunkIndex s1 < Z.of_nat fuel)
      by (change (sendingChunkIndex s1) with (k + c); lia).
    destruct (IH s1 Hfile Hmd eq_refl H1 H2) as (s' & es & E & R & C & I).
    rewrite E. eexists _, _. split; [reflexivity|].
    rewrite !roundRobinFrames_app, !controlFrames_app, R1, R2, C1, C2, R, C.
    change (roundRobinFrames [ScheduleSendNextChunks]) with (@nil Data).
    change (controlFrames [ScheduleSendNextChunks]) with (@nil Data).
    rewrite !app_nil_r. cbn [app]. repeat split; [| exact I].
    change (sendingChunkIndex s1) with (k + c).
    rewrite <- List.map_app. f_equal.
    replace (totalChunks md - k) with (c + (totalChunks md - (k + c))) by lia.
    rewrite seqZ_app by lia. reflexivity.
Qed.

End Sending.

(** *** A whole transfer *)

Section RoundTrip.
Import Transfer Scenario.

(** After frames for the indices [idxs], each carrying the chunk the
    sender cut for it, the store holds that chunk for each of them. *)
Lemma stored_chunks (file : Data) (idxs : list Z) (chunks : gmap Z Data) (j : Z) :
  In j idxs ->
  stored (List.map (fun i => (i, chunkOf file i)) idxs) chunks !! j
  = Some (chunkOf file j).
Proof.
  induction idxs as [|i idxs IH] using rev_ind; intros Hin; [destruct Hin|].
  rewrite List.map_app. unfold stored. rewrite fold_left_app. cbn [List.map fold_left fst snd].
  destruct (Z.eq_dec i j) as [->|Hne]; [apply lookup_insert_eq|].
  rewrite lookup_insert_ne by exact Hne. apply IH.
  apply in_app_or in Hin as [H|[H|[]]]; [exact H | contradiction].
Qed.

(** C2: cutting a byte sequence into ceil(size / chunkSize) chunks of at
    most chunkSize bytes, as [sendNextChunks] does, and joining the chunks
    in ascending index order, as [handleFileComplete] does, gives the
    byte sequence back. Consequently, for a file of at most 2^48 bytes
    (so that every index fits the frame's 32 bits): the sender, pumped
    without a pause, hands the transport exactly the chunk frames
    0 .. N-1 and then FILE_COMPLETE with its checksum; and a receiver that
    holds the sender's metadata and is delivered those chunk frames, in
    any order and each at least once, reassembles the sender's bytes, so
    that their SHA-256 is the declared checksum and their length the
    declared size, and answers FILE_COMPLETE with TRANSFER_SUCCESS once
    the file is written. *)
Theorem transfer_roundtrip encodeJSON decodeJSON (env : Env) (tid name type : string)
    (file : Data) (sender0 receiver : Manager) :
  let md := metadataFor tid name type file in
  let N := totalChunksFor (count file) in
  let fileURL := appendingPathComponent (tempDirectory receiver) name in
  (concat (List.map (chunkOf file) (seqZ 0 N)) = file
   /\ (forall i, 0 <= i < N -> 1 <= count (chunkOf file i) <= chunkSize)
   /\ (forall chunks : gmap Z Data,
         (forall i, 0 <= i < N -> chunks !! i = Some (chunkOf file i)) ->
         reassemble (Z.to_nat N) 0 chunks [] = inl file))
  /\ (count file <= 2 ^ 48 ->
      shouldPauseSending env = false ->
      writeError env = None ->
      receivingMetadata receiver = Some md ->
      exists sender effects0 sender' effects,
        sendFile encodeJSON env tid name type (Some file) sender0 = Some (sender, effects0)
        /\ pump (S (Z.to_nat N)) env sender = Some (sender', effects)
        /\ roundRobinFrames effects = List.map (chunkFrame file) (seqZ 0 N)
        /\ controlFrames effects = [frame fileComplete (dataOfString (checksum md))]
        /\ forall idxs : list Z,
             (forall i, In i idxs -> 0 <= i < N) ->
             (forall i, 0 <= i < N -> In i idxs) ->
             exists receiver' progress reassembled,
               deliver decodeJSON env (List.map (chunkFrame file) idxs) receiver
               = Some (receiver', progress)
               /\ reassemble (Z.to_nat N) 0 (receivingChunks receiver') []
                  = inl reassembled
               /\ reassembled = file
               /\ sha256hex reassembled = checksum md
               /\ count reassembled = fileSize md
               /\ handleIncomingData decodeJSON env
                    (frame fileComplete (dataOfString (checksum md))) receiver'
                  = Some (cleanup receiver',
                          [WriteFile fileURL reassembled;
                           SendData (frame transferSuccess (dataOfString tid)) 0;
                           DidCompleteTransfer tid fileURL])).
Proof.
  intros md N fileURL.
  pose proof (count_nonneg file) as Hc0.
  assert (HN0 : 0 <= N) by exact (totalChunksFor_nonneg _ Hc0).
  assert (Hjoin : forall chunks : gmap Z Data,
             (forall i, 0 <= i < N -> chunks !! i = Some (chunkOf file i)) ->
             reassemble (Z.to_nat N) 0 chunks [] = inl file).
  { intros chunks Hall.
    rewrite reassemble_all_present by (try exact HN0; intros j Hj; rewrite Hall by exact Hj; eauto).
    f_equal. now apply chunksInOrder_file. }
  split.
  { split; [apply chunks_concat|].
    split; [intros i Hi; apply (chunkOf_count file i Hi) | exact Hjoin]. }
  intros Hsize Hpause Hwrite Hmd.
  assert (HNmax : N <= 2 ^ 32) by exact (totalChunksFor_bound _ (conj Hc0 Hsize)).
  (* the sender *)
  set (sender := {| sendingTransferId := Some tid; sendingFileData := Some file;
                    sendingMetadata := Some md; sendingChunkIndex := 0;
                    sendingStartTime := Some (now env); sendingPaused := false;
                    receivingTransferId := receivingTransferId sender0;
                    receivingMetadata := receivingMetadata sender0;
                    receivingChunks := receivingChunks sender0;
                    receivingBytesReceived := receivingBytesReceived sender0;
                    receivingStartTime := receivingStartTime sender0;
                    tempDirectory := tempDirectory sender0 |}).
  destruct (pump_sends_all env file md Hpause eq_refl HNmax (S (Z.to_nat N)) sender
              eq_refl eq_refl eq_refl)
    as (sender' & effects & Hpump & Hrr & Hctl & _).
  { change (sendingChunkIndex sender) with 0. change (totalChunks md) with N. lia. }
  { change (sendingChunkIndex sender) with 0. change (totalChunks md) with N. lia. }
  change (sendingChunkIndex sender) with 0 in Hrr.
  change (totalChunks md) with N in Hrr. rewrite Z.sub_0_r in Hrr.
  exists sender, (sendMetadata encodeJSON md sender), sender', effects.
  split; [reflexivity|]. split; [exact Hpump|]. split; [exact Hrr|]. split; [exact Hctl|].
  (* the receiver *)
  intros idxs Hrange Hcover.
  assert (Hwf : Forall wellFormed (List.map (fun i => (i, chunkOf file i)) idxs)).
  { apply Forall_forall. intros p Hp. apply list_elem_of_In, in_map_iff in Hp.
    destruct Hp as (i & <- & Hi). apply Hrange in Hi.
    split; cbn [fst snd]; [lia|].
    destruct (chunkOf_count file i Hi) as [_ Hlen].
    intros E. rewrite E in Hlen. unfold count in Hlen. cbn [length] in Hlen. lia. }
  destruct (deliver_chunkMessages decodeJSON env _ Hwf receiver) as (rcv & es & Hdel).
  unfold chunkMessages in Hdel. rewrite List.map_map in Hdel. cbn [fst snd] in Hdel.
  set (receiver' := setReceiving receiver
                      (stored (List.map (fun i => (i, chunkOf file i)) idxs)
                         (receivingChunks receiver)) rcv) in *.
  assert (Hchunks : forall i, 0 <= i < N ->
             receivingChunks receiver' !! i = Some (chunkOf file i)).
  { intros i Hi. apply stored_chunks, Hcover, Hi. }
  exists receiver', es, file.
  split; [exact Hdel|]. split; [exact (Hjoin _ Hchunks)|].
  split; [reflexivity|]. split; [reflexivity|]. split; [reflexivity|].
  rewrite handleIncomingData_complete.
  rewrite (handleFileComplete_present env _ receiver' md Hmd HN0)
    by (intros j Hj; rewrite Hchunks by exact Hj; eauto).
  cbv zeta. change (checksum md) with (sha256hex file).
  rewrite (expected_of_frame _ _ (stringOfData_sha256hex file)).
  change (totalChunks md) with (totalChunksFor (count file)).
  rewrite (chunksInOrder_file _ file Hchunks).
  rewrite String.eqb_refl, andb_false_r, Hwrite. reflexivity.
Qed.

(** The three bytes "abc": one chunk, delivered once. *)
Lemma transfer_roundtrip_witness :
  count (list_byte_of_string "abc") <= 2 ^ 48
  /\ receivingMetadata receiverEmpty = Some metadataAbc
  /\ exists receiver' progress,
       deliver noJSON calm [chunkFrame (list_byte_of_string "abc") 0] receiverEmpty
       = Some (receiver', progress)
       /\ handleIncomingData noJSON calm
            (frame fileComplete (dataOfString (checksum metadataAbc))) receiver'
          = Some (cleanup receiver',
                  [WriteFile (appendingPathComponent "/tmp/GraphiteFlux" "f.txt")
                     (list_byte_of_string "abc");
                   SendData (frame transferSuccess (dataOfString "T1")) 0;
                   DidCompleteTransfer "T1"
                     (appendingPathComponent "/tmp/GraphiteFlux" "f.txt")]).
Proof.
  assert (Hsize : count (list_byte_of_string "abc") <= 2 ^ 48)
    by (vm_compute; discriminate).
  split; [exact Hsize|]. split; [reflexivity|].
  destruct (proj2 (transfer_roundtrip (fun _ => None) noJSON calm "T1" "f.txt" "txt"
                     (list_byte_of_string "abc") receiverEmpty receiverEmpty)
              Hsize eq_refl eq_refl eq_refl)
    as (_ & _ & _ & _ & _ & _ & _ & _ & Hreceive).
  destruct (Hreceive [0]) as (receiver' & progress & reassembled & Hd & _ & E & _ & _ & Hc).
  - intros i [<-|[]].
    change (totalChunksFor (count (list_byte_of_string "abc"))) with 1. lia.
  - intros i Hi. change (totalChunksFor (count (list_byte_of_string "abc"))) with 1 in Hi.
    left. lia.
  - subst reassembled. exists receiver', progress. exact (conj Hd Hc).
Defined.

End RoundTrip.

(* ===================================================================== *)
(** * Part III. Further properties of the code                            *)
(* ===================================================================== *)

(** ** The hub's handlers *)

Section HubHandlers.
Import Hub Friends Scenario.

Lemma onlyToOpen_send isOpen w msg : onlyToOpen isOpen (send isOpen w msg).
Proof.
  unfold onlyToOpen, send. destruct (isOpen w) eqn:E; repeat constructor. exact E.
Qed.

Lemma onlyToOpen_app isOpen (a b : list Effect) :
  onlyToOpen isOpen a -> onlyToOpen isOpen b -> onlyToOpen isOpen (a ++ b).
Proof. unfold onlyToOpen. intros. apply Forall_app. now split. Qed.

Lemma onlyToOpen_notify isOpen clients userId isOnline :
  onlyToOpen isOpen (notifyFriendsOfStatus isOpen clients userId isOnline).
Proof.
  unfold notifyFriendsOfStatus.
  induction clients as [|e cs IH]; cbn [flat_map]; [constructor|].
  apply onlyToOpen_app; [apply onlyToOpen_send | exact IH].
Qed.

Lemma send_length isOpen w msg : (length (send isOpen w msg) <= 1)%nat.
Proof. unfold send. destruct (isOpen w); cbn; lia. Qed.

(** X1: a message handled by [handleFluxMessage] never changes the
    connection registry, never closes a socket, and produces at most one
    outgoing message, written only if the socket it is for is open. *)
Theorem handleFluxMessage_frame (isOpen : WsId -> bool) (now : Z) (w : WsId)
    (client : Client) (data : FluxMessage) (h : Hub) :
  let r := handleFluxMessage isOpen now w client data h in
  fluxClients (fst r) = fluxClients h
  /\ existsb isClosed (snd r) = false
  /\ (length (snd r) <= 1)%nat
  /\ onlyToOpen isOpen (snd r).
Proof.
  cbv zeta. destruct data; cbn [handleFluxMessage];
    repeat match goal with
           | |- context [match JsMap.get ?k ?m with _ => _ end] =>
               destruct (JsMap.get k m)
           end;
    cbn [fst snd fluxClients setSessions];
    repeat split;
    first [ apply (send_no_close isOpen) | apply send_length | apply onlyToOpen_send
          | (cbn; lia) | constructor ].
Qed.

(** X2: the relay of [rtc_offer], [rtc_answer] and [rtc_ice_candidate]
    leaves the hub as it is. When the named peer is not registered the
    message is dropped and the sender is told nothing; otherwise one
    message goes to the peer's socket, carrying the sender's authenticated
    id and the SDP or candidate text unchanged. *)
Theorem relay_is_verbatim (isOpen : WsId -> bool) (now : Z) (w : WsId)
    (client : Client) (h : Hub) (peerId sid text : string)
    (mid : option string) (idx : option Z) :
  let offer := handleFluxMessage isOpen now w client (RtcOffer peerId sid text) h in
  let answer := handleFluxMessage isOpen now w client (RtcAnswer peerId sid text) h in
  let ice := handleFluxMessage isOpen now w client
               (RtcIceCandidate peerId sid text mid idx) h in
  (fst offer = h /\ fst answer = h /\ fst ice = h)
  /\ (JsMap.get peerId (fluxClients h) = None ->
      snd offer = [] /\ snd answer = [] /\ snd ice = [])
  /\ (forall peer, JsMap.get peerId (fluxClients h) = Some peer ->
      snd offer
      = send isOpen (ws peer)
          [("type", JStr "rtc_offer"); ("senderId", JStr (id (user client)));
           ("senderName", JStr (displayName (user client)));
           ("sessionId", JStr sid); ("sdp", JStr text)]
      /\ snd answer
         = send isOpen (ws peer)
             [("type", JStr "rtc_answer"); ("senderId", JStr (id (user client)));
              ("sessionId", JStr sid); ("sdp", JStr text)]
      /\ snd ice
         = send isOpen (ws peer)
             (obj [("type", Some (JStr "rtc_ice_candidate"));
                   ("senderId", Some (JStr (id (user client))));
                   ("sessionId", Some (JStr sid));
                   ("candidate", Some (JStr text));
                   ("sdpMid", option_map JStr mid);
                   ("sdpMLineIndex", option_map JNum idx)])).
Proof.
  cbv zeta. cbn [handleFluxMessage fst snd]. split; [repeat split|]. split.
  - intros ->. repeat split.
  - intros peer ->. repeat split.
Qed.

Lemma relay_is_verbatim_witness :
  JsMap.get "B" (fluxClients hubAB) = Some clientB
  /\ snd (handleFluxMessage allOpen 0 1%nat clientA (RtcOffer "B" "S1" "v=0") hubAB)
     = send allOpen (ws clientB)
         [("type", JStr "rtc_offer"); ("senderId", JStr (id (user clientA)));
          ("senderName", JStr (displayName (user clientA)));
          ("sessionId", JStr "S1"); ("sdp", JStr "v=0")].
Proof.
  split; [reflexivity|].
  exact (proj1 (proj2 (proj2 (relay_is_verbatim allOpen 0 1%nat clientA hubAB "B" "S1"
                                "v=0" None None)) clientB eq_refl)).
Defined.

End HubHandlers.

(** ** Sessions and presence *)

Section HubSessions.
Import Hub Friends Scenario.

(** X3: the life of a session. Once the responder is registered, a
    request by the initiator, an accept and a ready leave the session
    named by the request connected, with the parties and the creation
    time of the request; the registry and every other session are as
    before. The accept goes to the initiator and the ready to the
    responder, when they are registered. *)
Theorem session_lifecycle (isOpen : WsId -> bool) (t1 t2 t3 : Z) (wA wB : WsId)
    (cA cB target : Client) (h : Hub) (peerId sid anyPeer : string)
    (fileName : option string) (fileSize : option Z) (fileType : option string) :
  JsMap.get peerId (fluxClients h) = Some target ->
  let s1 := handleFluxMessage isOpen t1 wA cA
              (RtcSessionRequest peerId sid fileName fileSize fileType) h in
  let s2 := handleFluxMessage isOpen t2 wB cB (RtcSessionAccept anyPeer sid) (fst s1) in
  let s3 := handleFluxMessage isOpen t3 wA cA (RtcSessionReady sid) (fst s2) in
  let session st := {| initiatorId := id (user cA); responderId := peerId;
                       state := st; createdAt := t1 |} in
  JsMap.get sid (rtcSessions (fst s1)) = Some (session pending)
  /\ JsMap.get sid (rtcSessions (fst s2)) = Some (session accepted)
  /\ JsMap.get sid (rtcSessions (fst s3)) = Some (session connected)
  /\ fluxClients (fst s3) = fluxClients h
  /\ (forall other, other <> sid ->
        JsMap.get other (rtcSessions (fst s3)) = JsMap.get other (rtcSessions h))
  /\ snd s2
     = match JsMap.get (id (user cA)) (fluxClients h) with
       | Some initiator =>
           send isOpen (ws initiator)
             [("type", JStr "rtc_session_accept"); ("sessionId", JStr sid);
              ("senderId", JStr (id (user cB)))]
       | None => []
       end
  /\ snd s3
     = send isOpen (ws target)
         [("type", JStr "rtc_session_ready"); ("sessionId", JStr sid);
          ("senderId", JStr (id (user cA)))].
Proof.
  intros Ht. cbv zeta. cbn [handleFluxMessage]. rewrite Ht.
  cbn [fst snd setSessions rtcSessions fluxClients].
  rewrite jsmap_get_set_eq. cbn [fst snd setSessions rtcSessions fluxClients].
  rewrite jsmap_get_set_eq. cbn [fst snd setSessions rtcSessions fluxClients setState
                                 initiatorId responderId state createdAt].
  rewrite !jsmap_get_set_eq.
  unfold otherPeer.
  cbn [fst snd setSessions rtcSessions fluxClients initiatorId responderId].
  rewrite String.eqb_refl. cbn [setState responderId]. rewrite Ht.
  repeat split.
  intros other Hne. now rewrite !jsmap_get_set_ne by congruence.
Qed.

Lemma session_lifecycle_witness :
  JsMap.get "B" (fluxClients hubAB) = Some clientB
  /\ JsMap.get "S1"
       (rtcSessions
          (fst (handleFluxMessage allOpen 3 1%nat clientA (RtcSessionReady "S1")
             (fst (handleFluxMessage allOpen 2 2%nat clientB (RtcSessionAccept "A" "S1")
                (fst (handleFluxMessage allOpen 1 1%nat clientA
                        (RtcSessionRequest "B" "S1" None None None) hubAB)))))))
     = Some {| initiatorId := "A"; responderId := "B"; state := connected;
               createdAt := 1 |}.
Proof.
  split; [reflexivity|].
  exact (proj1 (proj2 (proj2 (session_lifecycle allOpen 1 2 3 1%nat 2%nat clientA clientB
                                clientB hubAB "B" "S1" "A" None None None eq_refl)))).
Defined.

(** X4: [rtc_session_close] and [rtc_session_reject] for a session in the
    table delete it, whoever sends them, and leave the registry and all
    other sessions as they are. The close is told to the party that is
    not the sender (the initiator when the sender is neither party), the
    reject to the initiator with the reason given, "Rejected by peer"
    when it is absent or empty. *)
Theorem session_end_deletes (isOpen : WsId -> bool) (now : Z) (w : WsId)
    (client : Client) (h : Hub) (sid peerId : string) (reason : option string)
    (s : Session) :
  JsMap.get sid (rtcSessions h) = Some s ->
  let c := handleFluxMessage isOpen now w client (RtcSessionClose sid) h in
  let r := handleFluxMessage isOpen now w client (RtcSessionReject peerId sid reason) h in
  JsMap.get sid (rtcSessions (fst c)) = None
  /\ JsMap.get sid (rtcSessions (fst r)) = None
  /\ (forall other, other <> sid ->
        JsMap.get other (rtcSessions (fst c)) = JsMap.get other (rtcSessions h)
        /\ JsMap.get other (rtcSessions (fst r)) = JsMap.get other (rtcSessions h))
  /\ fluxClients (fst c) = fluxClients h
  /\ fluxClients (fst r) = fluxClients h
  /\ snd c
     = match JsMap.get (if String.eqb (initiatorId s) (id (user client))
                        then responderId s else initiatorId s) (fluxClients h) with
       | Some peer =>
           send isOpen (ws peer)
             [("type", JStr "rtc_session_close"); ("sessionId", JStr sid)]
       | None => []
       end
  /\ snd r
     = match JsMap.get (initiatorId s) (fluxClients h) with
       | Some initiator =>
           send isOpen (ws initiator)
             [("type", JStr "rtc_session_reject"); ("sessionId", JStr sid);
              ("reason", JStr match reason with
                              | Some "" | None => "Rejected by peer"
                              | Some text => text
                              end)]
       | None => []
       end.
Proof.
  intros Hs. cbv zeta. cbn [handleFluxMessage]. rewrite Hs.
  cbn [fst snd setSessions rtcSessions fluxClients].
  rewrite !jsmap_get_delete_eq.
  split; [reflexivity|]. split; [reflexivity|].
  split; [intros other Hne; now rewrite !jsmap_get_delete_ne by congruence|].
  split; [reflexivity|]. split; [reflexivity|]. split; [reflexivity|].
  destruct (JsMap.get (initiatorId s) (fluxClients h)); [|reflexivity].
  destruct reason as [[|a text]|]; reflexivity.
Qed.

Lemma session_end_deletes_witness :
  JsMap.get "S1" (rtcSessions hubS1)
  = Some {| initiatorId := "A"; responderId := "B"; state := pending; createdAt := 0 |}
  /\ JsMap.get "S1"
       (rtcSessions (fst (handleFluxMessage allOpen 5 2%nat clientB
                            (RtcSessionClose "S1") hubS1))) = None.
Proof.
  split; [reflexivity|].
  exact (proj1 (session_end_deletes allOpen 5 2%nat clientB hubS1 "S1" "A" None _ eq_refl)).
Defined.

(** X5: session ids are not checked for freshness. A request that names
    an id already in the table replaces that session by a pending one of
    the requester, in place; the table keeps its ids and its other
    sessions, and nothing is written to the parties of the session that
    was replaced unless the target is one of them. *)
Theorem session_request_reuses_id (isOpen : WsId -> bool) (now : Z) (w : WsId)
    (client target : Client) (h : Hub) (peerId sid : string) (old : Session)
    (fileName : option string) (fileSize : option Z) (fileType : option string) :
  JsMap.get sid (rtcSessions h) = Some old ->
  JsMap.get peerId (fluxClients h) = Some target ->
  let r := handleFluxMessage isOpen now w client
             (RtcSessionRequest peerId sid fileName fileSize fileType) h in
  JsMap.get sid (rtcSessions (fst r))
  = Some {| initiatorId := id (user client); responderId := peerId;
            state := pending; createdAt := now |}
  /\ JsMap.keys (rtcSessions (fst r)) = JsMap.keys (rtcSessions h)
  /\ (forall other, other <> sid ->
        JsMap.get other (rtcSessions (fst r)) = JsMap.get other (rtcSessions h))
  /\ incl (recipients (snd r)) [ws target].
Proof.
  intros Hold Ht. cbv zeta. cbn [handleFluxMessage]. rewrite Ht.
  cbn [fst snd setSessions rtcSessions].
  split; [apply jsmap_get_set_eq|].
  split; [exact (jsmap_keys_set_present _ _ _ _ Hold)|].
  split; [intros other Hne; apply jsmap_get_set_ne; congruence|].
  unfold send. destruct (isOpen (ws target)); cbn; [apply incl_refl | apply incl_nil_l].
Qed.

Lemma session_request_reuses_id_witness :
  JsMap.get "S1" (rtcSessions hubS1)
  = Some {| initiatorId := "A"; responderId := "B"; state := pending; createdAt := 0 |}
  /\ JsMap.get "A" (fluxClients hubS1) = Some clientA
  /\ JsMap.get "S1"
       (rtcSessions (fst (handleFluxMessage allOpen 9 2%nat clientB
                            (RtcSessionRequest "A" "S1" None None None) hubS1)))
     = Some {| initiatorId := "B"; responderId := "A"; state := pending; createdAt := 9 |}.
Proof.
  split; [reflexivity|]. split; [reflexivity|].
  exact (proj1 (session_request_reuses_id allOpen 9 2%nat clientB clientA hubS1 "A" "S1"
                  _ None None None eq_refl eq_refl)).
Defined.

(** X6: the close handler removes the registry entry by user id, whatever
    socket closed. When a user has connected twice and the first socket
    then closes, the user is no longer registered although the second
    socket is the one in the registry just before; from then on a session
    request for that user is answered "Peer not connected". *)
Theorem superseded_close_unregisters (isOpen : WsId -> bool) (t1 t2 : Z)
    (w1 w2 : WsId) (tok : string) (u : User) (h : Hub) :
  tok <> "" ->
  let h1 := fst (onConnection isOpen t1 w1 (Some tok) (VUser u) h) in
  let h2 := fst (onConnection isOpen t2 w2 (Some tok) (VUser u) h1) in
  let h3 := fst (onClose isOpen u h2) in
  JsMap.get (id u) (fluxClients h2) = Some {| ws := w2; user := u; connectedAt := t2 |}
  /\ JsMap.get (id u) (fluxClients h3) = None
  /\ forall now w client sid fileName fileSize fileType,
       handleFluxMessage isOpen now w client
         (RtcSessionRequest (id u) sid fileName fileSize fileType) h3
       = (h3, send isOpen w [("type", JStr "error");
                             ("message", JStr "Peer not connected")]).
Proof.
  intros Htok. cbv zeta. unfold onConnection.
  destruct (String.eqb_spec tok "") as [|_]; [contradiction|].
  cbn [fst fluxClients rtcSessions onClose].
  split; [apply jsmap_get_set_eq|].
  split; [apply jsmap_get_delete_eq|].
  intros. cbn [handleFluxMessage fluxClients]. now rewrite jsmap_get_delete_eq.
Qed.

Lemma superseded_close_unregisters_witness :
  "token" <> ""
  /\ JsMap.get "A"
       (fluxClients
          (fst (onClose allOpen userA
             (fst (onConnection allOpen 2 3%nat (Some "token") (VUser userA)
                (fst (onConnection allOpen 1 1%nat (Some "token") (VUser userA)
                        hubAB))))))) = None.
Proof.
  assert (Htok : "token" <> "") by discriminate.
  split; [exact Htok|].
  exact (proj1 (proj2 (superseded_close_unregisters allOpen 1 2 1%nat 3%nat "token" userA
                         hubAB Htok))).
Defined.

(** X7: the presence broadcast reaches every registered client whose
    socket is open, once each and in the registry's order, friend or not;
    on a connection the newcomer is among them, so it receives
    [friend_online] about itself. *)
Theorem presence_goes_to_everyone (isOpen : WsId -> bool) (clients : JsMap.t Client)
    (userId : string) (isOnline : bool) (now : Z) (w : WsId) (tok : string)
    (u : User) (h : Hub) :
  recipients (notifyFriendsOfStatus isOpen clients userId isOnline)
  = List.filter isOpen (List.map (fun e => ws (snd e)) clients)
  /\ Forall (fun e => exists to, e = Sent to
                        [("type", JStr (if isOnline then "friend_online"
                                        else "friend_offline"));
                         ("friendId", JStr userId)])
            (notifyFriendsOfStatus isOpen clients userId isOnline)
  /\ (tok <> "" -> isOpen w = true ->
      In (Sent w [("type", JStr "friend_online"); ("friendId", JStr (id u))])
         (snd (onConnection isOpen now w (Some tok) (VUser u) h))).
Proof.
  split; [|split].
  - unfold notifyFriendsOfStatus, recipients.
    induction clients as [|[k c] cs IH]; cbn [flat_map List.map List.filter snd];
      [reflexivity|].
    rewrite flat_map_app. fold (recipients (flat_map
      (fun e : string * Client =>
         send isOpen (ws (snd e))
           (obj [("type", Some (JStr (if isOnline then "friend_online"
                                      else "friend_offline")));
                 ("friendId", Some (JStr userId))])) cs)) in *.
    unfold recipients at 1. unfold send at 1.
    destruct (isOpen (ws c)); cbn [flat_map app]; [f_equal|]; exact IH.
  - unfold notifyFriendsOfStatus.
    induction clients as [|[k c] cs IH]; cbn [flat_map]; [constructor|].
    apply Forall_app. split; [|exact IH].
    unfold send. destruct (isOpen (ws (snd (k, c)))); repeat constructor. eauto.
  - intros Htok Hopen. unfold onConnection.
    destruct (String.eqb_spec tok "") as [|_]; [contradiction|].
    cbn [snd]. apply in_or_app. right.
    unfold notifyFriendsOfStatus. apply in_flat_map.
    exists (id u, {| ws := w; user := u; connectedAt := now |}).
    split.
    + apply jsmap_get_In, jsmap_get_set_eq.
    + cbn [snd ws]. unfold send. rewrite Hopen. now left.
Qed.

Lemma presence_goes_to_everyone_witness :
  "token" <> "" /\ allOpen 3%nat = true
  /\ In (Sent 3%nat [("type", JStr "friend_online"); ("friendId", JStr "A")])
        (snd (onConnection allOpen 9 3%nat (Some "token") (VUser userA) hubAB)).
Proof.
  assert (Htok : "token" <> "") by discriminate.
  split; [exact Htok|]. split; [reflexivity|].
  exact (proj2 (proj2 (presence_goes_to_everyone allOpen [] "" true 9 3%nat "token"
                         userA hubAB)) Htok eq_refl).
Defined.

(** X8: a connection without a token, with an empty token, with a token
    that does not verify, or whose verification throws, is closed and
    changes nothing: the hub is as before, nothing is sent and no
    presence is broadcast. The close carries code 4001 and the reason
    "Missing token" when the token is absent or empty, code 4001 and
    "Invalid token" when a token is given and does not verify, and code
    4000 and "Connection failed" when a token is given and the
    verification throws. *)
Theorem rejected_connection_changes_nothing (isOpen : WsId -> bool) (now : Z)
    (w : WsId) (token : option string) (verified : Verified) (h : Hub) :
  token = None \/ token = Some "" \/ verified = VNone \/ verified = VThrow ->
  let r := onConnection isOpen now w token verified h in
  fst r = h
  /\ (token = None \/ token = Some "" -> snd r = [Closed w 4001 "Missing token"])
  /\ (forall tok, token = Some tok -> tok <> "" -> verified = VNone ->
        snd r = [Closed w 4001 "Invalid token"])
  /\ (forall tok, token = Some tok -> tok <> "" -> verified = VThrow ->
        snd r = [Closed w 4000 "Connection failed"]).
Proof.
  intros Hcase. cbv zeta. unfold onConnection. split; [|split; [|split]].
  - destruct token as [tok|]; [|reflexivity].
    destruct (String.eqb_spec tok "") as [->|Hne]; [reflexivity|].
    destruct Hcase as [H|[H|[->| ->]]]; [discriminate | congruence | |]; reflexivity.
  - intros [-> | ->]; reflexivity.
  - intros tok -> Hne ->.
    destruct (String.eqb_spec tok "") as [|_]; [contradiction | reflexivity].
  - intros tok -> Hne ->.
    destruct (String.eqb_spec tok "") as [|_]; [contradiction | reflexivity].
Qed.

Lemma rejected_connection_changes_nothing_witness :
  (Some "token" = None \/ Some "token" = Some "" \/ VThrow = VNone \/ VThrow = VThrow)
  /\ "token" <> ""
  /\ fst (onConnection allOpen 0 3%nat (Some "token") VThrow hubAB) = hubAB
  /\ snd (onConnection allOpen 0 3%nat (Some "token") VThrow hubAB)
     = [Closed 3%nat 4000 "Connection failed"].
Proof.
  assert (Hcase : Some "token" = None \/ Some "token" = Some ""
                  \/ VThrow = VNone \/ VThrow = VThrow)
    by (right; right; right; reflexivity).
  assert (Htok : "token" <> "") by discriminate.
  split; [exact Hcase|]. split; [exact Htok|].
  pose proof (rejected_connection_changes_nothing allOpen 0 3%nat (Some "token") VThrow
                hubAB Hcase) as H.
  cbv zeta in H.
  exact (conj (proj1 H) (proj2 (proj2 (proj2 H)) "token" eq_refl Htok eq_refl)).
Defined.

End HubSessions.

(** ** Connect codes and friendships *)

Section ConnectCodeStore.
Import ConnectCode.

(** The loop stops at the first candidate the table accepts. *)
Lemma insertLoop_first_fit (userId : string) (tbl tbl' : CodeTable) (rnd : Rng) :
  forall (k n pos : nat) (code : option string),
    (k < n)%nat ->
    (forall j, (j < k)%nat ->
       insertCode tbl userId (fst (generateConnectCode rnd (pos + 6 * j))) = None) ->
    insertCode tbl userId (fst (generateConnectCode rnd (pos + 6 * k))) = Some tbl' ->
    insertLoop n userId tbl rnd pos code
    = (Some (fst (generateConnectCode rnd (pos + 6 * k))), tbl', (pos + 6 * (k + 1))%nat).
Proof.
  induction k as [|k IH]; intros n pos code Hn Hall Hk;
    (destruct n as [|n]; [lia|]); cbn [insertLoop];
    destruct (generateConnectCode rnd pos) as [c pos'] eqn:Hg;
    assert (Hp : pos' = (pos + 6)%nat)
      by (rewrite <- (generateConnectCode_pos rnd pos), Hg; reflexivity); subst pos'.
  - replace (pos + 6 * 0)%nat with pos in * by lia.
    rewrite Hg in *. cbn [fst] in *. rewrite Hk. f_equal; lia.
  - pose proof (Hall 0%nat ltac:(lia)) as H0.
    replace (pos + 6 * 0)%nat with pos in H0 by lia.
    rewrite Hg in H0. cbn [fst] in H0. rewrite H0.
    replace (pos + 6 * S k)%nat with (pos + 6 + 6 * k)%nat in * by lia.
    rewrite (IH n (pos + 6)%nat (Some c)); [f_equal; lia | lia | | exact Hk].
    intros j Hj. replace (pos + 6 + 6 * j)%nat with (pos + 6 * S j)%nat by lia.
    apply Hall. lia.
Qed.

Lemma insertCode_Some (tbl tbl' : CodeTable) (userId c : string) :
  insertCode tbl userId c = Some tbl' ->
  tbl' = tbl ++ [{| user_id := userId; code := c |}]
  /\ List.filter (fun r => String.eqb (user_id r) userId) tbl = [].
Proof.
  unfold insertCode.
  destruct (existsb _ tbl) eqn:E; [discriminate|].
  intros [= <-]. split; [reflexivity|].
  induction tbl as [|r tbl IH]; [reflexivity|].
  cbn [existsb List.filter] in *.
  apply orb_false_iff in E as [E1 E2]. apply orb_false_iff in E1 as [E1 _].
  rewrite E1. now apply IH.
Qed.

(** X9: the first candidate the table accepts becomes the user's code:
    it is returned, it is the one row added, and the draws of the
    refused candidates and of this one are consumed. From then on the
    function returns that code without drawing or writing, and the codes
    of the other users are as before. *)
Theorem getOrCreateConnectCode_first_fit (userId : string) (tbl tbl' : CodeTable)
    (rnd : Rng) (pos k : nat) :
  (forall i, (0 <= rnd i)%Q /\ (rnd i < 1)%Q) ->
  (k < 10)%nat ->
  (forall j, (j < k)%nat ->
     insertCode tbl userId (fst (generateConnectCode rnd (pos + 6 * j))) = None) ->
  insertCode tbl userId (fst (generateConnectCode rnd (pos + 6 * k))) = Some tbl' ->
  let c := fst (generateConnectCode rnd (pos + 6 * k)) in
  getOrCreateConnectCode userId tbl rnd pos = (Some c, tbl', (pos + 6 * (k + 1))%nat)
  /\ tbl' = tbl ++ [{| user_id := userId; code := c |}]
  /\ (forall rnd2 pos2,
        getOrCreateConnectCode userId tbl' rnd2 pos2 = (Some c, tbl', pos2))
  /\ (forall other, other <> userId ->
        selectCodeByUser tbl' other = selectCodeByUser tbl other).
Proof.
  intros Hrnd Hk Hall Hins c.
  destruct (insertCode_Some _ _ _ _ Hins) as [-> Hnone].
  assert (Hsel : selectCodeByUser tbl userId = None)
    by (unfold selectCodeByUser; now rewrite Hnone).
  assert (Hlen : String.length c = 6%nat).
  { destruct (generateLoop_spec rnd Hrnd 6 (pos + 6 * k) "" ltac:(constructor)) as [Hl _].
    exact Hl. }
  split; [|split; [reflexivity | split]].
  - unfold getOrCreateConnectCode. rewrite Hsel.
    now apply insertLoop_first_fit.
  - intros rnd2 pos2. unfold getOrCreateConnectCode, selectCodeByUser.
    rewrite List.filter_app, Hnone. cbn [List.filter user_id app code].
    rewrite String.eqb_refl. cbn [code]. fold c.
    destruct (String.eqb_spec c "") as [E|_]; [|reflexivity].
    rewrite E in Hlen. discriminate.
  - intros other Hne. unfold selectCodeByUser.
    rewrite List.filter_app. cbn [List.filter user_id].
    destruct (String.eqb_spec userId other) as [->|_]; [contradiction|].
    now rewrite app_nil_r.
Qed.

Lemma getOrCreateConnectCode_first_fit_witness :
  getOrCreateConnectCode "u1" [{| user_id := "u0"; code := "AAAAAA" |}]
    (fun i => if (i <? 6)%nat then 0%Q else (1 # 32)%Q) 0
  = (Some "BBBBBB",
     [{| user_id := "u0"; code := "AAAAAA" |}; {| user_id := "u1"; code := "BBBBBB" |}],
     12%nat).
Proof.
  refine (proj1 (getOrCreateConnectCode_first_fit "u1"
                   [{| user_id := "u0"; code := "AAAAAA" |}]
                   [{| user_id := "u0"; code := "AAAAAA" |};
                    {| user_id := "u1"; code := "BBBBBB" |}]
                   (fun i => if (i <? 6)%nat then 0%Q else (1 # 32)%Q) 0 1 _ _ _ _)).
  - intros i. destruct (i <? 6)%nat; split; unfold Qle, Qlt; simpl; lia.
  - lia.
  - intros j Hj. assert (j = 0%nat) as -> by lia. reflexivity.
  - reflexivity.
Defined.

End ConnectCodeStore.

Section FriendsFacts.
Import Hub Friends Scenario Scenario2.

Lemma rowEqb_eq (a b : FriendRow) : rowEqb a b = true <-> a = b.
Proof.
  unfold rowEqb. destruct a as [a1 a2], b as [b1 b2]. cbn [user_id friend_id].
  rewrite andb_true_iff, !String.eqb_eq. split; [intros [-> ->]; reflexivity|].
  intros [= -> ->]. now split.
Qed.

Lemma existsb_rowEqb (n : FriendRow) (rows : list FriendRow) :
  existsb (rowEqb n) rows = false <-> ~ In n rows.
Proof.
  rewrite <- not_true_iff_false, existsb_exists. split; intros H C; apply H.
  - exists n. split; [exact C | now apply rowEqb_eq].
  - destruct C as (x & Hx & E). apply rowEqb_eq in E. now subst.
Qed.

(** With no duplicate rows, the lookup of the handler finds a friendship
    exactly when its row is in the table. *)
Lemma friendshipExists_In (rows : list FriendRow) (a b : string) :
  List.NoDup rows -> friendshipExists rows a b = true <-> isFriend rows a b.
Proof.
  intros Hnd. unfold friendshipExists, isFriend.
  set (p := fun r => String.eqb (user_id r) a && String.eqb (friend_id r) b).
  assert (Hp : forall r, p r = true <-> r = {| user_id := a; friend_id := b |}).
  { intros [u f]. unfold p. cbn [user_id friend_id].
    rewrite andb_true_iff, !String.eqb_eq. split; [intros [-> ->]; reflexivity|].
    intros [= -> ->]. now split. }
  pose proof (List.NoDup_filter p Hnd) as Hf.
  assert (Hin : forall r, In r (List.filter p rows)
                          <-> In r rows /\ r = {| user_id := a; friend_id := b |})
    by (intros r; rewrite List.filter_In, Hp; reflexivity).
  destruct (List.filter p rows) as [|x [|y l]].
  - split; [discriminate|]. intros H. exfalso.
    apply (proj2 (Hin _) (conj H eq_refl)).
  - split; [|reflexivity]. intros _.
    destruct (proj1 (Hin x) (or_introl eq_refl)) as [H ->]. exact H.
  - split; [discriminate|]. intros _. exfalso.
    destruct (proj1 (Hin x) (or_introl eq_refl)) as [_ ->].
    destruct (proj1 (Hin y) (or_intror (or_introl eq_refl))) as [_ ->].
    inversion Hf as [|? ? Hx _]. apply Hx. now left.
Qed.

(** What a successful [add_friend] writes, on a consistent table. *)
Lemma insertFriendships_fresh (rows : list FriendRow) (me f : string) :
  Consistent rows -> f <> me -> friendshipExists rows me f = false ->
  insertFriendships rows [{| user_id := me; friend_id := f |};
                          {| user_id := f; friend_id := me |}]
  = rows ++ [{| user_id := me; friend_id := f |}; {| user_id := f; friend_id := me |}]
  /\ Consistent (rows ++ [{| user_id := me; friend_id := f |};
                          {| user_id := f; friend_id := me |}]).
Proof.
  intros [Hsym Hirr Hnd] Hne Hex.
  assert (H1 : ~ isFriend rows me f).
  { intros C. apply (friendshipExists_In rows me f Hnd) in C. congruence. }
  assert (H2 : ~ isFriend rows f me) by (intros C; apply H1, Hsym, C).
  split.
  - unfold insertFriendships. cbn [existsb].
    rewrite (proj2 (existsb_rowEqb _ rows) H1), (proj2 (existsb_rowEqb _ rows) H2).
    reflexivity.
  - unfold isFriend in *. split.
    + intros a b Hab. unfold isFriend in *. rewrite in_app_iff in *. cbn [In] in *.
      destruct Hab as [Hab|[[= <- <-]|[[= <- <-]|[]]]]; [left; now apply Hsym | tauto | tauto].
    + intros a Ha. unfold isFriend in Ha. rewrite in_app_iff in Ha. cbn [In] in Ha.
      destruct Ha as [Ha|[[= -> <-]|[[= -> <-]|[]]]]; [now apply (Hirr a) | easy | easy].
    + apply List.NoDup_app; [exact Hnd | |].
      * constructor; [|constructor; [intros [] | constructor]].
        cbn [In]. intros [[= E _]|[]]. now apply Hne.
      * intros r Hr [<-|[<-|[]]]; [now apply H1 | now apply H2].
Qed.

(** X10: [add_friend] keeps the friendship table consistent: if the
    relation is symmetric, irreflexive and without duplicate rows before,
    it is so afterwards, whatever the code and whoever asks. It removes no
    friendship and never touches the connect codes, and it writes only to
    open sockets. *)
Theorem add_friend_keeps_consistent (toUpperCase : string -> string)
    (getUserById : string -> option User) (isOpen : WsId -> bool) (w : WsId)
    (client : Client) (code : string) (h : Hub) (db : Db) :
  Consistent (friends db) ->
  let r := handleAddFriend toUpperCase getUserById isOpen w client code h db in
  Consistent (friends (fst r))
  /\ incl (friends db) (friends (fst r))
  /\ codes (fst r) = codes db
  /\ onlyToOpen isOpen (snd r).
Proof.
  intros Hc. cbv zeta. unfold handleAddFriend.
  destruct (selectUserByCode (codes db) (toUpperCase code)) as [f|];
    [| cbn [fst snd]; repeat split; try apply Hc; [apply incl_refl | apply onlyToOpen_send]].
  destruct (String.eqb_spec f (id (user client))) as [|Hne];
    [cbn [fst snd]; repeat split; try apply Hc; [apply incl_refl | apply onlyToOpen_send]|].
  destruct (friendshipExists (friends db) (id (user client)) f) eqn:Hex;
    [cbn [fst snd]; repeat split; try apply Hc; [apply incl_refl | apply onlyToOpen_send]|].
  destruct (insertFriendships_fresh _ _ _ Hc Hne Hex) as [E Hc'].
  cbn [fst snd friends codes]. rewrite E.
  split; [exact Hc'|]. split; [apply incl_appl, incl_refl|]. split; [reflexivity|].
  apply onlyToOpen_app; [apply onlyToOpen_send|].
  destruct (JsMap.get f (fluxClients h)); [apply onlyToOpen_send | constructor].
Qed.

Lemma add_friend_keeps_consistent_witness :
  Consistent (friends dbCodes)
  /\ Consistent
       (friends (fst (handleAddFriend asciiUpper directory allOpen 1%nat clientA
                        "x8k9mp" hubAB dbCodes))).
Proof.
  assert (Hc : Consistent (friends dbCodes)).
  { split; [intros a b [] | intros a [] | constructor]. }
  split; [exact Hc|].
  exact (proj1 (add_friend_keeps_consistent asciiUpper directory allOpen 1%nat clientA
                  "x8k9mp" hubAB dbCodes Hc)).
Defined.

(** X11: after [add_friend] with the code of another user the two are
    friends in both directions, on a consistent table. A further request,
    by either of the two for the other, is answered "Already friends" and
    changes nothing. *)
Theorem add_friend_links_both_ways (toUpperCase : string -> string)
    (getUserById : string -> option User) (isOpen : WsId -> bool) (w : WsId)
    (client : Client) (code f : string) (h : Hub) (db : Db) :
  Consistent (friends db) ->
  selectUserByCode (codes db) (toUpperCase code) = Some f ->
  f <> id (user client) ->
  let me := id (user client) in
  let r := handleAddFriend toUpperCase getUserById isOpen w client code h db in
  isFriend (friends (fst r)) me f
  /\ isFriend (friends (fst r)) f me
  /\ (forall w2 h2 code2 asker other,
        (id (user asker) = me /\ other = f) \/ (id (user asker) = f /\ other = me) ->
        selectUserByCode (codes db) (toUpperCase code2) = Some other ->
        handleAddFriend toUpperCase getUserById isOpen w2 asker code2 h2 (fst r)
        = (fst r, send isOpen w2 (errorMessage "Already friends"))).
Proof.
  intros Hc Hsel Hne me r. subst me.
  assert (Hr : Consistent (friends (fst r)) /\ codes (fst r) = codes db
               /\ isFriend (friends (fst r)) (id (user client)) f).
  { subst r. unfold handleAddFriend. rewrite Hsel.
    destruct (String.eqb_spec f (id (user client))) as [|_]; [contradiction|].
    destruct (friendshipExists (friends db) (id (user client)) f) eqn:Hex;
      cbn [fst friends codes].
    - split; [exact Hc|]. split; [reflexivity|].
      now apply (friendshipExists_In _ _ _ (distinct _ Hc)).
    - destruct (insertFriendships_fresh _ _ _ Hc Hne Hex) as [E Hc'].
      rewrite E. split; [exact Hc'|]. split; [reflexivity|].
      unfold isFriend. rewrite in_app_iff. right. now left. }
  destruct Hr as (Hc' & Hcodes & Hmf).
  assert (Hfm : isFriend (friends (fst r)) f (id (user client)))
    by now apply (symmetric _ Hc').
  split; [exact Hmf|]. split; [exact Hfm|].
  intros w2 h2 code2 asker other Hwho Hsel2.
  unfold handleAddFriend. rewrite Hcodes, Hsel2.
  assert (Hpair : other <> id (user asker) /\ isFriend (friends (fst r)) (id (user asker)) other).
  { destruct Hwho as [[-> ->]|[-> ->]]; split; try assumption; congruence. }
  destruct Hpair as [Hne2 Hfr].
  destruct (String.eqb_spec other (id (user asker))) as [|_]; [contradiction|].
  now rewrite (proj2 (friendshipExists_In _ _ _ (distinct _ Hc')) Hfr).
Qed.

Lemma add_friend_links_both_ways_witness :
  Consistent (friends dbCodes)
  /\ selectUserByCode (codes dbCodes) (asciiUpper "x8k9mp") = Some "B"
  /\ "B" <> id (user clientA)
  /\ isFriend
       (friends (fst (handleAddFriend asciiUpper directory allOpen 1%nat clientA
                        "x8k9mp" hubAB dbCodes))) "A" "B".
Proof.
  assert (Hc : Consistent (friends dbCodes)).
  { split; [intros a b [] | intros a [] | constructor]. }
  assert (Hne : "B" <> id (user clientA)) by discriminate.
  split; [exact Hc|]. split; [reflexivity|]. split; [exact Hne|].
  exact (proj1 (add_friend_links_both_ways asciiUpper directory allOpen 1%nat clientA
                  "x8k9mp" "B" hubAB dbCodes Hc eq_refl Hne)).
Defined.

End FriendsFacts.

(** ** The REST front: listing files and the bearer token *)

Section RestFacts.
Import Rest.

Lemma substring_all (s : string) : String.substring 0 (String.length s) s = s.
Proof. induction s as [|c s IH]; cbn; [reflexivity | now rewrite IH]. Qed.

(** X12: the query of [GET /api/files] is parameterised. Its text depends
    only on whether [deleted] and [starred] are exactly "true" and on
    whether [parent_id] names a folder, never on the user id or on the
    value of [parent_id]; these travel as parameters, the user id first,
    one for each [$] marker of the text. Every listing is restricted to
    the caller's rows, and to rows not deleted unless [deleted] is
    "true". *)
Theorem listFilesQuery_parameterised (userId : string)
    (starred deleted parent_id : option string) :
  let q := listFilesQuery userId starred deleted parent_id in
  (forall userId' starred' deleted' parent_id',
     isTrue starred' = isTrue starred -> isTrue deleted' = isTrue deleted ->
     namesFolder parent_id' = namesFolder parent_id ->
     fst (listFilesQuery userId' starred' deleted' parent_id') = fst q)
  /\ snd q = userId :: match parent_id with
                       | Some p => if namesFolder parent_id then [p] else []
                       | None => []
                       end
  /\ placeholders (fst q) = length (snd q)
  /\ String.prefix
       (if isTrue deleted
        then "SELECT * FROM files WHERE user_id = $1 AND is_deleted = true"
        else "SELECT * FROM files WHERE user_id = $1 AND is_deleted = false")
       (fst q) = true.
Proof.
  cbv zeta. split; [|split; [|split]].
  - intros userId' starred' deleted' parent_id' Hs Hd Hp.
    unfold listFilesQuery. rewrite Hs, Hd.
    unfold namesFolder in Hp.
    destruct parent_id' as [p'|], parent_id as [p|];
      repeat match goal with
             | |- context [(String.eqb ?x ?y || String.eqb ?x ?z)%bool] =>
                 destruct (String.eqb x y || String.eqb x z)%bool
             end;
      cbn [fst negb] in *; try reflexivity; discriminate.
  - unfold listFilesQuery, namesFolder. destruct parent_id as [p|]; [|reflexivity].
    destruct (String.eqb p "null" || String.eqb p "")%bool; reflexivity.
  - unfold listFilesQuery.
    destruct (isTrue deleted), (isTrue starred), parent_id as [p|];
      try destruct (String.eqb p "null" || String.eqb p "")%bool; reflexivity.
  - unfold listFilesQuery.
    destruct (isTrue deleted), (isTrue starred), parent_id as [p|];
      try destruct (String.eqb p "null" || String.eqb p "")%bool; reflexivity.
Qed.

(** X13: the token taken from an [Authorization] header. A header yields
    a token exactly when it is "Bearer " followed by that token (which
    may be empty); a missing header, another scheme or another spelling
    of the scheme yields none, and the request is answered 401. *)
Theorem bearerToken_spec (authHeader : option string) (token : string) :
  bearerToken authHeader = Some token
  <-> authHeader = Some ("Bearer " ++ token)%string.
Proof.
  unfold bearerToken. split.
  - destruct authHeader as [h|]; [|discriminate].
    destruct (String.prefix "Bearer " h) eqn:P; [|discriminate].
    apply String.prefix_correct in P. cbn [String.length] in P.
    do 7 (destruct h as [|? h]; [cbn in P; discriminate|]).
    cbn [String.substring] in P. injection P as ? ? ? ? ? ? ? _. subst.
    cbn [String.length Nat.sub String.substring append]. rewrite Nat.sub_0_r, substring_all.
    now intros [= <-].
  - intros ->.
    change ("Bearer " ++ token)%string
      with (String "B" (String "e" (String "a" (String "r" (String "e"
              (String "r" (String " " token))))))).
    rewrite (proj2 (String.prefix_correct "Bearer " _))
      by (cbn; now destruct token).
    cbn [String.length Nat.sub String.substring].
    now rewrite Nat.sub_0_r, substring_all.
Qed.

End RestFacts.

(** ** Remote ICE candidates *)

Section IceFacts.
Import Ice Scenario2.

Lemma added_app (a b : list Effect) : added (a ++ b) = added a ++ added b.
Proof. apply flat_map_app. Qed.

Lemma added_map (cs : list Candidate) : added (List.map AddCandidate cs) = cs.
Proof. induction cs as [|c cs IH]; cbn; [reflexivity | now f_equal]. Qed.

(** Among these events none takes a remote description back. *)
Lemma run_keeps_description (es : list Event) (s : Service) :
  hasRemoteDescription s = true -> hasRemoteDescription (fst (run es s)) = true.
Proof.
  revert s. induction es as [|e es IH]; intros s Hrd; cbn [run]; [exact Hrd|].
  destruct (step e s) as [s1 out1] eqn:E1.
  assert (H1 : hasRemoteDescription s1 = true).
  { destruct e as [c mid idx|isOffer sdpText|isOffer [err|]]; cbn [step] in E1.
    - unfold addIceCandidate in E1. rewrite Hrd in E1. now injection E1 as <- _.
    - unfold setRemote in E1. destruct (hasPeerConnection s); now injection E1 as <- _.
    - cbn [remoteDescriptionSet] in E1. now injection E1 as <- _.
    - cbn [remoteDescriptionSet] in E1. now injection E1 as <- _. }
  specialize (IH s1 H1). now destruct (run es s1).
Qed.

(** X14: no remote candidate is lost or reordered. For a service with a
    peer connection, whatever the order in which candidates, remote
    descriptions and their completions arrive, the candidates handed to
    the peer connection followed by those still queued are the
    candidates received, in their order; a candidate is handed over only
    once a remote description is set, and the queue is empty from then
    on. *)
Theorem ice_candidates_conserved (es : list Event) (s : Service) :
  hasPeerConnection s = true ->
  (hasRemoteDescription s = true -> pendingIceCandidates s = []) ->
  let r := run es s in
  added (snd r) ++ pendingIceCandidates (fst r) = pendingIceCandidates s ++ received es
  /\ (hasRemoteDescription (fst r) = true -> pendingIceCandidates (fst r) = [])
  /\ (hasRemoteDescription (fst r) = false -> added (snd r) = []).
Proof.
  revert s. induction es as [|e es IH]; intros s Hpc Hinv; cbn [run received flat_map].
  - cbn [fst snd added flat_map app]. rewrite app_nil_r. repeat split; assumption.
  - destruct (step e s) as [s1 out1] eqn:E1.
    assert (H1 : hasPeerConnection s1 = true
                 /\ (hasRemoteDescription s1 = true -> pendingIceCandidates s1 = [])
                 /\ added out1 ++ pendingIceCandidates s1
                    = pendingIceCandidates s
                      ++ received [e]
                 /\ (hasRemoteDescription s1 = false ->
                     added out1 = [] /\ hasRemoteDescription s = false)).
    { destruct e as [c mid idx|isOffer sdpText|isOffer [err|]]; cbn [step] in E1.
      - unfold addIceCandidate in E1.
        destruct (hasRemoteDescription s) eqn:Hrd; rewrite ?Hpc in E1;
          injection E1 as <- <-.
        + rewrite (Hinv eq_refl). cbn. rewrite Hrd.
          repeat split; try assumption; try reflexivity; try discriminate.
        + cbn. repeat split; try assumption; discriminate.
      - unfold setRemote in E1. rewrite Hpc in E1. injection E1 as <- <-.
        cbn. rewrite ?app_nil_r. repeat split; try assumption.
      - cbn [remoteDescriptionSet] in E1. injection E1 as <- <-.
        cbn. rewrite ?app_nil_r. repeat split; try assumption.
      - cbn [remoteDescriptionSet] in E1. rewrite Hpc in E1. injection E1 as <- <-.
        cbn [hasPeerConnection hasRemoteDescription pendingIceCandidates
             received flat_map app].
        rewrite added_app, added_map. rewrite andb_true_r.
        repeat split; try reflexivity; try discriminate.
        destruct isOffer; cbn; now rewrite !app_nil_r. }
    destruct H1 as (Hpc1 & Hinv1 & Hcons & Hnone).
    specialize (IH s1 Hpc1 Hinv1). cbv zeta in IH.
    pose proof (run_keeps_description es s1) as Hkeep.
    destruct (run es s1) as [s2 out2]. cbn [fst snd] in *.
    destruct IH as (IHc & IHi & IHn).
    split; [|split; [exact IHi|]].
    + rewrite added_app, <- app_assoc, IHc, app_assoc, Hcons.
      cbn [received flat_map]. rewrite app_nil_r.
      fold (received es). now rewrite <- app_assoc.
    + intros Hrd. rewrite added_app, (IHn Hrd), app_nil_r.
      destruct (hasRemoteDescription s1) eqn:Hrd1.
      * rewrite (Hkeep eq_refl) in Hrd. discriminate.
      * now apply Hnone.
Qed.

Lemma ice_candidates_conserved_witness :
  hasPeerConnection freshService = true
  /\ (hasRemoteDescription freshService = true -> pendingIceCandidates freshService = [])
  /\ added (snd (run [RemoteCandidate "c1" None None; RemoteDescription true "offer";
                      DescriptionSet true None; RemoteCandidate "c2" (Some "0") (Some 1)]
                  freshService))
     ++ pendingIceCandidates
          (fst (run [RemoteCandidate "c1" None None; RemoteDescription true "offer";
                     DescriptionSet true None; RemoteCandidate "c2" (Some "0") (Some 1)]
                  freshService))
     = [{| sdp := "c1"; sdpMLineIndex := 0; sdpMid := None |};
        {| sdp := "c2"; sdpMLineIndex := 1; sdpMid := Some "0" |}].
Proof.
  assert (H : hasRemoteDescription freshService = true ->
              pendingIceCandidates freshService = []) by reflexivity.
  split; [reflexivity|]. split; [exact H|].
  exact (proj1 (ice_candidates_conserved
                  [RemoteCandidate "c1" None None; RemoteDescription true "offer";
                   DescriptionSet true None; RemoteCandidate "c2" (Some "0") (Some 1)]
                  freshService eq_refl H)).
Defined.

End IceFacts.

(** ** The transfer protocol: frames, flow control and failure *)

Section TransferFrames.
Import Transfer Trace Scenario Scenario2.

Lemma reassemble_missing (chunks : gmap Z Data) (k : Z) :
  forall (n : nat) (i : Z) (acc : Data),
    i <= k < i + Z.of_nat n ->
    chunks !! k = None ->
    (forall j, i <= j < k -> is_Some (chunks !! j)) ->
    reassemble n i chunks acc = inr k.
Proof.
  induction n as [|n IH]; intros i acc Hk Hnone Hall; [lia|].
  cbn [reassemble]. destruct (Z.eq_dec i k) as [->|Hne].
  - now rewrite Hnone.
  - destruct (Hall i ltac:(lia)) as [d Hd]. rewrite Hd.
    apply IH; [lia | exact Hnone | intros j Hj; apply Hall; lia].
Qed.

(** X15: FILE_COMPLETE while a chunk is missing. The receiver answers
    TRANSFER_FAILED with "Missing chunk k" on channel 0, k being the
    smallest index it has no chunk for, reports the failure, writes no
    file and forgets the transfer, whatever digest the frame carries. *)
Theorem fileComplete_missing_chunk decodeJSON (env : Env) (m : Manager)
    (md : FileMetadata) (payload : Data) (k : Z) :
  receivingMetadata m = Some md ->
  isMissing (receivingChunks m) (totalChunks md) k ->
  let reason := ("Missing chunk " ++ describe k)%string in
  handleIncomingData decodeJSON env (frame fileComplete payload) m
  = Some (initial (tempDirectory m),
          [SendData (frame transferFailed (dataOfString reason)) 0;
           DidFailTransfer (transferId md) reason]).
Proof.
  intros Hmd (Hk & Hnone & Hall) reason.
  rewrite handleIncomingData_complete. unfold handleFileComplete. rewrite Hmd.
  destruct (Z.ltb_spec (totalChunks md) 0) as [|_]; [lia|].
  rewrite (reassemble_missing _ k); [reflexivity | | exact Hnone | exact Hall].
  rewrite Z2Nat.id; lia.
Qed.

Lemma fileComplete_missing_chunk_witness :
  receivingMetadata receiverEmpty = Some metadataAbc
  /\ isMissing (receivingChunks receiverEmpty) (totalChunks metadataAbc) 0
  /\ handleIncomingData noJSON calm (frame fileComplete []) receiverEmpty
     = Some (initial "/tmp/GraphiteFlux",
             [SendData (frame transferFailed (dataOfString "Missing chunk 0")) 0;
              DidFailTransfer "T1" "Missing chunk 0"]).
Proof.
  assert (Hm : isMissing (receivingChunks receiverEmpty) (totalChunks metadataAbc) 0).
  { split; [vm_compute; split; [discriminate | reflexivity]|].
    split; [reflexivity | intros j Hj; lia]. }
  split; [reflexivity|]. split; [exact Hm|].
  exact (fileComplete_missing_chunk noJSON calm receiverEmpty metadataAbc [] 0 eq_refl Hm).
Defined.

(** X16: the type byte. Every frame the manager builds for a type is
    dispatched to that type by the peer; a byte outside 1..7 names no
    type, and a frame that starts with one is dropped without any effect,
    as are the empty frame and a FILE_CHUNK frame too short to carry a
    payload. None of these traps. *)
Theorem frame_type_dispatch decodeJSON (env : Env) (m : Manager) :
  (forall t, ofRawValue (rawValue t) = Some t)
  /\ (forall b,
        (exists t, ofRawValue b = Some t /\ rawValue t = b)
        \/ (~ 1 <= byte.unsigned b <= 7
            /\ forall rest, handleIncomingData decodeJSON env (b :: rest) m = Some (m, [])))
  /\ handleIncomingData decodeJSON env [] m = Some (m, [])
  /\ (forall rest, count rest <= 4 ->
        handleIncomingData decodeJSON env (frame fileChunk rest) m = Some (m, [])).
Proof.
  split; [intros []; reflexivity|]. split; [|split; [reflexivity|]].
  - intros b.
    destruct (ofRawValue b) as [t|] eqn:E.
    + left. exists t. split; [reflexivity|].
      destruct b; try discriminate E; injection E as <-; reflexivity.
    + right. split.
      * destruct b; try discriminate E; vm_compute; intros [H1 H2];
          first [now apply H1 | now apply H2].
      * intros rest. cbn [handleIncomingData]. now rewrite E.
  - intros rest Hr. unfold frame. cbn [handleIncomingData].
    change (ofRawValue (rawValue fileChunk)) with (Some fileChunk). cbv iota.
    unfold handleFileChunk.
    destruct (Z.ltb_spec 5 (count (rawValue fileChunk :: rest))) as [H|_]; [|reflexivity].
    unfold count in *. cbn [length] in H. lia.
Qed.

Lemma progressBytes_app (a b : list Effect) :
  progressBytes (a ++ b) = progressBytes a ++ progressBytes b.
Proof. apply flat_map_app. Qed.

Lemma roundRobinSends_app (a b : list Effect) :
  roundRobinSends (a ++ b) = roundRobinSends a ++ roundRobinSends b.
Proof. apply flat_map_app. Qed.

Lemma controlChannels_app (a b : list Effect) :
  controlChannels (a ++ b) = controlChannels a ++ controlChannels b.
Proof. apply flat_map_app. Qed.

Lemma handleFileChunk_eq (i : Z) (d : Data) (m : Manager) :
  0 <= i < 2 ^ 32 -> d <> [] ->
  let m' := setReceiving m (<[i := d]> (receivingChunks m))
              (receivingBytesReceived m + count d) in
  handleFileChunk (chunkMessage i d) m = (m', updateReceiveProgress m').
Proof.
  intros Hi Hd. cbv zeta. unfold handleFileChunk.
  rewrite count_chunkMessage.
  assert (0 < count d) by (unfold count; destruct d; [contradiction | cbn; lia]).
  destruct (Z.ltb_spec 5 (5 + count d)) as [_|]; [|lia].
  now rewrite bigEndian32_decode, chunkMessage_payload.
Qed.

(** X17: the receiver's byte counter adds up the payload of every chunk
    frame it is given, repeated indices included, while the store keeps
    one payload for each index; with a transfer announced, the progress
    reports carry the running totals. The counter is not bounded by
    the announced file size. *)
Theorem received_bytes_count_every_frame decodeJSON (env : Env)
    (msgs : list (Z * Data)) (m : Manager) :
  Forall wellFormed msgs ->
  exists es,
    deliver decodeJSON env (chunkMessages msgs) m
    = Some (setReceiving m (stored msgs (receivingChunks m))
              (receivingBytesReceived m + payloadBytes msgs), es)
    /\ (is_Some (receivingMetadata m) -> is_Some (receivingStartTime m) ->
        progressBytes es = runningTotals (receivingBytesReceived m) msgs).
Proof.
  intros Hwf. revert m.
  induction Hwf as [|[i d] msgs [Hi Hd] _ IH]; intros m.
  - exists []. cbn. rewrite Z.add_0_r. split; [now destruct m | reflexivity].
  - cbn [chunkMessages List.map deliver fst snd] in *.
    rewrite handleIncomingData_chunk, (handleFileChunk_eq i d m Hi Hd). cbv zeta.
    set (m1 := setReceiving m (<[i:=d]> (receivingChunks m))
                 (receivingBytesReceived m + count d)).
    destruct (IH m1) as (es & E & Hp).
    fold (chunkMessages msgs). rewrite E.
    exists (updateReceiveProgress m1 ++ es). split.
    + do 2 f_equal. unfold m1, setReceiving, stored, payloadBytes.
      cbn [sendingTransferId sendingFileData sendingMetadata sendingChunkIndex
           sendingStartTime sendingPaused receivingTransferId receivingMetadata
           receivingChunks receivingBytesReceived receivingStartTime tempDirectory
           fold_left fold_right fst snd].
      f_equal. lia.
    + intros [md Hmd] [t Ht]. rewrite progressBytes_app.
      rewrite Hp by (unfold m1; cbn; eauto).
      unfold updateReceiveProgress, m1.
      cbn [setReceiving receivingMetadata receivingStartTime receivingBytesReceived].
      rewrite Hmd, Ht. reflexivity.
Qed.

Lemma received_bytes_count_every_frame_witness :
  Forall wellFormed [(0, list_byte_of_string "abc"); (0, list_byte_of_string "xyz")]
  /\ exists es,
       deliver noJSON calm
         (chunkMessages [(0, list_byte_of_string "abc"); (0, list_byte_of_string "xyz")])
         receiverEmpty
       = Some (setReceiving receiverEmpty
                 (stored [(0, list_byte_of_string "abc"); (0, list_byte_of_string "xyz")]
                    (receivingChunks receiverEmpty))
                 (receivingBytesReceived receiverEmpty
                  + payloadBytes [(0, list_byte_of_string "abc");
                                  (0, list_byte_of_string "xyz")]), es)
       /\ (is_Some (receivingMetadata receiverEmpty) ->
           is_Some (receivingStartTime receiverEmpty) ->
           progressBytes es
           = runningTotals (receivingBytesReceived receiverEmpty)
               [(0, list_byte_of_string "abc"); (0, list_byte_of_string "xyz")]).
Proof.
  assert (Hwf : Forall wellFormed
                  [(0, list_byte_of_string "abc"); (0, list_byte_of_string "xyz")]).
  { repeat constructor; cbn; try lia; discriminate. }
  split; [exact Hwf|].
  exact (received_bytes_count_every_frame noJSON calm _ receiverEmpty Hwf).
Defined.

(** X18: a pause keeps the sender's place. When the transport asks for a
    pause, [sendNextChunks] sends nothing and only marks the sender
    paused. A paused sender does nothing on TRANSFER_ACK or on a
    scheduled run, however often and whatever the transport says; only
    [resumeSending] restarts it, and it then does exactly what the sender
    would have done had it not been paused. *)
Theorem pause_keeps_the_place decodeJSON (env env' : Env) (m : Manager)
    (file : Data) (md : FileMetadata) :
  sendingFileData m = Some file ->
  sendingMetadata m = Some md ->
  sendingPaused m = false ->
  shouldPauseSending env = true ->
  let p := setSending m (sendingChunkIndex m) true in
  sendNextChunks env m = Some (p, [])
  /\ (forall fuel env2, pump fuel env2 p = Some (p, []))
  /\ (forall env2 payload,
        handleIncomingData decodeJSON env2 (frame transferAck payload) p = Some (p, []))
  /\ resumeSending env' p = sendNextChunks env' m.
Proof.
  intros Hfile Hmd Hp Hpause p.
  assert (Hinert : forall env2, sendNextChunks env2 p = Some (p, [])).
  { intros env2. unfold sendNextChunks, p.
    cbn [setSending sendingFileData sendingMetadata sendingPaused].
    now rewrite Hfile, Hmd. }
  split; [|split; [|split]].
  - unfold sendNextChunks. now rewrite Hfile, Hmd, Hp, Hpause.
  - intros [|fuel] env2; cbn [pump]; [reflexivity|]. now rewrite Hinert.
  - intros env2 payload. exact (Hinert env2).
  - unfold resumeSending, p. cbn [setSending sendingPaused sendingChunkIndex].
    f_equal. destruct m. cbn in *. now subst.
Qed.

Lemma pause_keeps_the_place_witness :
  sendingFileData senderAbc = Some (list_byte_of_string "abc")
  /\ sendingMetadata senderAbc = Some metadataAbc
  /\ sendingPaused senderAbc = false
  /\ shouldPauseSending congested = true
  /\ sendNextChunks congested senderAbc
     = Some (setSending senderAbc (sendingChunkIndex senderAbc) true, []).
Proof.
  repeat (split; [reflexivity|]).
  exact (proj1 (pause_keeps_the_place noJSON congested calm senderAbc _ metadataAbc
                  eq_refl eq_refl eq_refl eq_refl)).
Defined.

End TransferFrames.

Section TransferFlow.
Import Transfer Trace Scenario Scenario2.

Lemma chunk_trace (file : Data) (l : list Z) :
  let es := List.map (fun i => SendDataRoundRobin (chunkFrame file i) i) l in
  roundRobinSends es = List.map (fun i => (chunkFrame file i, i)) l
  /\ controlChannels es = []
  /\ progressBytes es = [].
Proof.
  induction l as [|i l (IH1 & IH2 & IH3)]; [now cbn|].
  cbn [List.map]. repeat split.
  - unfold roundRobinSends in *. cbn [flat_map app]. now f_equal.
  - exact IH2.
  - exact IH3.
Qed.

(** The chunks cover the file. *)
Lemma count_le_chunks (n : Z) : 0 <= n -> n <= totalChunksFor n * chunkSize.
Proof.
  intros Hn. unfold totalChunksFor, chunkSize. change (64 * 1024) with 65536.
  pose proof (Z.div_mod (n + 65536 - 1) 65536 ltac:(lia)).
  pose proof (Z.mod_pos_bound (n + 65536 - 1) 65536 ltac:(lia)). lia.
Qed.

(** What the transport and the delegate see while the sender is pumped
    from chunk index [k] to the end. *)
Lemma pump_trace (env : Env) (file : Data) (md : FileMetadata) (t : Z) :
  shouldPauseSending env = false ->
  totalChunks md = totalChunksFor (count file) ->
  totalChunks md <= 2 ^ 32 ->
  fileSize md = count file ->
  forall (fuel : nat) (s : Manager),
    sendingFileData s = Some file ->
    sendingMetadata s = Some md ->
    sendingPaused s = false ->
    sendingStartTime s = Some t ->
    0 <= sendingChunkIndex s <= totalChunks md ->
    totalChunks md - sendingChunkIndex s < Z.of_nat fuel ->
    exists s' es,
      pump fuel env s = Some (s', es)
      /\ roundRobinSends es
         = List.map (fun i => (chunkFrame file i, i))
             (seqZ (sendingChunkIndex s) (totalChunks md - sendingChunkIndex s))
      /\ controlChannels es = [0]
      /\ Forall (fun b => Z.min (sendingChunkIndex s * chunkSize) (count file) <= b
                          /\ b <= count file) (progressBytes es)
      /\ nondecreasing (progressBytes es)
      /\ last (progressBytes es) = Some (count file).
Proof.
  intros Hpause HN Hmax Hsize fuel.
  induction fuel as [|fuel IH]; intros s Hfile Hmd Hp Ht Hk Hfuel; [lia|].
  cbn [pump]. rewrite (sendNextChunks_step env s file md) by assumption.
  cbv zeta.
  set (k := sendingChunkIndex s) in *.
  set (c := Z.min parallelChannels (totalChunks md - k)).
  set (s1 := setSending s (k + c) false).
  destruct (chunk_effects file (seqZ k c)) as (_ & _ & S1).
  destruct (chunk_trace file (seqZ k c)) as (R1 & C1 & P1).
  destruct (progress_effects s1) as (_ & _ & S2).
  cbv zeta in R1, C1, P1, S1.
  assert (Hprog : updateSendProgress s1
                  = [DidUpdateProgress
                       {| progressTransferId := transferId md;
                          bytesTransferred := Z.min ((k + c) * chunkSize) (count file);
                          totalBytes := count file;
                          progressState := sending |}]).
  { unfold updateSendProgress, s1.
    cbn [setSending sendingMetadata sendingStartTime sendingChunkIndex].
    now rewrite Hmd, Ht, Hsize. }
  pose proof (count_le_chunks (count file) (count_nonneg file)) as Hcover.
  rewrite <- HN in Hcover.
  assert (Hcs : chunkSize = 65536) by reflexivity.
  destruct (Z.leb_spec (totalChunks md) (k + c)) as [Hdone|Hmore].
  - rewrite !existsb_app, S1, S2. cbn [existsb isSchedule orb].
    eexists _, _. split; [reflexivity|].
    rewrite !roundRobinSends_app, !controlChannels_app, !progressBytes_app.
    rewrite R1, C1, P1, Hprog.
    cbn [roundRobinSends controlChannels progressBytes flat_map app bytesTransferred].
    assert (c = totalChunks md - k) as Hc
      by (subst c; unfold parallelChannels in *; lia).
    rewrite app_nil_r, Hc.
    replace (k + (totalChunks md - k)) with (totalChunks md) by lia.
    assert (Hmin : Z.min (totalChunks md * chunkSize) (count file) = count file) by lia.
    rewrite Hmin. pose proof (count_nonneg file).
    repeat split; try (constructor; [|constructor]); try lia. constructor.
  - rewrite !existsb_app, S1, S2. cbn [existsb isSchedule orb].
    assert (Hc : c = 4) by (subst c; unfold parallelChannels in *; lia).
    assert (H1 : 0 <= sendingChunkIndex s1 <= totalChunks md)
      by (change (sendingChunkIndex s1) with (k + c); lia).
    assert (H2 : totalChunks md - sendingChunkIndex s1 < Z.of_nat fuel)
      by (change (sendingChunkIndex s1) with (k + c); lia).
    destruct (IH s1 Hfile Hmd eq_refl Ht H1 H2) as (s' & es & E & R & C & F & M & L).
    rewrite E. eexists _, _. split; [reflexivity|].
    rewrite !roundRobinSends_app, !controlChannels_app, !progressBytes_app.
    rewrite R1, C1, P1, Hprog, R, C.
    change (roundRobinSends [ScheduleSendNextChunks]) with (@nil (Data * Z)).
    change (controlChannels [ScheduleSendNextChunks]) with (@nil Z).
    change (progressBytes [ScheduleSendNextChunks]) with (@nil Z).
    cbn [roundRobinSends controlChannels progressBytes flat_map app bytesTransferred].
    change (sendingChunkIndex s1) with (k + c) in *.
    split; [|split; [reflexivity|]].
    + rewrite app_nil_r, <- List.map_app. f_equal.
      replace (totalChunks md - k) with (c + (totalChunks md - (k + c))) by lia.
      rewrite seqZ_app by lia. reflexivity.
    + pose proof (count_nonneg file).
      assert (Hle : Z.min (k * chunkSize) (count file)
                    <= Z.min ((k + c) * chunkSize) (count file)) by lia.
      split; [|split].
      * constructor; [lia|].
        eapply Forall_impl; [exact F|]. cbn. intros b Hb. lia.
      * cbn [nondecreasing]. split; [|exact M].
        eapply Forall_impl; [exact F|]. cbn. intros b Hb. lia.
      * rewrite last_cons, L. reflexivity.
Qed.

(** The sender right after [sendFile]. *)
Lemma sendFile_state encodeJSON (env : Env) (tid name type : string) (file : Data)
    (m : Manager) :
  exists s0,
    sendFile encodeJSON env tid name type (Some file) m
    = Some (s0, sendMetadata encodeJSON (metadataFor tid name type file) s0)
    /\ sendingFileData s0 = Some file
    /\ sendingMetadata s0 = Some (metadataFor tid name type file)
    /\ sendingPaused s0 = false
    /\ sendingStartTime s0 = Some (now env)
    /\ sendingChunkIndex s0 = 0.
Proof. eexists. cbn [sendFile]. repeat split. Qed.

(** X19: the channels of a transfer. Pumped without a pause after
    [sendFile], the sender hands chunk [i] to the transport with index
    [i], so that it leaves on channel [i mod 4], one of the four
    channels, and consecutive chunks leave on different channels; every
    control frame (FILE_METADATA, FILE_COMPLETE) leaves on channel 0. *)
Theorem chunks_spread_over_channels encodeJSON (env : Env)
    (tid name type : string) (file : Data) (m : Manager) (fuel : nat) :
  shouldPauseSending env = false ->
  count file <= 2 ^ 48 ->
  totalChunksFor (count file) < Z.of_nat fuel ->
  exists s0 es0 s' es,
    sendFile encodeJSON env tid name type (Some file) m = Some (s0, es0)
    /\ pump fuel env s0 = Some (s', es)
    /\ roundRobinSends es
       = List.map (fun i => (chunkFrame file i, i)) (seqZ 0 (totalChunksFor (count file)))
    /\ Forall (fun p => channelFor (snd p) = snd p mod parallelChannels
                        /\ 0 <= channelFor (snd p) < parallelChannels
                        /\ channelFor (snd p + 1) <> channelFor (snd p))
              (roundRobinSends es)
    /\ Forall (fun c => c = 0) (controlChannels (es0 ++ es)).
Proof.
  intros Hpause Hsize Hfuel.
  destruct (sendFile_state encodeJSON env tid name type file m)
    as (s0 & E0 & Hfile & Hmd & Hp & Ht & Hi).
  pose proof (count_nonneg file) as Hc0.
  pose proof (totalChunksFor_nonneg _ Hc0) as HN0.
  destruct (pump_trace env file (metadataFor tid name type file) (now env) Hpause
              eq_refl (totalChunksFor_bound _ (conj Hc0 Hsize)) eq_refl fuel s0
              Hfile Hmd Hp Ht) as (s' & es & E & R & C & _).
  { rewrite Hi. cbn [totalChunks metadataFor]. lia. }
  { rewrite Hi. cbn [totalChunks metadataFor]. lia. }
  rewrite Hi in R. cbn [totalChunks metadataFor] in R. rewrite Z.sub_0_r in R.
  eexists s0, _, s', es. split; [exact E0|]. split; [exact E|]. split; [exact R|].
  split.
  - rewrite R. apply Forall_forall. intros p Hin.
    apply list_elem_of_fmap in Hin as (i & -> & Hin). apply elem_of_seqZ in Hin.
    cbn [snd]. unfold channelFor, parallelChannels.
    rewrite !Z.rem_mod_nonneg by lia.
    pose proof (Z.mod_pos_bound i 4 ltac:(lia)).
    split; [reflexivity|]. split; [lia|].
    rewrite <- Z.add_mod_idemp_l by lia.
    assert (Hr : i mod 4 = 0 \/ i mod 4 = 1 \/ i mod 4 = 2 \/ i mod 4 = 3) by lia.
    destruct Hr as [Er|[Er|[Er|Er]]]; rewrite Er; discriminate.
  - rewrite controlChannels_app, C. apply Forall_app. split; [|now repeat constructor].
    unfold sendMetadata. destruct (encodeJSON _); [|constructor].
    cbn [controlChannels flat_map app]. constructor; [reflexivity|].
    unfold updateSendProgress.
    destruct (sendingMetadata s0), (sendingStartTime s0); cbn; constructor.
Qed.

Lemma chunks_spread_over_channels_witness :
  shouldPauseSending calm = false
  /\ count (list_byte_of_string "abc") <= 2 ^ 48
  /\ totalChunksFor (count (list_byte_of_string "abc")) < Z.of_nat 2
  /\ exists s0 es0 s' es,
       sendFile (fun _ => None) calm "T1" "f.txt" "txt"
         (Some (list_byte_of_string "abc")) (initial "/tmp/GraphiteFlux")
       = Some (s0, es0)
       /\ pump 2 calm s0 = Some (s', es)
       /\ roundRobinSends es
          = List.map (fun i => (chunkFrame (list_byte_of_string "abc") i, i))
              (seqZ 0 (totalChunksFor (count (list_byte_of_string "abc"))))
       /\ Forall (fun p => channelFor (snd p) = snd p mod parallelChannels
                           /\ 0 <= channelFor (snd p) < parallelChannels
                           /\ channelFor (snd p + 1) <> channelFor (snd p))
                 (roundRobinSends es)
       /\ Forall (fun c => c = 0) (controlChannels (es0 ++ es)).
Proof.
  assert (H1 : count (list_byte_of_string "abc") <= 2 ^ 48)
    by (vm_compute; discriminate).
  assert (H2 : totalChunksFor (count (list_byte_of_string "abc")) < Z.of_nat 2)
    by reflexivity.
  split; [reflexivity|]. split; [exact H1|]. split; [exact H2|].
  exact (chunks_spread_over_channels (fun _ => None) calm "T1" "f.txt" "txt"
           (list_byte_of_string "abc") (initial "/tmp/GraphiteFlux") 2 eq_refl H1 H2).
Defined.

(** X20: the sender's progress reports. Pumped without a pause after
    [sendFile], the byte counts reported to the delegate never decrease,
    stay between 0 and the size of the file, and the last one is the size
    of the file. *)
Theorem send_progress_monotone encodeJSON (env : Env) (tid name type : string)
    (file : Data) (m : Manager) (fuel : nat) :
  shouldPauseSending env = false ->
  count file <= 2 ^ 48 ->
  totalChunksFor (count file) < Z.of_nat fuel ->
  exists s0 es0 s' es,
    sendFile encodeJSON env tid name type (Some file) m = Some (s0, es0)
    /\ pump fuel env s0 = Some (s', es)
    /\ nondecreasing (progressBytes (es0 ++ es))
    /\ Forall (fun b => 0 <= b <= count file) (progressBytes (es0 ++ es))
    /\ last (progressBytes (es0 ++ es)) = Some (count file).
Proof.
  intros Hpause Hsize Hfuel.
  destruct (sendFile_state encodeJSON env tid name type file m)
    as (s0 & E0 & Hfile & Hmd & Hp & Ht & Hi).
  pose proof (count_nonneg file) as Hc0.
  pose proof (totalChunksFor_nonneg _ Hc0) as HN0.
  destruct (pump_trace env file (metadataFor tid name type file) (now env) Hpause
              eq_refl (totalChunksFor_bound _ (conj Hc0 Hsize)) eq_refl fuel s0
              Hfile Hmd Hp Ht) as (s' & es & E & _ & _ & F & M & L).
  { rewrite Hi. cbn [totalChunks metadataFor]. lia. }
  { rewrite Hi. cbn [totalChunks metadataFor]. lia. }
  rewrite Hi in F. change (Z.min (0 * chunkSize) (count file)) with (Z.min 0 (count file)) in F.
  rewrite Z.min_l in F by exact Hc0.
  eexists s0, _, s', es. split; [exact E0|]. split; [exact E|].
  rewrite progressBytes_app.
  assert (H0 : progressBytes (sendMetadata encodeJSON (metadataFor tid name type file) s0) = []
               \/ progressBytes (sendMetadata encodeJSON (metadataFor tid name type file) s0)
                  = [0]).
  { unfold sendMetadata. destruct (encodeJSON _); [|now left]. right.
    cbn [progressBytes flat_map app]. unfold updateSendProgress.
    rewrite Hmd, Ht, Hi. cbn [progressBytes flat_map app bytesTransferred fileSize metadataFor].
    now rewrite Z.min_l by exact Hc0. }
  destruct H0 as [-> | ->]; cbn [app].
  - split; [exact M|]. split; [exact F | exact L].
  - split; [|split].
    + cbn [nondecreasing]. split; [|exact M].
      eapply Forall_impl; [exact F|]. cbn. intros b Hb. lia.
    + constructor; [lia | exact F].
    + now rewrite last_cons, L.
Qed.

Lemma send_progress_monotone_witness :
  shouldPauseSending calm = false
  /\ count (list_byte_of_string "abc") <= 2 ^ 48
  /\ totalChunksFor (count (list_byte_of_string "abc")) < Z.of_nat 2
  /\ exists s0 es0 s' es,
       sendFile (fun _ => Some []) calm "T1" "f.txt" "txt"
         (Some (list_byte_of_string "abc")) (initial "/tmp/GraphiteFlux")
       = Some (s0, es0)
       /\ pump 2 calm s0 = Some (s', es)
       /\ nondecreasing (progressBytes (es0 ++ es))
       /\ Forall (fun b => 0 <= b <= count (list_byte_of_string "abc"))
                 (progressBytes (es0 ++ es))
       /\ last (progressBytes (es0 ++ es)) = Some (count (list_byte_of_string "abc")).
Proof.
  assert (H1 : count (list_byte_of_string "abc") <= 2 ^ 48)
    by (vm_compute; discriminate).
  assert (H2 : totalChunksFor (count (list_byte_of_string "abc")) < Z.of_nat 2)
    by reflexivity.
  split; [reflexivity|]. split; [exact H1|]. split; [exact H2|].
  exact (send_progress_monotone (fun _ => Some []) calm "T1" "f.txt" "txt"
           (list_byte_of_string "abc") (initial "/tmp/GraphiteFlux") 2 eq_refl H1 H2).
Defined.

(** X21: cancelling. [cancelTransfer] with a transfer in progress sends
    TRANSFER_CANCEL with its id on channel 0 (the id of the outgoing
    transfer when there are two), reports the cancellation and forgets
    everything; a run of [sendNextChunks] that was already scheduled, a
    later FILE_COMPLETE and a second [cancelTransfer] then do nothing.
    The peer that receives TRANSFER_CANCEL ignores the id in the frame:
    it forgets whatever transfer it has and reports it under its own
    id. *)
Theorem cancel_stops_the_transfer decodeJSON (env : Env) (m : Manager) (tid : string) :
  sendingTransferId m = Some tid
  \/ (sendingTransferId m = None /\ receivingTransferId m = Some tid) ->
  let r := cancelTransfer m in
  r = (initial (tempDirectory m),
       [SendData (frame transferCancel (dataOfString tid)) 0; DidCancelTransfer tid])
  /\ (forall fuel env2, pump fuel env2 (fst r) = Some (fst r, []))
  /\ (forall payload,
        handleIncomingData decodeJSON env (frame fileComplete payload) (fst r)
        = Some (fst r, []))
  /\ cancelTransfer (fst r) = (fst r, [])
  /\ (forall peer payload,
        handleIncomingData decodeJSON env (frame transferCancel payload) peer
        = Some (initial (tempDirectory peer),
                [DidCancelTransfer
                   match sendingTransferId peer, receivingTransferId peer with
                   | Some own, _ => own
                   | None, Some own => own
                   | None, None => ""
                   end])).
Proof.
  intros Hid. cbv zeta.
  assert (E : cancelTransfer m
              = (initial (tempDirectory m),
                 [SendData (frame transferCancel (dataOfString tid)) 0;
                  DidCancelTransfer tid])).
  { unfold cancelTransfer. destruct Hid as [-> | [-> ->]]; reflexivity. }
  rewrite E. cbn [fst]. split; [reflexivity|]. split; [|split; [|split]].
  - intros [|fuel] env2; reflexivity.
  - reflexivity.
  - reflexivity.
  - intros peer payload. cbn. unfold handleTransferCancel, cleanup.
    destruct (sendingTransferId peer), (receivingTransferId peer); reflexivity.
Qed.

Lemma cancel_stops_the_transfer_witness :
  (sendingTransferId senderAbc = Some "T1"
   \/ (sendingTransferId senderAbc = None /\ receivingTransferId senderAbc = Some "T1"))
  /\ cancelTransfer senderAbc
     = (initial (tempDirectory senderAbc),
        [SendData (frame transferCancel (dataOfString "T1")) 0; DidCancelTransfer "T1"]).
Proof.
  assert (H : sendingTransferId senderAbc = Some "T1"
              \/ (sendingTransferId senderAbc = None
                  /\ receivingTransferId senderAbc = Some "T1"))
    by (left; reflexivity).
  split; [exact H|].
  exact (proj1 (cancel_stops_the_transfer noJSON calm senderAbc "T1" H)).
Defined.

(** X22: a FILE_METADATA frame starts over. When its JSON decodes, the
    receiver adopts the announced transfer, discards every chunk it
    holds and resets its byte counter, whatever it was receiving before;
    the outgoing side is untouched and TRANSFER_ACK goes out on channel
    0. A FILE_COMPLETE right after it, for a transfer of at least one
    chunk, fails with "Missing chunk 0". *)
Theorem metadata_starts_over decodeJSON (env : Env) (m : Manager) (json : Data)
    (md : FileMetadata) :
  json <> [] ->
  decodeJSON json = Some md ->
  exists m1,
    handleIncomingData decodeJSON env (frame fileMetadata json) m
    = Some (m1, [DidStartReceiving md;
                 SendData (frame transferAck (dataOfString (transferId md))) 0])
    /\ receivingMetadata m1 = Some md
    /\ receivingChunks m1 = ∅
    /\ receivingBytesReceived m1 = 0
    /\ setReceiving m1 (receivingChunks m) (receivingBytesReceived m)
       = {| sendingTransferId := sendingTransferId m;
            sendingFileData := sendingFileData m;
            sendingMetadata := sendingMetadata m;
            sendingChunkIndex := sendingChunkIndex m;
            sendingStartTime := sendingStartTime m;
            sendingPaused := sendingPaused m;
            receivingTransferId := Some (transferId md);
            receivingMetadata := Some md;
            receivingChunks := receivingChunks m;
            receivingBytesReceived := receivingBytesReceived m;
            receivingStartTime := Some (now env);
            tempDirectory := tempDirectory m |}
    /\ (0 < totalChunks md ->
        forall payload,
          handleIncomingData decodeJSON env (frame fileComplete payload) m1
          = Some (initial (tempDirectory m),
                  [SendData (frame transferFailed (dataOfString "Missing chunk 0")) 0;
                   DidFailTransfer (transferId md) "Missing chunk 0"])).
Proof.
  intros Hjson Hdec. eexists. split.
  - unfold frame. cbn [handleIncomingData].
    change (ofRawValue (rawValue fileMetadata)) with (Some fileMetadata). cbv iota.
    unfold handleFileMetadata.
    assert (Hc : 1 < count (rawValue fileMetadata :: json))
      by (unfold count; destruct json; [contradiction | cbn [length]; lia]).
    destruct (Z.ltb_spec 1 (count (rawValue fileMetadata :: json))) as [_|]; [|lia].
    cbn [skipn]. rewrite drop_0, Hdec. reflexivity.
  - repeat split. intros HN payload.
    rewrite handleIncomingData_complete. unfold handleFileComplete.
    cbn [receivingMetadata receivingChunks tempDirectory].
    destruct (Z.ltb_spec (totalChunks md) 0) as [|_]; [lia|].
    destruct (Z.to_nat (totalChunks md)) as [|n] eqn:En; [lia|].
    cbn [reassemble]. rewrite lookup_empty. reflexivity.
Qed.

Lemma metadata_starts_over_witness :
  list_byte_of_string "{}" <> []
  /\ exists m1,
       handleIncomingData (fun _ => Some metadataAbc) calm
         (frame fileMetadata (list_byte_of_string "{}")) receiverAbc
       = Some (m1, [DidStartReceiving metadataAbc;
                    SendData (frame transferAck (dataOfString "T1")) 0])
       /\ receivingChunks m1 = ∅.
Proof.
  assert (H : list_byte_of_string "{}" <> []) by discriminate.
  split; [exact H|].
  destruct (metadata_starts_over (fun _ => Some metadataAbc) calm receiverAbc
              (list_byte_of_string "{}") metadataAbc H eq_refl)
    as (m1 & E & _ & Hc & _).
  exists m1. split; [exact E | exact Hc].
Defined.

End TransferFlow.

(** ** The registry over time *)

Section HubInvariant.
Import Hub HubRun Scenario.

Lemma authenticated_incl (es es' : list Event) (h : Hub) :
  incl es es' -> authenticated es h -> authenticated es' h.
Proof.
  intros Hincl Ha k c Hget. destruct (Ha k c Hget) as (Hid & tok & Htok & Hin).
  split; [exact Hid|]. exists tok. split; [exact Htok | now apply Hincl].
Qed.

Lemma handleFluxMessage_registry (isOpen : WsId -> bool) now w client data h :
  fluxClients (fst (handleFluxMessage isOpen now w client data h)) = fluxClients h.
Proof.
  destruct data; cbn [handleFluxMessage];
    repeat match goal with
           | |- context [match ?x with _ => _ end] => destruct x
           end; reflexivity.
Qed.

Lemma authenticated_step (isOpen : WsId -> bool) (pre : list Event) (e : Event) (h : Hub) :
  authenticated pre h -> authenticated (pre ++ [e]) (fst (step isOpen e h)).
Proof.
  intros Ha.
  assert (Hold : authenticated (pre ++ [e]) h)
    by (apply (authenticated_incl pre); [apply incl_appl, incl_refl | exact Ha]).
  destruct e as [now w token verified|now client data|u]; cbn [step].
  - unfold onConnection.
    destruct token as [tok|]; [|exact Hold].
    destruct (String.eqb_spec tok "") as [|Htok]; [exact Hold|].
    destruct verified as [u| |]; try exact Hold.
    intros k c. cbn [fst fluxClients].
    destruct (String.eqb_spec (id u) k) as [<-|Hne].
    + rewrite jsmap_get_set_eq. intros [= <-]. cbn [user ws connectedAt].
      split; [reflexivity|]. exists tok. split; [exact Htok|].
      apply in_or_app. right. now left.
    + rewrite jsmap_get_set_ne by exact Hne. apply Hold.
  - intros k c. rewrite handleFluxMessage_registry. apply Hold.
  - intros k c. cbn [onClose fst fluxClients].
    destruct (String.eqb_spec (id u) k) as [<-|Hne].
    + now rewrite jsmap_get_delete_eq.
    + rewrite jsmap_get_delete_ne by exact Hne. apply Hold.
Qed.

Lemma authenticated_fold (isOpen : WsId -> bool) (es pre : list Event) (h : Hub) :
  authenticated pre h ->
  authenticated (pre ++ es) (fold_left (fun h e => fst (step isOpen e h)) es h).
Proof.
  revert pre h. induction es as [|e es IH]; intros pre h Ha; cbn [fold_left].
  - now rewrite app_nil_r.
  - replace (pre ++ e :: es) with ((pre ++ [e]) ++ es) by now rewrite <- app_assoc.
    apply IH. now apply authenticated_step.
Qed.

(** X23: only verified users are registered. From start-up, after any
    sequence of connections, signalling messages (ping, the [rtc_]
    messages, unknown types) and closes, every client in the registry is
    filed under the id of its user, and it was put there by a connection
    of the sequence on that socket whose token was not empty and verified
    as that user. None of these messages and no close registers
    anybody. *)
Theorem registry_holds_verified_users (isOpen : WsId -> bool) (es : list Event)
    (k : string) (c : Client) :
  JsMap.get k (fluxClients (run isOpen es)) = Some c ->
  id (user c) = k
  /\ exists tok, tok <> ""
                 /\ In (Connect (connectedAt c) (ws c) (Some tok) (VUser (user c))) es.
Proof.
  revert k c. change (authenticated es (run isOpen es)).
  apply (authenticated_fold isOpen es []). intros k c Hget. discriminate Hget.
Qed.

Lemma registry_holds_verified_users_witness :
  JsMap.get "A"
    (fluxClients
       (run allOpen [Connect 1 1%nat (Some "token") (VUser userA);
                     Message 2 clientA Ping;
                     Connect 3 2%nat (Some "forged") VNone]))
  = Some {| ws := 1%nat; user := userA; connectedAt := 1 |}
  /\ id userA = "A".
Proof.
  split; [reflexivity|].
  exact (proj1 (registry_holds_verified_users allOpen
                  [Connect 1 1%nat (Some "token") (VUser userA);
                   Message 2 clientA Ping;
                   Connect 3 2%nat (Some "forged") VNone]
                  "A" {| ws := 1%nat; user := userA; connectedAt := 1 |} eq_refl)).
Defined.

End HubInvariant.
